(** * Ladybug "Outdoor Solar Temperature Adjustor": hourly ERF / MRT engine

    A shallow embedding of the per-hour computations of
    [Ladybug_Outdoor Solar Temperature Adjustor.py]: the high-resolution
    path ([main], with [nonParallelRadCalc] / [parallelRadCalc]), the
    low-resolution path ([mainSimple], with [nonParallelMRTCalc] /
    [parallelMRTCalc]) and the reflectivity / absorptivity checks of
    [checkTheInputs].  Around them: the other checks of [checkTheInputs]
    (mean radiant temperature, window transmissivity, posture, analysis
    period) and its body points, the sky of a period ([getCumulativeSky],
    [prepareLBList]), what [mainSimple] prepares before the hours, the
    headers of the outputs and [convertFluxToTemp].

    Conventions of the embedding.
    - Python floats are idealised as real numbers ([R]); rounding is not
      modelled there.  Where rounding decides what the program does (the
      two azimuth loops at angles of huge magnitude, and the exact values
      of the MRT delta and of the solar-adjusted MRT), the same source
      lines are also given on binary64 floats, in [Binary64].  Python 2
      integers are [Z], and [/] between two integers is floor division
      ([Z.div]), as in the IronPython 2 interpreter the component runs
      in.
    - A Python exception ([IndexError], [ZeroDivisionError], ...) is the
      result [None] of the option monad.
    - The nested functions of [main] and [mainSimple] read the variables
      of the enclosing call; those variables are the fields of the records
      [HighRes.Env] and [LowRes.Env].
    - Rhino geometry ([MeshRay]), the sun path and the projected-area
      splines of [lb_comfortModels] are external and taken as parameters. *)

From Stdlib Require Import Floats.PrimFloat Floats.FloatOps Floats.FloatAxioms Floats.SpecFloat.
From Stdlib Require Import String Ascii.
From Stdlib Require Import Reals Lra Lia ZArith List Bool Arith Permutation Sorted.
From Equations Require Import Equations.
Import ListNotations.
Open Scope R_scope.
Set Warnings "-inexact-float".

(** ** Python values and the error monad *)

Module Py.

Definition bind {A B} (m : option A) (k : A -> option B) : option B :=
  match m with
  | Some a => k a
  | None => None
  end.

Fixpoint mapM {A B} (f : A -> option B) (l : list A) : option (list B) :=
  match l with
  | [] => Some []
  | a :: l' =>
      match f a with
      | Some b =>
          match mapM f l' with
          | Some bs => Some (b :: bs)
          | None => None
          end
      | None => None
      end
  end.

(** [x > y], [x < y], [x != y] on floats *)
Definition gtb (x y : R) : bool := if Rlt_dec y x then true else false.
Definition ltb (x y : R) : bool := if Rlt_dec x y then true else false.
Definition neqb (x y : R) : bool := if Req_dec_T x y then false else true.

(** [l[i]]: a negative index counts from the end; out of range raises. *)
Definition index {A} (l : list A) (i : Z) : option A :=
  if (0 <=? i)%Z then nth_error l (Z.to_nat i)
  else if (- Z.of_nat (length l) <=? i)%Z
       then nth_error l (Z.to_nat (Z.of_nat (length l) + i))
       else None.

(** [sum(l)] starts from 0 and adds from the left. *)
Definition sum (l : list R) : R := fold_left Rplus l 0.
Definition sumZ (l : list Z) : Z := fold_left Z.add l 0%Z.

(** [x / y] on floats raises on a zero divisor. *)
Definition div (x y : R) : option R :=
  if Req_dec_T y 0 then None else Some (x / y).

(** [a / b] on Python 2 integers: floor division, raises on zero. *)
Definition intdiv (a b : Z) : option Z :=
  if (b =? 0)%Z then None else Some (a / b)%Z.

(** [int(x)]: truncation towards zero. *)
Definition int (x : R) : Z :=
  if Rle_dec 0 x then Int_part x else (- Int_part (- x))%Z.

(** [math.degrees(x)] *)
Definition degrees (x : R) : R := x * (180 / PI).

(** [enumerate(l)] *)
Fixpoint enumerateFrom {A} (n : nat) (l : list A) : list (nat * A) :=
  match l with
  | [] => []
  | a :: l' => (n, a) :: enumerateFrom (S n) l'
  end.
Definition enumerate {A} (l : list A) : list (nat * A) := enumerateFrom 0 l.

End Py.

Notation "x <- m ;; k" := (Py.bind m (fun x => k))
  (at level 61, m at next level, right associativity).

(** ** Posture-dependent constants (shared by [main] and [mainSimple]) *)

(** [bodyPosture_ == k]; [None] compares unequal to every integer. *)
Definition postureIs (bodyPosture_ : option Z) (k : Z) : bool :=
  match bodyPosture_ with
  | Some z => (z =? k)%Z
  | None => false
  end.

Definition postureIsNone (bodyPosture_ : option Z) : bool :=
  match bodyPosture_ with
  | Some _ => false
  | None => true
  end.

Definition standing (p : option Z) : bool := postureIs p 0 || postureIs p 3.
Definition seated (p : option Z) : bool :=
  postureIs p 1 || postureIs p 4 || postureIsNone p.

(** The fraction of the body visible to radiation. *)
Definition fracEff (bodyPosture_ : option Z) : R :=
  if standing bodyPosture_ then 0.725
  else if seated bodyPosture_ then 0.696
  else 0.68.

Definition radTransCoeff : R := 6.012.

(** ** The three output series and the appends of one hour *)

Record Series := mkSeries {
  ERF : list R;
  MRTDelta : list R;
  solarAdjustedMRT : list R;
  hourOrder : list nat
}.

Definition emptySeries : Series := mkSeries [] [] [] [].

Inductive Action :=
| AppendERF (x : R)
| AppendMRT (x : R)
| AppendDelta (x : R)
| AppendOrder (count : nat).

Definition append (st : Series) (a : Action) : Series :=
  match a with
  | AppendERF x =>
      mkSeries (ERF st ++ [x]) (MRTDelta st) (solarAdjustedMRT st) (hourOrder st)
  | AppendMRT x =>
      mkSeries (ERF st) (MRTDelta st) (solarAdjustedMRT st ++ [x]) (hourOrder st)
  | AppendDelta x =>
      mkSeries (ERF st) (MRTDelta st ++ [x]) (solarAdjustedMRT st) (hourOrder st)
  | AppendOrder c =>
      mkSeries (ERF st) (MRTDelta st) (solarAdjustedMRT st) (hourOrder st ++ [c])
  end.

Definition runActions (acts : list Action) (st : Series) : Series :=
  fold_left append acts st.

(** [for count, hour in enumerate(HOYS): body], every hour's appends done
    before the next hour starts. *)
Fixpoint forEach {A} (body : A -> option (list Action)) (l : list A)
  (st : Series) : option Series :=
  match l with
  | [] => Some st
  | a :: l' =>
      match body a with
      | Some acts => forEach body l' (runActions acts st)
      | None => None
      end
  end.

(** What one hour contributes to each series. *)
Definition erfOf (a : Action) : list R :=
  match a with AppendERF x => [x] | _ => [] end.
Definition mrtOf (a : Action) : list R :=
  match a with AppendMRT x => [x] | _ => [] end.
Definition deltaOf (a : Action) : list R :=
  match a with AppendDelta x => [x] | _ => [] end.
Definition orderOf (a : Action) : list nat :=
  match a with AppendOrder c => [c] | _ => [] end.

(** An hour that appends exactly one value to each of the three series. *)
Definition OneEach (acts : list Action) (e m d : R) : Prop :=
  flat_map erfOf acts = [e]
  /\ flat_map mrtOf acts = [m]
  /\ flat_map deltaOf acts = [d].

(** ** The parallel loop and the re-ordering of its results

    [tasks.Parallel.ForEach(range(len(HOYS)), body)] runs one worker per
    index.  A worker performs the appends of its hour and then
    [hourOrder.append(count)]; the four lists are shared, and nothing
    groups the appends of one worker, so the appends of different workers
    may interleave.  A schedule names, step by step, the worker that
    performs its next append. *)

Module Parallel.

Definition task (body : nat -> option (list Action)) (count : nat)
  : option (list Action) :=
  acts <- body count ;;
  Some (acts ++ [AppendOrder count]).

Definition programs (body : nat -> option (list Action)) (n : nat)
  : option (list (list Action)) :=
  Py.mapM (task body) (seq 0 n).

Fixpoint setNth {A} (n : nat) (x : A) (l : list A) {struct l} : list A :=
  match l with
  | [] => []
  | y :: l' =>
      match n with
      | O => x :: l'
      | S n' => y :: setNth n' x l'
      end
  end.

Definition finished (progs : list (list Action)) : bool :=
  forallb (fun prog => match prog with [] => true | _ => false end) progs.

(** [None] when the schedule is not an interleaving of the whole of
    every program. *)
Fixpoint interleave (progs : list (list Action)) (schedule : list nat)
  (st : Series) : option Series :=
  match schedule with
  | [] => if finished progs then Some st else None
  | worker :: schedule' =>
      match nth_error progs worker with
      | Some (a :: prog') =>
          interleave (setNth worker prog' progs) schedule' (append st a)
      | _ => None
      end
  end.

Definition ForEach (body : nat -> option (list Action)) (n : nat)
  (schedule : list nat) : option Series :=
  progs <- programs body n ;;
  interleave progs schedule emptySeries.



(** [sorted(zip(hourOrder, xs))]: tuples compare lexicographically, and
    the sort is stable. *)
Definition pair_leb (p q : nat * R) : bool :=
  (fst p <? fst q)%nat
  || ((fst p =? fst q)%nat && negb (Py.gtb (snd p) (snd q))).

Fixpoint insert (p : nat * R) (l : list (nat * R)) : list (nat * R) :=
  match l with
  | [] => [p]
  | q :: l' => if pair_leb p q then p :: q :: l' else q :: insert p l'
  end.

Fixpoint sorted (l : list (nat * R)) : list (nat * R) :=
  match l with
  | [] => []
  | p :: l' => insert p (sorted l')
  end.

(** [[x for (y,x) in sorted(zip(hourOrder, xs))]] *)
Definition reorder (hourOrder : list nat) (xs : list R) : list R :=
  map snd (sorted (combine hourOrder xs)).

Definition resort (st : Series) : Series :=
  mkSeries (reorder (hourOrder st) (ERF st))
    (reorder (hourOrder st) (MRTDelta st))
    (reorder (hourOrder st) (solarAdjustedMRT st))
    (hourOrder st).


(** The two orders in which the hourly functions append the three values
    of an hour. *)
Definition ThreeAppends (acts : list Action) (x m d : R) : Prop :=
  acts = [AppendERF x; AppendMRT m; AppendDelta d]
  \/ acts = [AppendERF x; AppendDelta d; AppendMRT m].

End Parallel.

(** ** High-resolution path: [main] *)

Module HighRes.

(** One entry of [intersectionMtx[ptCount][patchCount]]. *)
Record Intersection := mkIntersection {
  isIntersect : bool;
  vecAngle : R
}.

(** The variables of [main] that the hourly functions read. *)
Record Env := mkEnv {
  bodyPosture_ : option Z;
  method : Z;
  HOYS : list Z;
  radTemp : list R;
  altitudes : list R;
  finalWinTransmiss : list R;
  (** [cumSkyMtx.d]: patch number, then hour of the year, to the
      (diffuse, direct) pair; in [keys()] order. *)
  cumSkyMtx_d : list (Z * (Z -> option (R * R)));
  (** [intDict]: per sample point, per patch, in [keys()] order. *)
  intDict : list (list (nat * Intersection));
  meshSrfAreas : list R;
  conversionFac : R;
  groundR : R;
  cloA : R
}.

(** [getHourlySky]: the hour's entry of every patch but patch 0, the
    ground. *)
Definition getHourlySky (daylightMtxDict : list (Z * (Z -> option (R * R))))
  (HOY : Z) : option (list (R * R)) :=
  Py.mapM (fun entry => snd entry HOY)
    (filter (fun entry => negb (fst entry =? 0)%Z) daylightMtxDict).

(** [prepareLBList] with nothing removed stores [sum(radValues)] as the
    patch's total radiation; [separateList] cuts the concatenated result
    at its headers, so [separatedLists[0]] holds exactly these totals. *)
Definition skyMatrixOf (skyMtxLists : list (R * R)) : list R :=
  map (fun radValues => 0 + fst radValues + snd radValues) skyMtxLists.

(** [personMeshAreas]: the areas but the last (the ground), in metres. *)
Definition personMeshAreas (e : Env) : list R :=
  map (fun area => area * conversionFac e * conversionFac e)
    (removelast (meshSrfAreas e)).

(** [totalPersonArea] is bound only for methods 0 and 1. *)
Definition totalPersonArea (e : Env) : option R :=
  if (method e =? 0)%Z then Some (Py.sum (personMeshAreas e))
  else if (method e =? 1)%Z then Some 1.775
  else None.

(** The sun-up test of one hour: the hour, the entry before it (index
    [count-1], which for [count = 0] is the last entry) and the entry
    [count+lastVal]. *)
Definition lastVal (e : Env) (count : nat) : Z :=
  if negb (Z.of_nat count =? Z.of_nat (length (HOYS e)) - 1)%Z then 1%Z
  else 0%Z.

Definition sunUpTest (e : Env) (count : nat) : option bool :=
  a <- Py.index (altitudes e) (Z.of_nat count) ;;
  if Py.gtb a 0 then Some true
  else
    b <- Py.index (altitudes e) (Z.of_nat count - 1) ;;
    if Py.gtb b 0 then Some true
    else
      c <- Py.index (altitudes e) (Z.of_nat count + lastVal e count) ;;
      Some (Py.gtb c 0).

(** The positions in [altitudes] that the test reads besides [count]:
    [count-1], which Python reads from the end of the list when
    [count = 0], and [count+lastVal]. *)
Definition prevIndex (n count : nat) : nat :=
  if (count =? 0)%nat then (n - 1)%nat else (count - 1)%nat.

Definition nextIndex (n count : nat) : nat :=
  if (count =? n - 1)%nat then count else (count + 1)%nat.

(** The test as the specification words it, with both neighbours taken
    cyclically in the period. *)
Definition sunUpTestCyclic (e : Env) (count : nat) : option bool :=
  let n := length (HOYS e) in
  a <- nth_error (altitudes e) count ;;
  b <- nth_error (altitudes e) ((count + n - 1) mod n) ;;
  c <- nth_error (altitudes e) ((count + 1) mod n) ;;
  Some (Py.gtb a 0 || Py.gtb b 0 || Py.gtb c 0).

(** The inner loop over the patches of one sample point. *)
Fixpoint pointRadiation (skyMatrix : list R)
  (patches : list (nat * Intersection)) (radValue : R) : option R :=
  match patches with
  | [] => Some radValue
  | (patchCount, i) :: rest =>
      if isIntersect i then
        match nth_error skyMatrix patchCount with
        | Some s => pointRadiation skyMatrix rest (radValue + s * cos (vecAngle i))
        | None => None
        end
      else pointRadiation skyMatrix rest radValue
  end.

(** The intermediate values of one computed hour. *)
Record Flux := mkFlux {
  radiationResult : list R;
  groundSample : R;
  totalPersonBeamDiffRad : R;
  groundRefRad : R;
  radiantFlux : R
}.

Definition hourFlux (e : Env) (count : nat) (hour : Z) : option Flux :=
  skyMtxLists <- getHourlySky (cumSkyMtx_d e) hour ;;
  let skyMatrix := skyMatrixOf skyMtxLists in
  radiationResult <-
    Py.mapM (fun patches => pointRadiation skyMatrix patches 0) (intDict e) ;;
  let personRad := removelast radiationResult in
  groundRad <- Py.index radiationResult (-1) ;;
  let totalPersonBeamDiffRad :=
    Py.sum (map (fun ab => fst ab * snd ab)
              (combine personRad (personMeshAreas e))) in
  w <- Py.index (finalWinTransmiss e) (Z.of_nat count) ;;
  let groundRad' := if Py.neqb w 1 then groundRad * w else groundRad in
  let totalPersonBeamDiffRad' :=
    if Py.neqb w 1 then totalPersonBeamDiffRad * w
    else totalPersonBeamDiffRad in
  let groundRefRad := 0.5 * groundRad' * fracEff (bodyPosture_ e) * groundR e in
  let totalPersonRad := totalPersonBeamDiffRad' + groundRefRad in
  area <- totalPersonArea e ;;
  radiantFlux <- Py.div totalPersonRad area ;;
  Some (mkFlux radiationResult groundRad totalPersonBeamDiffRad
          groundRefRad radiantFlux).

Definition hourERF (e : Env) (f : Flux) : R := (radiantFlux f * cloA e) / 0.95.

(** The body shared by the loop of [nonParallelRadCalc] and by
    [radCalc]: the appends of hour [count], in program order.  The sum
    [hourMRT] and the difference [mrtDelt] are exact here; on binary64
    each is rounded, see [Binary64.highResValues]. *)
Definition radCalc (e : Env) (count : nat) (hour : Z) : option (list Action) :=
  up <- sunUpTest e count ;;
  if up then
    f <- hourFlux e count hour ;;
    let hourERF := hourERF e f in
    rt <- Py.index (radTemp e) (Z.of_nat count) ;;
    let hourMRT := hourERF / (fracEff (bodyPosture_ e) * radTransCoeff) + rt in
    let mrtDelt := hourMRT - rt in
    Some [AppendERF (hourERF / 1000); AppendMRT hourMRT; AppendDelta mrtDelt]
  else
    rt <- Py.index (radTemp e) (Z.of_nat count) ;;
    Some [AppendERF 0; AppendMRT rt; AppendDelta 0].

Definition nonParallelRadCalc (e : Env) : option Series :=
  forEach (fun ch => radCalc e (fst ch) (snd ch)) (Py.enumerate (HOYS e))
    emptySeries.

(** The sum over the patches flagged as intersecting of the patch's
    radiation times the cosine of the stored angle. *)
Definition patchSum (skyMatrix : list R) (patches : list (nat * Intersection))
  : R :=
  Py.sum
    (map (fun p => nth (fst p) skyMatrix 0 * cos (vecAngle (snd p)))
       (filter (fun p => isIntersect (snd p)) patches)).

(** What [main] establishes before the hours are computed: one altitude,
    baseline temperature and transmissivity per hour, a sky entry of
    every patch for every hour, a patch of the sky for every flagged
    entry of the intersection matrix, a ground sample, and a body of
    non-zero area. *)
Record WellFormed (e : Env) : Prop := mkWellFormed {
  wf_altitudes : length (altitudes e) = length (HOYS e);
  wf_radTemp : length (radTemp e) = length (HOYS e);
  wf_winTrans : length (finalWinTransmiss e) = length (HOYS e);
  wf_sky : forall hour, In hour (HOYS e) ->
    exists skyMtxLists,
      getHourlySky (cumSkyMtx_d e) hour = Some skyMtxLists
      /\ forall patches p, In patches (intDict e) -> In p patches ->
           isIntersect (snd p) = true -> (fst p < length skyMtxLists)%nat;
  wf_ground : intDict e <> [];
  wf_area : exists area, totalPersonArea e = Some area /\ area <> 0
}.

Definition parallelRadCalc (e : Env) (schedule : list nat) : option Series :=
  Parallel.ForEach
    (fun count => hour <- nth_error (HOYS e) count ;; radCalc e count hour)
    (length (HOYS e)) schedule.

(** The three series of [main], before the headers are inserted. *)
Definition main (e : Env) (parallel : bool) (schedule : list nat)
  : option Series :=
  if parallel then
    st <- parallelRadCalc e schedule ;;
    Some (Parallel.resort st)
  else nonParallelRadCalc e.

End HighRes.

(** ** Low-resolution path: [mainSimple] *)

Module LowRes.

(** The two [while] loops that fold the azimuth into the range of the
    spline, on the reals.  There each is total: the number of turns left
    is bounded by the integer part of the distance to the range, in units
    of 180.  On binary64 the first loop computes the same values as long
    as the azimuth is below 2^53, where subtracting 180 is exact; below
    that magnitude the second loop moves by exact steps too, up to its
    last addition, which can round (to a value from 0 to 180).  At a
    magnitude such as 1e19 the subtraction returns its argument and the
    loop does not end, see [Binary64.azLoopDown]. *)
Equations? azLoopDown (azFinal : R) : R
  by wf (Z.to_nat (up (azFinal / 180))) lt :=
  azLoopDown azFinal with Rlt_dec 180 azFinal := {
    | left _ => azLoopDown (azFinal - 180)
    | right _ => azFinal }.
Proof.
  replace ((azFinal - 180) / 180) with (azFinal / 180 + IZR (-1))
    by (simpl; field).
  assert (Hup : (up (azFinal / 180 + IZR (-1)) = up (azFinal / 180) + -1)%Z).
  { symmetry. apply tech_up; rewrite plus_IZR;
      destruct (archimed (azFinal / 180)); lra. }
  rewrite Hup.
  assert (1 < up (azFinal / 180))%Z.
  { apply lt_IZR. destruct (archimed (azFinal / 180)).
    assert (azFinal / 180 > 1) by lra. lra. }
  lia.
Qed.

Equations? azLoopUp (azFinal : R) : R
  by wf (Z.to_nat (up (- azFinal / 180))) lt :=
  azLoopUp azFinal with Rlt_dec azFinal 0 := {
    | left _ => azLoopUp (azFinal + 180)
    | right _ => azFinal }.
Proof.
  replace (- (azFinal + 180) / 180) with (- azFinal / 180 + IZR (-1))
    by (simpl; field).
  assert (Hup : (up (- azFinal / 180 + IZR (-1)) = up (- azFinal / 180) + -1)%Z).
  { symmetry. apply tech_up; rewrite plus_IZR;
      destruct (archimed (- azFinal / 180)); lra. }
  rewrite Hup.
  assert (0 < up (- azFinal / 180))%Z.
  { apply lt_IZR. destruct (archimed (- azFinal / 180)).
    assert (- azFinal / 180 > 0) by lra. lra. }
  lia.
Qed.

(** [azFinal], the azimuth handed to the spline. *)
Definition azFinalOf (azInit : R) : Z :=
  Py.int (if Py.gtb azInit 180 then azLoopDown azInit
          else if Py.ltb azInit 0 then azLoopUp azInit
          else azInit).

(** [altFinal], from the altitude in radians. *)
Definition altFinalOf (altitude : R) : Z :=
  let altInit := Py.int (Py.degrees altitude) in
  if (90 <? altInit)%Z then (altInit - 90)%Z else altInit.

Section Geometry.

Context {Point Vector Mesh : Type}.

(** [rc.Geometry.Intersect.Intersection.MeshRay(mesh, Ray3d(point, vec))] *)
Variable MeshRay : Mesh -> Point -> Vector -> R.

(** [lb_comfortModels.splineStand] and [splineSit] *)
Variables splineStand splineSit : Z -> Z -> R.

(** The variables of [mainSimple] that the hourly functions read. *)
Record Env := mkEnv {
  bodyPosture_ : option Z;
  HOYS : list Z;
  radTemp : list R;
  mannequinMesh : list Point;
  context : list Mesh;
  groundR : R;
  cloA : R;
  winTrans : list R;
  rotationAngle : R;
  northAngle : R;
  directSolarRad : list R;
  diffSolarRad : list R;
  altitudes : list R;
  azimuths : list R;
  sunVectors : list (option Vector);
  (** [lb_preparation.TregenzaPatchesNormalVectors] *)
  viewVectors : list Vector
}.

Arguments Env : clear implicits.

(** The loop [for mesh in context: if rayIntersect > 0: blocked = True]. *)
Definition rayBlocked (context : list Mesh) (point : Point) (vec : Vector)
  : bool :=
  fold_left
    (fun blocked mesh =>
       if Py.gtb (MeshRay mesh point vec) 0 then true else blocked)
    context false.

Definition middlePt (e : Env) : option Point :=
  let p := bodyPosture_ e in
  if postureIsNone p || postureIs p 0 || postureIs p 1 || postureIs p 2
  then Py.index (mannequinMesh e) 4
  else Py.index (mannequinMesh e) 1.

(** [skyViewFac], computed once before the hours. *)
Definition skyViewFac (e : Env) : option Z :=
  middle <- middlePt e ;;
  if (0 <? length (context e))%nat then
    let totalVecNum := Z.of_nat (length (viewVectors e)) in
    let vecBlockedList :=
      flat_map (fun viewVec =>
                  if rayBlocked (context e) middle viewVec then [1%Z] else [])
        (viewVectors e) in
    q <- Py.intdiv (Py.sumZ vecBlockedList) totalVecNum ;;
    Some (1 - q)%Z
  else Some 1%Z.

(** [fBes] of a sun-up hour. *)
Definition fBesList (e : Env) (sunVec : Vector) : list Z :=
  map (fun point => if rayBlocked (context e) point sunVec then 0%Z else 1%Z)
    (mannequinMesh e).

Definition fBesOf (e : Env) (count : nat) : option Z :=
  if (0 <? length (context e))%nat then
    match nth_error (sunVectors e) count with
    | Some (Some sunVec) =>
        Py.intdiv (Py.sumZ (fBesList e sunVec))
          (Z.of_nat (length (fBesList e sunVec)))
    | _ => None
    end
  else Some 1%Z.

Definition azInitOf (e : Env) (azimuth : R) : R :=
  let azInit := Py.degrees azimuth in
  let azInit :=
    if Py.neqb (northAngle e) 0 then azInit + northAngle e else azInit in
  if Py.neqb (rotationAngle e) 0 then azInit + rotationAngle e else azInit.

(** The arguments of the spline call of the posture. *)
Definition splineArgs (e : Env) (azimuth altitude : R) : Z * Z :=
  let azFinal := azFinalOf (azInitOf e azimuth) in
  let altFinal := altFinalOf altitude in
  if standing (bodyPosture_ e) then (azFinal, altFinal)
  else if seated (bodyPosture_ e) then (azFinal, altFinal)
  else (azFinal, 90 - altFinal)%Z.

Definition ProjAreaFac (e : Env) (azimuth altitude : R) : R :=
  let args := splineArgs e azimuth altitude in
  if standing (bodyPosture_ e) then splineStand (fst args) (snd args)
  else if seated (bodyPosture_ e) then splineSit (fst args) (snd args)
  else splineStand (fst args) (snd args).

(** The ERF of a sun-up hour with [fBes > 0]. *)
Definition hourERF (e : Env) (skyViewFac fBes : Z) (count : nat) (hour : Z)
  : option R :=
  diffRad <- Py.index (diffSolarRad e) (hour - 1) ;;
  dirNormRad <- Py.index (directSolarRad e) (hour - 1) ;;
  altitude <- Py.index (altitudes e) (Z.of_nat count) ;;
  let globHorizRad := dirNormRad * sin altitude + diffRad in
  azimuth <- Py.index (azimuths e) (Z.of_nat count) ;;
  let ProjAreaFac := ProjAreaFac e azimuth altitude in
  w <- Py.index (winTrans e) (hour - 1) ;;
  let fracEff := fracEff (bodyPosture_ e) in
  Some (((0.5 * fracEff * IZR skyViewFac
          * (diffRad + (globHorizRad * groundR e))
          + (fracEff * ProjAreaFac * IZR fBes * dirNormRad)) * w)
        * (cloA e / 0.95)).

(** The body shared by the loop of [nonParallelMRTCalc] and by
    [MRTCalc]: the appends of hour [count], in program order.  The
    quotient [mrtDelt] and the sum [hourMRT] are exact here; on binary64
    each is rounded, see [Binary64.lowResValues]. *)
Definition MRTCalc (e : Env) (skyViewFac : Z) (count : nat) (hour : Z)
  : option (list Action) :=
  altitude <- Py.index (altitudes e) (Z.of_nat count) ;;
  if Py.gtb altitude 0 then
    fBes <- fBesOf e count ;;
    if (0 <? fBes)%Z then
      hourERF <- hourERF e skyViewFac fBes count hour ;;
      let mrtDelt := hourERF / (fracEff (bodyPosture_ e) * radTransCoeff) in
      rt <- Py.index (radTemp e) (Z.of_nat count) ;;
      let hourMRT := mrtDelt + rt in
      Some [AppendERF hourERF; AppendDelta mrtDelt; AppendMRT hourMRT]
    else
      rt <- Py.index (radTemp e) (Z.of_nat count) ;;
      Some [AppendERF 0; AppendMRT rt; AppendDelta 0]
  else
    rt <- Py.index (radTemp e) (Z.of_nat count) ;;
    Some [AppendERF 0; AppendMRT rt; AppendDelta 0].

Definition nonParallelMRTCalc (e : Env) : option Series :=
  skyViewFac <- skyViewFac e ;;
  forEach (fun ch => MRTCalc e skyViewFac (fst ch) (snd ch))
    (Py.enumerate (HOYS e)) emptySeries.

(** What [mainSimple] establishes before the hours are computed: one
    altitude, azimuth, sun vector and baseline temperature per hour,
    with a sun vector whenever the sun is up; hours that index the
    annual series; the reference point of the body; and, when there is
    context, view vectors to divide by. *)
Record WellFormed (e : Env) : Prop := mkWellFormed {
  wf_altitudes : length (altitudes e) = length (HOYS e);
  wf_azimuths : length (azimuths e) = length (HOYS e);
  wf_radTemp : length (radTemp e) = length (HOYS e);
  wf_hours : forall hour, In hour (HOYS e) ->
    (1 <= hour <= Z.of_nat (length (directSolarRad e)))%Z
    /\ (hour <= Z.of_nat (length (diffSolarRad e)))%Z
    /\ (hour <= Z.of_nat (length (winTrans e)))%Z;
  wf_middle : exists middle, middlePt e = Some middle;
  wf_views : context e <> [] -> viewVectors e <> [];
  wf_sun : forall count altitude,
    context e <> [] ->
    nth_error (altitudes e) count = Some altitude -> altitude > 0 ->
    exists sunVec, nth_error (sunVectors e) count = Some (Some sunVec)
}.

Definition parallelMRTCalc (e : Env) (schedule : list nat) : option Series :=
  skyViewFac <- skyViewFac e ;;
  Parallel.ForEach
    (fun count =>
       hour <- nth_error (HOYS e) count ;; MRTCalc e skyViewFac count hour)
    (length (HOYS e)) schedule.

(** The three series of [mainSimple], before the headers are inserted. *)
Definition mainSimple (e : Env) (parallel : bool) (schedule : list nat)
  : option Series :=
  if parallel then
    st <- parallelMRTCalc e schedule ;;
    Some (Parallel.resort st)
  else nonParallelMRTCalc e.

End Geometry.

Arguments Env : clear implicits.

End LowRes.

(** ** The rounding-sensitive steps on binary64

    The lines of the hourly functions whose outcome depends on rounding,
    on the kernel's binary64 floats: the azimuth loops, and the values
    appended for an hour once its ERF is known. *)

Module Binary64.

Local Open Scope float_scope.

Definition radTransCoeff : float := 6.012.

Definition fracEff (bodyPosture_ : option Z) : float :=
  if standing bodyPosture_ then 0.725
  else if seated bodyPosture_ then 0.696
  else 0.68.

(** The values appended to (ERF, MRTDelta, solarAdjustedMRT) by
    [nonParallelMRTCalc] and [MRTCalc] for an hour with solar gain, from
    the hour's [hourERF] and [radTemp[count]]. *)
Definition lowResValues (bodyPosture_ : option Z) (hourERF rt : float)
  : float * float * float :=
  let mrtDelt := hourERF / (fracEff bodyPosture_ * radTransCoeff) in
  let hourMRT := mrtDelt + rt in
  (hourERF, mrtDelt, hourMRT).

(** The same for [nonParallelRadCalc] and [radCalc]. *)
Definition highResValues (bodyPosture_ : option Z) (hourERF rt : float)
  : float * float * float :=
  let hourMRT := hourERF / (fracEff bodyPosture_ * radTransCoeff) + rt in
  let mrtDelt := hourMRT - rt in
  (hourERF / 1000, mrtDelt, hourMRT).

(** The values appended, in all four functions, for an hour without solar
    gain: [ERF.append(0)], [solarAdjustedMRT.append(radTemp[count])],
    [MRTDelta.append(0)]. *)
Definition noGainValues (rt : float) : float * float * float := (0, 0, rt).

(** [azInit], from [math.degrees(azimuths[count])]. *)
Definition azInitOf (azimuthDegrees northAngle rotationAngle : float) : float :=
  let azInit := azimuthDegrees in
  let azInit :=
    if negb (northAngle =? 0) then azInit + northAngle else azInit in
  if negb (rotationAngle =? 0) then azInit + rotationAngle else azInit.

(** [while azFinal > 180: azFinal = azFinal-180], run for at most [fuel]
    turns: [None] when the condition still holds after them. *)
Fixpoint azLoopDown (fuel : nat) (azFinal : float) : option float :=
  if 180 <? azFinal then
    match fuel with
    | O => None
    | S fuel' => azLoopDown fuel' (azFinal - 180)
    end
  else Some azFinal.

(** [while azFinal < 0: azFinal = azFinal+180], likewise. *)
Fixpoint azLoopUp (fuel : nat) (azFinal : float) : option float :=
  if azFinal <? 0 then
    match fuel with
    | O => None
    | S fuel' => azLoopUp fuel' (azFinal + 180)
    end
  else Some azFinal.

(** [azFinal] as it stands before [int(azFinal)]. *)
Definition azFinalOf (fuel : nat) (azInit : float) : option float :=
  if 180 <? azInit then azLoopDown fuel azInit
  else if azInit <? 0 then azLoopUp fuel azInit
  else Some azInit.

End Binary64.

(** ** The visibility fractions and the ERF as the specification words them

    The direct-sun visibility fraction and the sky-view factor as
    fractions, and the ERF formula over them, for comparison with
    [LowRes.fBesOf], [LowRes.skyViewFac] and [LowRes.hourERF]. *)

Module Claimed.

Section Geometry.

Context {Point Vector Mesh : Type}.

Variable MeshRay : Mesh -> Point -> Vector -> R.

(** The fraction of the body points whose ray toward the sun no context
    mesh blocks. *)
Definition fBes (e : LowRes.Env Point Vector Mesh) (sunVec : Vector) : R :=
  INR (length (filter (fun point =>
                         negb (LowRes.rayBlocked MeshRay (LowRes.context e)
                                 point sunVec))
                 (LowRes.mannequinMesh e)))
  / INR (length (LowRes.mannequinMesh e)).

(** The fraction of the view directions whose ray from the middle point no
    context mesh blocks. *)
Definition skyViewFac (e : LowRes.Env Point Vector Mesh) (middle : Point) : R :=
  INR (length (filter (fun viewVec =>
                         negb (LowRes.rayBlocked MeshRay (LowRes.context e)
                                 middle viewVec))
                 (LowRes.viewVectors e)))
  / INR (length (LowRes.viewVectors e)).

End Geometry.

Definition ERF (fracEff skyViewFac diffRad dirNormRad altitude groundR
                ProjAreaFac fBes w cloA : R) : R :=
  ((0.5 * fracEff * skyViewFac
    * (diffRad + (dirNormRad * sin altitude + diffRad) * groundR))
   + (fracEff * ProjAreaFac * fBes * dirNormRad))
  * w * (cloA / 0.95).

End Claimed.

(** ** Input checks: [checkTheInputs] and the run condition *)

Module Inputs.

(** An input that is not connected is [None]. *)
Definition checkGroundReflectivity (groundReflectivity_ : option R)
  : bool * option R :=
  match groundReflectivity_ with
  | Some v =>
      if Py.ltb v 1 && Py.gtb v 0 then (true, Some v) else (false, None)
  | None => (true, Some 0.25)
  end.

Definition checkClothingAbsorptivity (clothingAbsorptivity_ : option R)
  : bool * option R :=
  match clothingAbsorptivity_ with
  | Some v =>
      if Py.ltb v 1 && Py.gtb v 0 then (true, Some v) else (false, None)
  | None => (true, Some 0.7)
  end.

(** The outcome of the checks of the other inputs. *)
Record OtherChecks := mkOtherChecks {
  checkData1 : bool;
  checkData2 : bool;
  checkData3 : bool;
  checkData6 : bool;
  checkData7 : bool;
  checkData8 : bool;
  checkData9 : bool
}.

Definition checkData (o : OtherChecks)
  (groundReflectivity_ clothingAbsorptivity_ : option R) : bool :=
  let checkData4 := fst (checkGroundReflectivity groundReflectivity_) in
  let checkData5 := fst (checkClothingAbsorptivity clothingAbsorptivity_) in
  if checkData1 o && checkData2 o && checkData3 o && checkData4 && checkData5
     && checkData6 o && checkData7 o && checkData8 o && checkData9 o
  then true else false.

(** The condition under which the script calls [main] or [mainSimple]:
    [manageInputOutput] is called, and returns [True], only when
    [checkData] holds. *)
Definition analysisRuns (_runIt checkData : bool) : bool :=
  let checkInputOutput := if checkData then true else false in
  _runIt && checkData && checkInputOutput.

End Inputs.

(** ** More of Python: slices, ranges, values of mixed type *)

Module PyList.

(** The position a slice bound stands for in a list of length [len]. *)
Definition clamp (len i : Z) : Z :=
  if (i <? 0)%Z then Z.max 0 (len + i) else Z.min i len.

(** [l[a:b]], [l[a:]] and [l[:b]] *)
Definition slice {A} (l : list A) (a b : Z) : list A :=
  let len := Z.of_nat (length l) in
  firstn (Z.to_nat (clamp len b - clamp len a)) (skipn (Z.to_nat (clamp len a)) l).

Definition sliceFrom {A} (l : list A) (a : Z) : list A :=
  slice l a (Z.of_nat (length l)).

Definition sliceTo {A} (l : list A) (b : Z) : list A := slice l 0 b.

(** [range(n)] *)
Definition range (n : Z) : list Z := map Z.of_nat (seq 0 (Z.to_nat n)).

(** [x <= y] and [x >= y] on floats *)
Definition leb (x y : R) : bool := if Rle_dec x y then true else false.
Definition geb (x y : R) : bool := if Rle_dec y x then true else false.

(** The items of a Grasshopper list: numbers, strings and date tuples. *)
Inductive PyVal :=
| PyFloat (x : R)
| PyStr (s : string)
| PyTuple (a b c : Z).

Fixpoint prefixb (p s : string) : bool :=
  match p with
  | EmptyString => true
  | String a p' =>
      match s with
      | EmptyString => false
      | String b s' => Ascii.eqb a b && prefixb p' s'
      end
  end.

Fixpoint substringb (p s : string) : bool :=
  prefixb p s
  || match s with
     | EmptyString => false
     | String _ s' => substringb p s'
     end.

(** [needle in v] for a string [needle]: a substring test on a string, a
    membership test (never met) on a date tuple, a [TypeError] on a
    number. *)
Definition contains (needle : string) (v : PyVal) : option bool :=
  match v with
  | PyStr s => Some (substringb needle s)
  | PyTuple _ _ _ => Some false
  | PyFloat _ => None
  end.

End PyList.

(** ** The sky of a period: [getCumulativeSky], [prepareLBList] *)

Module Sky.

(** The hour-of-day test of [selectHourlyData]:
    [stHour-1 <= k % 24 <= endHour-1]. *)
Definition inHours (stHour endHour k : Z) : bool :=
  (stHour - 1 <=? k mod 24)%Z && (k mod 24 <=? endHour - 1)%Z.

(** [selectHourlyData], given what [readRunPeriod] and [date2Hour] (of
    [lb_preparation]) return for the period. *)
Definition selectHourlyData {A} (dataList : list A)
  (stAnnualHour endAnnualHour stHour endHour : Z) : list A :=
  if (stAnnualHour <? endAnnualHour)%Z then
    map snd
      (filter (fun ia => inHours stHour endHour (Z.of_nat (fst ia) + stHour - 1))
         (Py.enumerate
            (PyList.slice dataList (stAnnualHour - 1) (endAnnualHour + 1))))
  else
    map snd
      (filter (fun ia => inHours stHour endHour (Z.of_nat (fst ia) + stHour - 1))
         (Py.enumerate (PyList.sliceFrom dataList (stAnnualHour - 1))))
    ++ map snd
         (filter (fun ia => inHours stHour endHour (Z.of_nat (fst ia)))
            (Py.enumerate (PyList.sliceTo dataList (endAnnualHour + 1)))).

(** The loop over the hours of one patch, inside [try]: a missing hour
    ends the loop and keeps the sums reached so far. *)
Fixpoint accumulate (table : Z -> option (R * R)) (HOYS : list Z)
  (cumulativeDifValue cumulativeDirValue : R) : R * R :=
  match HOYS with
  | [] => (cumulativeDifValue, cumulativeDirValue)
  | HOY :: rest =>
      match table (HOY + 1)%Z with
      | Some (difValue, dirValue) =>
          accumulate table rest (cumulativeDifValue + difValue)
            (cumulativeDirValue + dirValue)
      | None => (cumulativeDifValue, cumulativeDirValue)
      end
  end.

Definition getCumulativeSky (daylightMtxDict : list (Z * (Z -> option (R * R))))
  (stAnnualHour endAnnualHour stHour endHour : Z) : list (R * R) :=
  let HOYS :=
    selectHourlyData (PyList.range 8760) stAnnualHour endAnnualHour
      stHour endHour in
  map (fun entry =>
         let sums := accumulate (snd entry) HOYS 0 0 in
         (fst sums / 1000, snd sums / 1000))
    (filter (fun entry => negb (fst entry =? 0)%Z) daylightMtxDict).

(** The seven header items of a Ladybug list. *)
Definition header (strToBeFound locName dataType unit : string)
  (st en : Z * Z * Z) : list PyList.PyVal :=
  [PyList.PyStr strToBeFound; PyList.PyStr locName; PyList.PyStr dataType;
   PyList.PyStr unit; PyList.PyStr "NA";
   PyList.PyTuple (fst (fst st)) (snd (fst st)) (snd st);
   PyList.PyTuple (fst (fst en)) (snd (fst en)) (snd en)].

(** The three values [prepareLBList] appends for one patch. *)
Definition radTriple (removeDiffuse removeDirect : bool) (radValues : R * R)
  : R * R * R :=
  if negb removeDiffuse && negb removeDirect then
    (0 + fst radValues + snd radValues, fst radValues, snd radValues)
  else if removeDiffuse && removeDirect then (0, 0, 0)
  else if removeDirect then (fst radValues, fst radValues, 0)
  else (snd radValues, 0, snd radValues).

(** [prepareLBList], given [lb_preparation.strToBeFound] and the two dates
    that [readRunPeriod] returns for the period. *)
Definition prepareLBList (skyMtxLists : list (R * R)) (strToBeFound : string)
  (st en : Z * Z * Z) (locName unit : string)
  (removeDiffuse removeDirect : bool) : list PyList.PyVal :=
  let triples := map (radTriple removeDiffuse removeDirect) skyMtxLists in
  (header strToBeFound locName "Sky Patches' Total Radiation" unit st en
   ++ map (fun t => PyList.PyFloat (fst (fst t))) triples)
  ++ (header strToBeFound locName "Sky Patches' Diffuse Radiation" unit st en
      ++ map (fun t => PyList.PyFloat (snd (fst t))) triples)
  ++ (header strToBeFound locName "Sky Patches' Direct Radiation" unit st en
      ++ map (fun t => PyList.PyFloat (snd t)) triples).

End Sky.

(** ** The temperature of the mesh faces: [convertFluxToTemp] *)

Module Convert.

Definition convertFluxToTemp
  (radiantFlux cloA fracEff radTransCoeff currentRT avgWinTrans
     energyConvertFac : R) : R :=
  let newFlux := avgWinTrans * radiantFlux * energyConvertFac in
  let ERFsolar := (newFlux * cloA) / 0.95 in
  let avgRTDelt := ERFsolar / (fracEff * radTransCoeff) in
  currentRT + avgRTDelt.

(** [meshResults] of [main]: with [tempOrRad], every face's flux over the
    period becomes a temperature around the mean baseline. *)
Definition meshResults (tempOrRad : bool) (periodMethod : Z)
  (bodyPosture_ : option Z) (cloA : R) (finalWinTransmiss radTemp radResults
                                           : list R) : option (list R) :=
  if tempOrRad then
    avgWinTrans <-
      Py.div (Py.sum finalWinTransmiss) (INR (length finalWinTransmiss)) ;;
    currentRT <- Py.div (Py.sum radTemp) (INR (length radTemp)) ;;
    let energyConvertFac := if (periodMethod =? 0)%Z then 500 else 1 in
    Some (map (fun flux =>
                 let avgFlux := flux / INR (length radTemp) in
                 convertFluxToTemp avgFlux cloA (fracEff bodyPosture_)
                   radTransCoeff currentRT avgWinTrans energyConvertFac)
            radResults)
  else Some radResults.

End Convert.

(** ** More of [checkTheInputs] and the headers of the outputs *)

Module Checks.
Import PyList.

Section Float.

(** Python's [float] on a string. *)
Variable floatOfString : string -> option R.

Definition pyFloat (v : PyVal) : option R :=
  match v with
  | PyFloat x => Some x
  | PyStr s => floatOfString s
  | PyTuple _ _ _ => None
  end.

(** The loop that converts the items one by one: [checkData1] tells
    whether the item converted last was a number. *)
Fixpoint floatLoop (items radTemp : list PyVal) (checkData1 : bool)
  : list PyVal * bool :=
  match items with
  | [] => (radTemp, checkData1)
  | item :: rest =>
      match pyFloat item with
      | Some x => floatLoop rest (radTemp ++ [PyFloat x]) true
      | None => floatLoop rest radTemp false
      end
  end.

(** The check of [_meanRadTemperature]: [(checkData1, radTemp)]. *)
Definition checkMeanRadTemperature (_meanRadTemperature : list PyVal)
  : bool * list PyVal :=
  let found :=
    if negb (length _meanRadTemperature =? 0)%nat then
      let tried :=
        match nth_error _meanRadTemperature 2 with
        | Some v =>
            match contains "Temperature" v with
            | Some true => (sliceFrom _meanRadTemperature 7, true)
            | _ => ([], false)
            end
        | None => ([], false)
        end in
      if negb (snd tried) then floatLoop _meanRadTemperature (fst tried) (snd tried)
      else tried
    else ([], false) in
  let radTemp := fst found in
  let checkData1 := snd found in
  if (Z.of_nat (length radTemp) <? 8760)%Z && negb (length radTemp =? 0)%nat then
    match radTemp with
    | [v] => (checkData1, repeat v (Z.to_nat 8760))
    | _ => (false, radTemp)
    end
  else (checkData1, radTemp).

End Float.

(** [transFloat <= 1.0 and transFloat >= 0.0] *)
Definition validTrans (x : R) : bool := leb x 1 && geb x 0.

(** The loop over 8760 transmissivities: valid ones are kept, an invalid
    one clears [allGood]. *)
Fixpoint transLoop (values winTrans : list R) (allGood : bool)
  : list R * bool :=
  match values with
  | [] => (winTrans, allGood)
  | transVal :: rest =>
      if validTrans transVal then transLoop rest (winTrans ++ [transVal]) allGood
      else transLoop rest winTrans false
  end.

(** The check of [windowTransmissivity_]: [(checkData6, winTrans)].  The
    items are numbers, of which [float] is the number itself. *)
Definition checkWindowTransmissivity (windowTransmissivity_ : list R)
  : bool * list R :=
  match windowTransmissivity_ with
  | [] => (true, repeat 1 (Z.to_nat 8760))
  | first :: _ =>
      if (Z.of_nat (length windowTransmissivity_) =? 8760)%Z then
        let looped := transLoop windowTransmissivity_ [] true in
        (snd looped, fst looped)
      else if (length windowTransmissivity_ =? 1)%nat then
        if validTrans first then (true, repeat first (Z.to_nat 8760))
        else (false, [])
      else (false, [])
  end.

(** The check of [bodyPosture_], made only when a sky matrix selects
    method 0: [(checkData3, methodInit)]. *)
Definition checkBodyPosture (methodInit : Z) (bodyPosture_ : option Z)
  : bool * Z :=
  if (methodInit =? 0)%Z then
    if postureIs bodyPosture_ 0 || postureIs bodyPosture_ 1
       || postureIs bodyPosture_ 2
    then (true, methodInit)
    else if postureIs bodyPosture_ 3 || postureIs bodyPosture_ 4
            || postureIs bodyPosture_ 5
    then (true, 1%Z)
    else if postureIsNone bodyPosture_ then (true, methodInit)
    else (false, methodInit)
  else (true, methodInit).

(** The function the script calls for a method. *)
Inductive Entry := CallMain | CallMainSimple.

Definition entryOf (method : Z) : Entry :=
  if (method =? 0)%Z || (method =? 1)%Z then CallMain else CallMainSimple.

(** The items of [analysisPeriodOrHOY_]: a number (an hour of the year)
    or a date tuple. *)
Inductive PeriodItem :=
| HourNumber (x : R)
| PeriodDate (month day hour : Z).

(** [analysisPeriodOrHOY] after the check: the period as given, or the
    hour of the year. *)
Inductive AnalysisPeriodOrHOY :=
| WholePeriod (period : list PeriodItem)
| HourOfYear (HOY : Z).

(** The check of [analysisPeriodOrHOY_]:
    [(checkData9, periodMethod, analysisPeriodOrHOY)].  [int] of a date
    tuple raises, and the period is then kept as it is. *)
Definition checkAnalysisPeriod (analysisPeriodOrHOY_ : list PeriodItem)
  : bool * Z * AnalysisPeriodOrHOY :=
  match analysisPeriodOrHOY_ with
  | [] => (true, 0%Z, WholePeriod [PeriodDate 1 1 1; PeriodDate 12 31 24])
  | HourNumber x :: _ =>
      let analysisPeriodOrHOY := Py.int x in
      if (analysisPeriodOrHOY <? 1)%Z || (analysisPeriodOrHOY >? 8760)%Z
      then (false, 1%Z, HourOfYear analysisPeriodOrHOY)
      else (true, 1%Z, HourOfYear analysisPeriodOrHOY)
  | PeriodDate _ _ _ :: _ => (true, 0%Z, WholePeriod analysisPeriodOrHOY_)
  end.

(** The seven [insert(0, ...)] that head an output series. *)
Definition withHeader (location dataType unit : string)
  (analysisStart analysisEnd : PyVal) (values : list R) : list PyVal :=
  PyStr "key:location/dataType/units/frequency/startsAt/endsAt"
  :: PyStr location
  :: PyStr dataType
  :: PyStr unit
  :: PyStr "Hourly"
  :: analysisStart
  :: analysisEnd
  :: map PyFloat values.

Definition solarAdjustedMRTOutput (location : string)
  (analysisStart analysisEnd : PyVal) (st : Series) : list PyVal :=
  withHeader location "Solar-Adjusted Mean Radiant Temperature" "C"
    analysisStart analysisEnd (solarAdjustedMRT st).

End Checks.

(** ** The body points of the low-resolution method *)

Module Mannequin.

Definition Point3d : Type := R * R * R.

(** Nine positions from [c - d] to [c + d], or three. *)
Definition nineOffsets (c d : R) : list R :=
  [c - d;
   (c - d) + ((d * 2) / 8);
   (c - d) + ((d * 4) / 8);
   (c - d) + ((d * 6) / 8);
   c;
   (c + d) - ((d * 6) / 8);
   (c + d) - ((d * 4) / 8);
   (c + d) - (d * 2) / 8;
   (c + d)].

Definition threeOffsets (c d : R) : list R := [c - d; c; c + d].

(** The centre of the body: the given location, or the default height
    above the origin. *)
Definition centre (bodyLocation_ : option Point3d) (defaultHeight : option R)
  : option Point3d :=
  match bodyLocation_ with
  | Some p => Some p
  | None => h <- defaultHeight ;; Some (0, 0, h)
  end.

(** [mannequinMesh] of [checkTheInputs] when the direct normal radiation
    selects the low-resolution method. *)
Definition mannequinPoints (bodyPosture_ : option Z)
  (bodyLocation_ : option Point3d) (conversionFac : R)
  : option (list Point3d) :=
  if standing bodyPosture_ then
    c <- centre bodyLocation_ (Py.div 0.85 conversionFac) ;;
    offsetDist <- Py.div 0.8 conversionFac ;;
    let offsetHeights :=
      if postureIs bodyPosture_ 0 then nineOffsets (snd c) offsetDist
      else threeOffsets (snd c) offsetDist in
    Some (map (fun height => (fst (fst c), snd (fst c), height)) offsetHeights)
  else if seated bodyPosture_ then
    c <- centre bodyLocation_ (Py.div 0.65 conversionFac) ;;
    offsetDist <- Py.div 0.58 conversionFac ;;
    let offsetHeights :=
      if postureIs bodyPosture_ 1 || postureIsNone bodyPosture_
      then nineOffsets (snd c) offsetDist
      else threeOffsets (snd c) offsetDist in
    Some (map (fun height => (fst (fst c), snd (fst c), height)) offsetHeights)
  else
    c <- centre bodyLocation_ (Some 0.1) ;;
    offsetDist <- Py.div 0.8 conversionFac ;;
    let offsetY :=
      if postureIs bodyPosture_ 2 then nineOffsets (snd (fst c)) offsetDist
      else threeOffsets (snd (fst c)) offsetDist in
    Some (map (fun yTrans => (fst (fst c), yTrans, snd c)) offsetY).

End Mannequin.

(** ** What [main] and [mainSimple] prepare before the hours *)

Module Prepare.

(** [radTemp] of the period: the hours' entries of the annual list, unless
    the period is the default whole year. *)
Definition selectRadTemp (defaultPeriod : bool) (radTemp : list R)
  (HOYS : list Z) : option (list R) :=
  if negb defaultPeriod
  then Py.mapM (fun hour => Py.index radTemp (hour - 1)) HOYS
  else Some radTemp.

Section SunPath.

Context {Point Vector Mesh : Type}.

(** [lb_sunpath]: altitude, azimuth and reversed sun vector of an hour. *)
Variables solAlt solAz : Z -> R.
Variable sunReverseVector : Z -> Vector.

Definition sunVectorsOf (HOYS : list Z) : list (option Vector) :=
  map (fun hour =>
         if Py.gtb (solAlt hour) 0 then Some (sunReverseVector hour) else None)
    HOYS.

(** The variables of [mainSimple] as they stand when the hourly function
    is first called. *)
Definition prepareSimple (bodyPosture_ : option Z) (defaultPeriod : bool)
  (radTemp : list R) (mannequinMesh : list Point) (context : list Mesh)
  (groundR cloA : R) (winTrans : list R) (HOYS : list Z)
  (rotationAngle northAngle : R) (directSolarRad diffSolarRad : list R)
  (viewVectors : list Vector) : option (LowRes.Env Point Vector Mesh) :=
  radTemp' <- selectRadTemp defaultPeriod radTemp HOYS ;;
  Some (LowRes.mkEnv bodyPosture_ HOYS radTemp' mannequinMesh context
          groundR cloA winTrans rotationAngle northAngle
          directSolarRad diffSolarRad
          (map solAlt HOYS) (map solAz HOYS) (sunVectorsOf HOYS)
          viewVectors).

End SunPath.

End Prepare.

(** ** Example inputs *)

Module Examples.

(** A four-hour period around sunset: one sky patch, one sample point
    on the body and the ground sample, both facing the patch; half of
    the radiation passes the window. *)
Definition exHigh : HighRes.Env :=
  HighRes.mkEnv
    None                            (* bodyPosture_ *)
    0                               (* method *)
    [17; 18; 19; 20]%Z              (* HOYS *)
    [20; 20; 20; 20]                (* radTemp *)
    [0.1; -0.1; -0.2; -0.3]         (* altitudes *)
    [0.5; 0.5; 0.5; 0.5]            (* finalWinTransmiss *)
    [(0%Z, fun _ => Some (0, 0));
     (1%Z, fun HOY => if (HOY =? 17)%Z then Some (100, 200) else Some (10, 0))]
    [[(0%nat, HighRes.mkIntersection true 0)];
     [(0%nat, HighRes.mkIntersection true 0)]]
    [2; 1]                          (* meshSrfAreas *)
    1                               (* conversionFac *)
    0.25                            (* groundR *)
    0.7.                            (* cloA *)

(** A stand-in for the geometry kernel: points and directions are
    numbered, a mesh is the set of rays it intersects, and [MeshRay]
    answers with a positive ray parameter on a hit and a negative one
    otherwise. *)
Definition exMeshRay (mesh : nat -> nat -> bool) (point vec : nat) : R :=
  if mesh point vec then 1 else -1.

(** A wall that hides the sun of the first hour (direction 10) from the
    lowest body point, and view direction 0 from the middle point. *)
Definition exWall (point vec : nat) : bool :=
  ((point =? 0)%nat && (vec =? 10)%nat)
  || ((point =? 1)%nat && (vec =? 0)%nat).

Definition exSpline (azFinal altFinal : Z) : R := 0.3.

Definition annual (x : R) : list R := repeat x (Z.to_nat 8760).

(** Low-resolution standing posture (three body points), two sun-up
    hours and one night hour. *)
Definition exLow : LowRes.Env nat nat (nat -> nat -> bool) :=
  LowRes.mkEnv
    (Some 3%Z)                      (* bodyPosture_ *)
    [12; 13; 20]%Z                  (* HOYS *)
    [20; 20; 20]                    (* radTemp *)
    [0; 1; 2]%nat                   (* mannequinMesh *)
    [exWall]                        (* context *)
    0.25                            (* groundR *)
    0.7                             (* cloA *)
    (annual 1)                      (* winTrans *)
    0                               (* rotationAngle *)
    0                               (* northAngle *)
    (annual 500)                    (* directSolarRad *)
    (annual 100)                    (* diffSolarRad *)
    [PI / 6; PI / 6; -0.1]          (* altitudes *)
    [PI; PI; PI]                    (* azimuths *)
    [Some 10; Some 11; None]%nat    (* sunVectors *)
    [0; 1; 2; 3]%nat.               (* viewVectors *)

(** A run of the three workers of [exLow] in which worker 1 is
    interrupted after its first append. *)
Definition exSchedule : list nat :=
  [1; 0; 0; 0; 0; 2; 2; 2; 2; 1; 1; 1]%nat.

(** The ERF of the first hour of [exHigh] (before the division by
    1000) and of the second hour of [exLow], as the code computes
    them. *)
Definition exHourERF : R :=
  (((0 + (0 + (0 + 100 + 200) * cos 0) * (2 * 1 * 1)) * 0.5
    + 0.5 * ((0 + (0 + 100 + 200) * cos 0) * 0.5) * 0.696 * 0.25)
   / (0 + 2 * 1 * 1)) * 0.7 / 0.95.

Definition exERF : R :=
  ((0.5 * 0.725 * 1 * (100 + ((500 * sin (PI / 6) + 100) * 0.25))
    + (0.725 * 0.3 * 1 * 500)) * 1) * (0.7 / 0.95).

End Examples.

(** ** Further example inputs *)

Module MoreExamples.


(** [exHigh] with a window that is opaque in the first hour. *)
Definition exHighOpaque : HighRes.Env :=
  HighRes.mkEnv
    None                            (* bodyPosture_ *)
    0                               (* method *)
    [17; 18; 19; 20]%Z              (* HOYS *)
    [20; 20; 20; 20]                (* radTemp *)
    [0.1; -0.1; -0.2; -0.3]         (* altitudes *)
    [0; 0.5; 0.5; 0.5]              (* finalWinTransmiss *)
    [(0%Z, fun _ => Some (0, 0));
     (1%Z, fun HOY => if (HOY =? 17)%Z then Some (100, 200) else Some (10, 0))]
    [[(0%nat, HighRes.mkIntersection true 0)];
     [(0%nat, HighRes.mkIntersection true 0)]]
    [2; 1]                          (* meshSrfAreas *)
    1                               (* conversionFac *)
    0.25                            (* groundR *)
    0.7.                            (* cloA *)

(** Two night hours of the high-resolution path, and a run of their two
    workers that alternates after every append. *)
Definition exHighNight : HighRes.Env :=
  HighRes.mkEnv
    None                            (* bodyPosture_ *)
    0                               (* method *)
    [21; 22]%Z                      (* HOYS *)
    [20; 18]                        (* radTemp *)
    [-0.2; -0.3]                    (* altitudes *)
    [0.5; 0.5]                      (* finalWinTransmiss *)
    [(0%Z, fun _ => Some (0, 0)); (1%Z, fun _ => Some (0, 0))]
    [[(0%nat, HighRes.mkIntersection true 0)];
     [(0%nat, HighRes.mkIntersection true 0)]]
    [2; 1]                          (* meshSrfAreas *)
    1                               (* conversionFac *)
    0.25                            (* groundR *)
    0.7.                            (* cloA *)

Definition exAlternating : list nat := [1; 0; 1; 0; 1; 0; 1; 0]%nat.

End MoreExamples.

(** * Properties *)

(** ** Facts about the Python primitives *)

Module PyFacts.

Lemma gtb_true (x y : R) : x > y -> Py.gtb x y = true.
Proof. intros H. unfold Py.gtb. destruct (Rlt_dec y x); [reflexivity | lra]. Qed.

Lemma gtb_false (x y : R) : x <= y -> Py.gtb x y = false.
Proof. intros H. unfold Py.gtb. destruct (Rlt_dec y x); [lra | reflexivity]. Qed.

Lemma gtb_true_iff (x y : R) : Py.gtb x y = true <-> x > y.
Proof.
  split; [| apply gtb_true].
  unfold Py.gtb. destruct (Rlt_dec y x); [lra | discriminate].
Qed.

Lemma gtb_false_iff (x y : R) : Py.gtb x y = false <-> x <= y.
Proof.
  split; [| apply gtb_false].
  unfold Py.gtb. destruct (Rlt_dec y x); [discriminate | lra].
Qed.

Lemma ltb_true (x y : R) : x < y -> Py.ltb x y = true.
Proof. intros H. unfold Py.ltb. destruct (Rlt_dec x y); [reflexivity | lra]. Qed.

Lemma ltb_false (x y : R) : y <= x -> Py.ltb x y = false.
Proof. intros H. unfold Py.ltb. destruct (Rlt_dec x y); [lra | reflexivity]. Qed.

Lemma neqb_true (x y : R) : x <> y -> Py.neqb x y = true.
Proof. intros H. unfold Py.neqb. destruct (Req_dec_T x y); [contradiction | reflexivity]. Qed.

Lemma neqb_false (x y : R) : x = y -> Py.neqb x y = false.
Proof. intros H. unfold Py.neqb. destruct (Req_dec_T x y); [reflexivity | contradiction]. Qed.

Lemma div_ok (x y : R) : y <> 0 -> Py.div x y = Some (x / y).
Proof. intros H. unfold Py.div. destruct (Req_dec_T y 0); [contradiction | reflexivity]. Qed.

Lemma index_nat {A} (l : list A) (i : nat) :
  Py.index l (Z.of_nat i) = nth_error l i.
Proof.
  unfold Py.index.
  destruct (0 <=? Z.of_nat i)%Z eqn:E; [| apply Z.leb_gt in E; lia].
  now rewrite Nat2Z.id.
Qed.

(** [l[-1]] is the last element. *)
Lemma index_last {A} (l : list A) (x : A) : Py.index (l ++ [x]) (-1) = Some x.
Proof.
  unfold Py.index. change (0 <=? -1)%Z with false. cbv iota.
  rewrite length_app, Nat.add_1_r.
  destruct (- Z.of_nat (S (length l)) <=? -1)%Z eqn:E;
    [| apply Z.leb_gt in E; lia].
  replace (Z.to_nat (Z.of_nat (S (length l)) + -1)) with (length l) by lia.
  rewrite nth_error_app2, Nat.sub_diag by lia. reflexivity.
Qed.

Lemma index_last_inv {A} (l : list A) (x : A) :
  Py.index l (-1) = Some x -> l = removelast l ++ [x].
Proof.
  intros H. destruct l as [| a l] using rev_ind.
  - discriminate.
  - rewrite index_last in H. injection H as ->.
    now rewrite removelast_last.
Qed.

Lemma fold_left_Rplus (l : list R) (a : R) :
  fold_left Rplus l a = a + Py.sum l.
Proof.
  unfold Py.sum. revert a.
  induction l as [| x l IH]; intros a; simpl.
  - lra.
  - rewrite IH, (IH (0 + x)). lra.
Qed.

Lemma sum_cons (x : R) (l : list R) : Py.sum (x :: l) = x + Py.sum l.
Proof. unfold Py.sum at 1. simpl. rewrite fold_left_Rplus. lra. Qed.

Lemma sum_nil : Py.sum [] = 0.
Proof. reflexivity. Qed.

Lemma mapM_nth {A B} (f : A -> option B) (l : list A) (bs : list B) :
  Py.mapM f l = Some bs ->
  forall i a, nth_error l i = Some a ->
  exists b, f a = Some b /\ nth_error bs i = Some b.
Proof.
  revert bs. induction l as [| x l IH]; intros bs H i a Hi.
  - destruct i; discriminate.
  - simpl in H. destruct (f x) as [b |] eqn:Ef; [| discriminate].
    destruct (Py.mapM f l) as [bs' |] eqn:Em; [| discriminate].
    injection H as <-.
    destruct i as [| i]; simpl in Hi.
    + injection Hi as <-. exists b. now split.
    + apply (IH bs' eq_refl i a Hi).
Qed.

Lemma mapM_Forall {A B} (f : A -> option B) (P : B -> Prop) (l : list A)
  (bs : list B) :
  Py.mapM f l = Some bs ->
  (forall a b, In a l -> f a = Some b -> P b) ->
  Forall P bs.
Proof.
  revert bs. induction l as [| x l IH]; intros bs H HP.
  - injection H as <-. constructor.
  - simpl in H. destruct (f x) as [b |] eqn:Ef; [| discriminate].
    destruct (Py.mapM f l) as [bs' |] eqn:Em; [| discriminate].
    injection H as <-. constructor.
    + apply (HP x); [now left | assumption].
    + apply IH; [reflexivity |]. intros a b' Ha. apply HP. now right.
Qed.

Lemma mapM_total {A B} (f : A -> option B) (l : list A) :
  (forall a, In a l -> exists b, f a = Some b) ->
  exists bs, Py.mapM f l = Some bs.
Proof.
  induction l as [| x l IH]; intros H.
  - now exists [].
  - destruct (H x (or_introl eq_refl)) as [b Hb].
    destruct IH as [bs Hbs]; [intros a Ha; apply H; now right |].
    exists (b :: bs). simpl. now rewrite Hb, Hbs.
Qed.

Lemma enumerateFrom_nth {A} (l : list A) (n i : nat) (a : A) :
  nth_error l i = Some a ->
  nth_error (Py.enumerateFrom n l) i = Some ((n + i)%nat, a).
Proof.
  revert n i. induction l as [| x l IH]; intros n i H.
  - destruct i; discriminate.
  - destruct i as [| i]; simpl in *.
    + injection H as <-. now rewrite Nat.add_0_r.
    + rewrite (IH (S n) i H). f_equal. f_equal. lia.
Qed.

Lemma enumerate_nth {A} (l : list A) (i : nat) (a : A) :
  nth_error l i = Some a -> nth_error (Py.enumerate l) i = Some (i, a).
Proof. intros H. unfold Py.enumerate. now rewrite (enumerateFrom_nth l 0 i a H). Qed.

Lemma enumerateFrom_In {A} (l : list A) (n c : nat) (a : A) :
  In (c, a) (Py.enumerateFrom n l) ->
  (n <= c)%nat /\ nth_error l (c - n) = Some a.
Proof.
  revert n. induction l as [| x l IH]; intros n H; simpl in H.
  - contradiction.
  - destruct H as [H | H].
    + injection H as <- <-. split; [lia |]. now rewrite Nat.sub_diag.
    + destruct (IH (S n) H) as [Hle Hn]. split; [lia |].
      replace (c - n)%nat with (S (c - S n)) by lia. exact Hn.
Qed.

Lemma enumerate_In {A} (l : list A) (c : nat) (a : A) :
  In (c, a) (Py.enumerate l) -> nth_error l c = Some a.
Proof.
  intros H. destruct (enumerateFrom_In l 0 c a H) as [_ Hn].
  now rewrite Nat.sub_0_r in Hn.
Qed.

End PyFacts.

(** ** Facts about the series and the sequential loop *)

Module SeriesFacts.

Lemma runActions_ERF (acts : list Action) (st : Series) :
  ERF (runActions acts st) = ERF st ++ flat_map erfOf acts.
Proof.
  unfold runActions. revert st.
  induction acts as [| a acts IH]; intros st; simpl.
  - now rewrite app_nil_r.
  - rewrite IH. destruct a; simpl; rewrite <- ?app_assoc; reflexivity.
Qed.

Lemma runActions_MRT (acts : list Action) (st : Series) :
  solarAdjustedMRT (runActions acts st)
  = solarAdjustedMRT st ++ flat_map mrtOf acts.
Proof.
  unfold runActions. revert st.
  induction acts as [| a acts IH]; intros st; simpl.
  - now rewrite app_nil_r.
  - rewrite IH. destruct a; simpl; rewrite <- ?app_assoc; reflexivity.
Qed.

Lemma runActions_Delta (acts : list Action) (st : Series) :
  MRTDelta (runActions acts st) = MRTDelta st ++ flat_map deltaOf acts.
Proof.
  unfold runActions. revert st.
  induction acts as [| a acts IH]; intros st; simpl.
  - now rewrite app_nil_r.
  - rewrite IH. destruct a; simpl; rewrite <- ?app_assoc; reflexivity.
Qed.


Lemma runActions_app (a b : list Action) (st : Series) :
  runActions (a ++ b) st = runActions b (runActions a st).
Proof. unfold runActions. apply fold_left_app. Qed.

(** A series is determined by its four lists. *)
Lemma Series_eq (s t : Series) :
  ERF s = ERF t -> MRTDelta s = MRTDelta t ->
  solarAdjustedMRT s = solarAdjustedMRT t -> hourOrder s = hourOrder t ->
  s = t.
Proof. destruct s, t; simpl; intros; subst; reflexivity. Qed.

(** The sequential loop performs the appends of the hours one hour
    after the other. *)
Lemma forEach_concat {A} (body : A -> option (list Action)) (l : list A)
  (st out : Series) :
  forEach body l st = Some out ->
  exists actss, Py.mapM body l = Some actss
                /\ out = runActions (concat actss) st.
Proof.
  revert st. induction l as [| a l IH]; intros st H; simpl in H.
  - injection H as <-. exists []. now split.
  - simpl. destruct (body a) as [acts |]; [| discriminate].
    destruct (IH _ H) as (actss & Hm & ->).
    exists (acts :: actss). rewrite Hm. split; [reflexivity |].
    simpl. now rewrite runActions_app.
Qed.

Lemma forEach_total {A} (body : A -> option (list Action)) (l : list A)
  (st : Series) (actss : list (list Action)) :
  Py.mapM body l = Some actss ->
  forEach body l st = Some (runActions (concat actss) st).
Proof.
  revert st actss. induction l as [| a l IH]; intros st actss H; simpl in *.
  - now injection H as <-.
  - destruct (body a) as [acts |]; [| discriminate].
    destruct (Py.mapM body l) as [actss' |]; [| discriminate].
    injection H as <-. rewrite (IH _ actss' eq_refl).
    simpl. now rewrite runActions_app.
Qed.

Lemma flat_map_concat {X Y} (f : X -> list Y) (ls : list (list X)) :
  flat_map f (concat ls) = concat (map (flat_map f) ls).
Proof.
  induction ls as [| l ls IH]; simpl.
  - reflexivity.
  - now rewrite flat_map_app, IH.
Qed.

Lemma nth_concat_singletons {X} (ls : list (list X)) (i : nat) (x : X) :
  Forall (fun l => length l = 1%nat) ls ->
  nth_error ls i = Some [x] ->
  nth_error (concat ls) i = Some x.
Proof.
  intros HF. revert i. induction HF as [| l ls Hl HF IH]; intros i Hi.
  - destruct i; discriminate.
  - destruct l as [| y [| z l]]; try discriminate.
    destruct i as [| i]; simpl in *.
    + now injection Hi as <-.
    + now apply IH.
Qed.

Lemma length_concat_singletons {X} (ls : list (list X)) :
  Forall (fun l => length l = 1%nat) ls ->
  length (concat ls) = length ls.
Proof.
  induction 1 as [| l ls Hl HF IH]; simpl.
  - reflexivity.
  - rewrite length_app, Hl, IH. reflexivity.
Qed.

Lemma OneEach_inj (acts : list Action) (e m d e' m' d' : R) :
  OneEach acts e m d -> OneEach acts e' m' d' -> e = e' /\ m = m' /\ d = d'.
Proof.
  intros (He & Hm & Hd) (He' & Hm' & Hd').
  rewrite He in He'. rewrite Hm in Hm'. rewrite Hd in Hd'.
  injection He' as <-. injection Hm' as <-. injection Hd' as <-.
  now repeat split.
Qed.

(** Entry [i] of each output series of the sequential loop is the value
    appended by hour [i]. *)
Lemma forEach_hour {A} (body : nat * A -> option (list Action))
  (hs : list A) (out : Series) :
  forEach body (Py.enumerate hs) emptySeries = Some out ->
  (forall ch acts, body ch = Some acts -> exists e m d, OneEach acts e m d) ->
  forall i h, nth_error hs i = Some h ->
  exists acts e m d,
    body (i, h) = Some acts /\ OneEach acts e m d
    /\ nth_error (ERF out) i = Some e
    /\ nth_error (solarAdjustedMRT out) i = Some m
    /\ nth_error (MRTDelta out) i = Some d.
Proof.
  intros Hrun Hshape i h Hi.
  destruct (forEach_concat _ _ _ _ Hrun) as (actss & Hm & ->).
  destruct (PyFacts.mapM_nth _ _ _ Hm i (i, h) (PyFacts.enumerate_nth _ _ _ Hi))
    as (acts & Hb & Hn).
  destruct (Hshape _ _ Hb) as (e & m & d & He & Hmm & Hd).
  exists acts, e, m, d.
  assert (HF : forall (X : Type) (f : Action -> list X),
             (forall ch acts, body ch = Some acts ->
                              length (flat_map f acts) = 1%nat) ->
             Forall (fun l => length l = 1%nat) (map (flat_map f) actss)).
  { intros X f Hf. apply Forall_map.
    apply (PyFacts.mapM_Forall body _ _ _ Hm).
    intros a b _ Hab. now apply (Hf a). }
  split; [exact Hb |]. split; [now repeat split |].
  rewrite runActions_ERF, runActions_MRT, runActions_Delta. simpl.
  rewrite !flat_map_concat.
  repeat split; apply nth_concat_singletons;
    try (apply HF; intros ch acts' Hb';
         destruct (Hshape _ _ Hb') as (e' & m' & d' & He' & Hm' & Hd');
         first [now rewrite He' | now rewrite Hm' | now rewrite Hd']);
    rewrite nth_error_map, Hn; simpl; congruence.
Qed.

Lemma forEach_lengths {A} (body : nat * A -> option (list Action))
  (hs : list A) (out : Series) :
  forEach body (Py.enumerate hs) emptySeries = Some out ->
  (forall ch acts, body ch = Some acts -> exists e m d, OneEach acts e m d) ->
  length (ERF out) = length hs
  /\ length (solarAdjustedMRT out) = length hs
  /\ length (MRTDelta out) = length hs.
Proof.
  intros Hrun Hshape.
  destruct (forEach_concat _ _ _ _ Hrun) as (actss & Hm & ->).
  assert (Hlen : length actss = length hs).
  { clear Hrun Hshape. unfold Py.enumerate in Hm.
    generalize dependent actss. generalize 0%nat.
    induction hs as [| h hs IH]; intros n actss Hm; simpl in Hm.
    - now injection Hm as <-.
    - destruct (body (n, h)); [| discriminate].
      destruct (Py.mapM body (Py.enumerateFrom (S n) hs)) eqn:E; [| discriminate].
      injection Hm as <-. simpl. f_equal. now apply (IH (S n)). }
  assert (HF : forall (X : Type) (f : Action -> list X),
             (forall ch acts, body ch = Some acts ->
                              length (flat_map f acts) = 1%nat) ->
             Forall (fun l => length l = 1%nat) (map (flat_map f) actss)).
  { intros X f Hf. apply Forall_map.
    apply (PyFacts.mapM_Forall body _ _ _ Hm).
    intros a b _ Hab. now apply (Hf a). }
  rewrite runActions_ERF, runActions_MRT, runActions_Delta. simpl.
  rewrite !flat_map_concat.
  repeat split; rewrite length_concat_singletons, length_map; try exact Hlen;
    apply HF; intros ch acts' Hb';
    destruct (Hshape _ _ Hb') as (e' & m' & d' & He' & Hm' & Hd');
    first [now rewrite He' | now rewrite Hm' | now rewrite Hd'].
Qed.

End SeriesFacts.

(** ** The high-resolution path *)

Module HighResFacts.
Import HighRes.

(** *** The sun-up test *)

Lemma index_prev {A} (l : list A) (count : nat) :
  (count < length l)%nat ->
  Py.index l (Z.of_nat count - 1) = nth_error l (prevIndex (length l) count).
Proof.
  intros Hc. unfold Py.index, prevIndex.
  destruct count as [| c]; simpl (_ =? _)%nat; cbv iota.
  - change (0 <=? Z.of_nat 0 - 1)%Z with false. cbv iota.
    destruct (- Z.of_nat (length l) <=? Z.of_nat 0 - 1)%Z eqn:E;
      [| apply Z.leb_gt in E; lia].
    f_equal. lia.
  - destruct (0 <=? Z.of_nat (S c) - 1)%Z eqn:E;
      [| apply Z.leb_gt in E; lia].
    f_equal. lia.
Qed.

Lemma index_next (e : Env) (count : nat) :
  (count < length (HOYS e))%nat ->
  Py.index (altitudes e) (Z.of_nat count + lastVal e count)
  = nth_error (altitudes e) (nextIndex (length (HOYS e)) count).
Proof.
  intros Hc. unfold lastVal, nextIndex.
  destruct (count =? length (HOYS e) - 1)%nat eqn:E.
  - apply Nat.eqb_eq in E.
    replace (Z.of_nat count =? Z.of_nat (length (HOYS e)) - 1)%Z with true
      by (symmetry; apply Z.eqb_eq; lia).
    simpl negb. cbv iota. rewrite Z.add_0_r. apply PyFacts.index_nat.
  - apply Nat.eqb_neq in E.
    replace (Z.of_nat count =? Z.of_nat (length (HOYS e)) - 1)%Z with false
      by (symmetry; apply Z.eqb_neq; lia).
    simpl negb. cbv iota.
    replace (Z.of_nat count + 1)%Z with (Z.of_nat (count + 1)) by lia.
    apply PyFacts.index_nat.
Qed.

(** The test reads three entries of [altitudes]: the hour's own, the
    one before it (the last one for the first hour) and the one after it
    (the hour's own again for the last hour). *)
Lemma sunUpTest_spec (e : Env) (count : nat) :
  length (altitudes e) = length (HOYS e) ->
  (count < length (HOYS e))%nat ->
  exists a b c,
    nth_error (altitudes e) count = Some a
    /\ nth_error (altitudes e) (prevIndex (length (HOYS e)) count) = Some b
    /\ nth_error (altitudes e) (nextIndex (length (HOYS e)) count) = Some c
    /\ sunUpTest e count = Some (Py.gtb a 0 || Py.gtb b 0 || Py.gtb c 0).
Proof.
  intros Hlen Hc.
  assert (Ha : exists a, nth_error (altitudes e) count = Some a).
  { destruct (nth_error (altitudes e) count) eqn:E; [eauto |].
    apply nth_error_None in E. lia. }
  assert (Hb : exists b,
             nth_error (altitudes e) (prevIndex (length (HOYS e)) count) = Some b).
  { destruct (nth_error (altitudes e) (prevIndex (length (HOYS e)) count)) eqn:E;
      [eauto |].
    apply nth_error_None in E. unfold prevIndex in E.
    destruct (count =? 0)%nat; lia. }
  assert (Hn : exists c,
             nth_error (altitudes e) (nextIndex (length (HOYS e)) count) = Some c).
  { destruct (nth_error (altitudes e) (nextIndex (length (HOYS e)) count)) eqn:E;
      [eauto |].
    apply nth_error_None in E. unfold nextIndex in E.
    destruct (count =? length (HOYS e) - 1)%nat eqn:E'; [lia |].
    apply Nat.eqb_neq in E'. lia. }
  destruct Ha as [a Ha], Hb as [b Hb], Hn as [c Hn].
  exists a, b, c. repeat split; try assumption.
  unfold sunUpTest.
  rewrite PyFacts.index_nat, Ha. simpl.
  destruct (Py.gtb a 0); [reflexivity |].
  rewrite index_prev by lia. rewrite Hlen, Hb. simpl.
  destruct (Py.gtb b 0); [reflexivity |].
  rewrite index_next by assumption. rewrite Hn. reflexivity.
Qed.

(** *** The appends of one hour *)

Lemma radCalc_inv (e : Env) (count : nat) (hour : Z) (acts : list Action) :
  radCalc e count hour = Some acts ->
  (sunUpTest e count = Some true
   /\ exists f rt,
       hourFlux e count hour = Some f
       /\ nth_error (radTemp e) count = Some rt
       /\ acts =
          [AppendERF (hourERF e f / 1000);
           AppendMRT (hourERF e f / (fracEff (bodyPosture_ e) * radTransCoeff) + rt);
           AppendDelta
             (hourERF e f / (fracEff (bodyPosture_ e) * radTransCoeff) + rt - rt)])
  \/ (sunUpTest e count = Some false
      /\ exists rt,
          nth_error (radTemp e) count = Some rt
          /\ acts = [AppendERF 0; AppendMRT rt; AppendDelta 0]).
Proof.
  unfold radCalc. intros H.
  destruct (sunUpTest e count) as [[|] |]; simpl in H; [| | discriminate].
  - left. split; [reflexivity |].
    destruct (hourFlux e count hour) as [f |]; simpl in H; [| discriminate].
    rewrite PyFacts.index_nat in H.
    destruct (nth_error (radTemp e) count) as [rt |]; simpl in H; [| discriminate].
    injection H as <-. now exists f, rt.
  - right. split; [reflexivity |].
    rewrite PyFacts.index_nat in H.
    destruct (nth_error (radTemp e) count) as [rt |]; simpl in H; [| discriminate].
    injection H as <-. now exists rt.
Qed.

Lemma radCalc_OneEach (e : Env) (count : nat) (hour : Z) (acts : list Action) :
  radCalc e count hour = Some acts ->
  exists x m d, OneEach acts x m d.
Proof.
  intros H. destruct (radCalc_inv _ _ _ _ H)
    as [(_ & f & rt & _ & _ & ->) | (_ & rt & _ & ->)];
    do 3 eexists; repeat split.
Qed.

(** An hour that fails the sun-up test appends its three values without
    computing the flux of the hour. *)
Lemma radCalc_night (e : Env) (count : nat) (hour : Z) (rt : R) :
  sunUpTest e count = Some false ->
  nth_error (radTemp e) count = Some rt ->
  radCalc e count hour = Some [AppendERF 0; AppendMRT rt; AppendDelta 0].
Proof.
  intros Hs Hr. unfold radCalc. rewrite Hs. simpl.
  rewrite PyFacts.index_nat, Hr. reflexivity.
Qed.

(** *** The flux of a computed hour *)

Lemma pointRadiation_spec (skyMatrix : list R)
  (patches : list (nat * Intersection)) (radValue r : R) :
  pointRadiation skyMatrix patches radValue = Some r ->
  r = radValue + patchSum skyMatrix patches.
Proof.
  unfold patchSum. revert radValue.
  induction patches as [| [patchCount i] rest IH]; intros radValue H;
    simpl in H.
  - injection H as <-. simpl. rewrite PyFacts.sum_nil. lra.
  - simpl. destruct (isIntersect i).
    + destruct (nth_error skyMatrix patchCount) as [s |] eqn:En;
        [| discriminate].
      rewrite (IH _ H). simpl map. rewrite PyFacts.sum_cons. simpl fst.
      rewrite (nth_error_nth _ _ 0 En). simpl. lra.
    + exact (IH _ H).
Qed.

Lemma pointRadiation_total (skyMatrix : list R)
  (patches : list (nat * Intersection)) (radValue : R) :
  (forall p, In p patches -> isIntersect (snd p) = true ->
             (fst p < length skyMatrix)%nat) ->
  exists r, pointRadiation skyMatrix patches radValue = Some r.
Proof.
  revert radValue.
  induction patches as [| [patchCount i] rest IH]; intros radValue H; simpl.
  - eauto.
  - destruct (isIntersect i) eqn:Ei.
    + destruct (nth_error skyMatrix patchCount) as [s |] eqn:En.
      * apply IH. intros p Hp. apply H. now right.
      * apply nth_error_None in En.
        specialize (H (patchCount, i) (or_introl eq_refl) Ei). simpl in H. lia.
    + apply IH. intros p Hp. apply H. now right.
Qed.

Lemma mapM_Forall2 {A B} (f : A -> option B) (l : list A) (bs : list B) :
  Py.mapM f l = Some bs -> Forall2 (fun a b => f a = Some b) l bs.
Proof.
  revert bs. induction l as [| a l IH]; intros bs H; simpl in H.
  - injection H as <-. constructor.
  - destruct (f a) as [b |] eqn:Ef; [| discriminate].
    destruct (Py.mapM f l) as [bs' |]; [| discriminate].
    injection H as <-. constructor; [assumption | now apply IH].
Qed.

(** Every step of [hourFlux], read off a successful result. *)
Lemma hourFlux_inv (e : Env) (count : nat) (hour : Z) (f : Flux) :
  hourFlux e count hour = Some f ->
  exists skyMtxLists w area,
    getHourlySky (cumSkyMtx_d e) hour = Some skyMtxLists
    /\ nth_error (finalWinTransmiss e) count = Some w
    /\ totalPersonArea e = Some area
    /\ area <> 0
    /\ Forall2 (fun patches r => r = patchSum (skyMatrixOf skyMtxLists) patches)
         (intDict e) (radiationResult f)
    /\ radiationResult f = removelast (radiationResult f) ++ [groundSample f]
    /\ totalPersonBeamDiffRad f
       = Py.sum (map (fun ab => fst ab * snd ab)
                   (combine (removelast (radiationResult f))
                      (personMeshAreas e)))
    /\ groundRefRad f
       = 0.5 * (groundSample f * w) * fracEff (bodyPosture_ e) * groundR e
    /\ radiantFlux f = (totalPersonBeamDiffRad f * w + groundRefRad f) / area.
Proof.
  unfold hourFlux. intros H.
  destruct (getHourlySky (cumSkyMtx_d e) hour) as [skyMtxLists |];
    simpl in H; [| discriminate].
  destruct (Py.mapM _ (intDict e)) as [rr |] eqn:Em; simpl in H; [| discriminate].
  destruct (Py.index rr (-1)) as [groundRad |] eqn:Eg; simpl in H; [| discriminate].
  rewrite PyFacts.index_nat in H.
  destruct (nth_error (finalWinTransmiss e) count) as [w |]; simpl in H;
    [| discriminate].
  destruct (totalPersonArea e) as [area |]; simpl in H; [| discriminate].
  unfold Py.div in H. destruct (Req_dec_T area 0) as [| Harea]; [discriminate |].
  simpl in H. injection H as <-. simpl.
  exists skyMtxLists, w, area.
  split; [reflexivity |]. split; [reflexivity |]. split; [reflexivity |].
  split; [assumption |].
  split.
  { apply mapM_Forall2 in Em. revert Em. apply Forall2_impl.
    intros patches r Hr. apply pointRadiation_spec in Hr. lra. }
  split; [now apply PyFacts.index_last_inv |].
  split; [reflexivity |].
  unfold Py.neqb. destruct (Req_dec_T w 1) as [-> |].
  - split; [lra |]. f_equal. lra.
  - split; reflexivity.
Qed.

Lemma mapM_length {A B} (f : A -> option B) (l : list A) (bs : list B) :
  Py.mapM f l = Some bs -> length bs = length l.
Proof.
  intros H. apply mapM_Forall2 in H.
  induction H; simpl; congruence.
Qed.

Lemma hourFlux_total (e : Env) (count : nat) (hour : Z) :
  WellFormed e -> (count < length (HOYS e))%nat -> In hour (HOYS e) ->
  exists f, hourFlux e count hour = Some f.
Proof.
  intros WF Hc Hh. unfold hourFlux.
  destruct (wf_sky e WF hour Hh) as (skyMtxLists & -> & Hp). simpl.
  destruct (PyFacts.mapM_total
              (fun patches => pointRadiation (skyMatrixOf skyMtxLists) patches 0)
              (intDict e)) as [rr Hrr].
  { intros patches Hin. apply pointRadiation_total.
    intros p Hpin Hflag. unfold skyMatrixOf. rewrite length_map. eauto. }
  rewrite Hrr. simpl.
  assert (Hne : rr <> []).
  { intros ->. apply mapM_length in Hrr. simpl in Hrr.
    apply (wf_ground e WF). now apply length_zero_iff_nil. }
  destruct (exists_last Hne) as (rr' & g & ->).
  rewrite PyFacts.index_last. simpl.
  rewrite PyFacts.index_nat.
  destruct (nth_error (finalWinTransmiss e) count) as [w |] eqn:Ew.
  2:{ apply nth_error_None in Ew. rewrite (wf_winTrans e WF) in Ew. lia. }
  simpl.
  destruct (wf_area e WF) as (area & -> & Harea). simpl.
  rewrite PyFacts.div_ok by assumption. simpl. eauto.
Qed.

(** *** The sequential run *)

Lemma radCalc_total (e : Env) (count : nat) (hour : Z) :
  WellFormed e -> nth_error (HOYS e) count = Some hour ->
  exists acts, radCalc e count hour = Some acts.
Proof.
  intros WF Hn.
  assert (Hc : (count < length (HOYS e))%nat)
    by (apply nth_error_Some; congruence).
  assert (Hh : In hour (HOYS e)) by (eapply nth_error_In; eauto).
  destruct (sunUpTest_spec e count (wf_altitudes e WF) Hc)
    as (a & b & c & _ & _ & _ & Hs).
  destruct (nth_error (radTemp e) count) as [rt |] eqn:Er.
  2:{ apply nth_error_None in Er. rewrite (wf_radTemp e WF) in Er. lia. }
  unfold radCalc. rewrite Hs. simpl.
  destruct (Py.gtb a 0 || Py.gtb b 0 || Py.gtb c 0).
  - destruct (hourFlux_total e count hour WF Hc Hh) as [f ->]. simpl.
    rewrite PyFacts.index_nat, Er. simpl. eauto.
  - rewrite PyFacts.index_nat, Er. simpl. eauto.
Qed.

Lemma nonParallelRadCalc_total (e : Env) :
  WellFormed e -> exists out, nonParallelRadCalc e = Some out.
Proof.
  intros WF. unfold nonParallelRadCalc.
  destruct (PyFacts.mapM_total (fun ch => radCalc e (fst ch) (snd ch))
              (Py.enumerate (HOYS e))) as [actss Hm].
  { intros [c h] Hin. apply PyFacts.enumerate_In in Hin.
    now apply radCalc_total. }
  eexists. apply (SeriesFacts.forEach_total _ _ _ _ Hm).
Qed.

(** Entry [count] of the output series is what [radCalc] appends for
    that hour. *)
Lemma nonParallelRadCalc_hour (e : Env) (out : Series) (count : nat) (hour : Z) :
  nonParallelRadCalc e = Some out ->
  nth_error (HOYS e) count = Some hour ->
  exists acts x m d,
    radCalc e count hour = Some acts /\ OneEach acts x m d
    /\ nth_error (ERF out) count = Some x
    /\ nth_error (solarAdjustedMRT out) count = Some m
    /\ nth_error (MRTDelta out) count = Some d.
Proof.
  intros Hrun Hn.
  apply (SeriesFacts.forEach_hour (fun ch => radCalc e (fst ch) (snd ch))
           (HOYS e) out Hrun); [| exact Hn].
  intros [c h] acts H. exact (radCalc_OneEach _ _ _ _ H).
Qed.


End HighResFacts.

(** ** The low-resolution path *)

Module LowResFacts.
Import LowRes.

(** *** The arguments of the spline *)

Lemma azLoopDown_spec (az : R) :
  (180 < az -> 0 < azLoopDown az <= 180) /\ (az <= 180 -> azLoopDown az = az).
Proof.
  apply (azLoopDown_elim
           (fun az r => (180 < az -> 0 < r <= 180) /\ (az <= 180 -> r = az))).
  - intros az' Hgt [IH1 IH2] _. split; [| lra].
    intros _. destruct (Rlt_dec 180 (az' - 180)) as [Hlt | Hge].
    + now apply IH1.
    + rewrite IH2 by lra. lra.
  - intros az' Hle _. split; [lra | reflexivity].
Qed.

Lemma azLoopUp_spec (az : R) :
  (az < 0 -> 0 <= azLoopUp az < 180) /\ (0 <= az -> azLoopUp az = az).
Proof.
  apply (azLoopUp_elim
           (fun az r => (az < 0 -> 0 <= r < 180) /\ (0 <= az -> r = az))).
  - intros az' Hlt [IH1 IH2] _. split; [| lra].
    intros _. destruct (Rlt_dec (az' + 180) 0) as [Hlt' | Hge].
    + now apply IH1.
    + rewrite IH2 by lra. lra.
  - intros az' Hge _. split; [lra | reflexivity].
Qed.

(** [int] of a non-negative float that is at most [n] lies in [0, n]. *)
Lemma int_bounds (x : R) (n : Z) :
  0 <= x <= IZR n -> (0 <= Py.int x <= n)%Z.
Proof.
  intros [H0 Hn]. unfold Py.int.
  destruct (Rle_dec 0 x) as [_ | Hneg]; [| contradiction].
  destruct (base_Int_part x) as [Hle Hgt]. split.
  - apply le_IZR. apply Rnot_lt_le. intros Hlt.
    assert (H1 : (Int_part x <= -1)%Z).
    { assert (Int_part x < 0)%Z by (apply lt_IZR; exact Hlt). lia. }
    apply IZR_le in H1. lra.
  - apply le_IZR. lra.
Qed.

Lemma azFinalOf_bounds (azInit : R) : (0 <= azFinalOf azInit <= 180)%Z.
Proof.
  unfold azFinalOf. apply int_bounds.
  unfold Py.gtb, Py.ltb.
  destruct (Rlt_dec 180 azInit) as [Hgt | Hle].
  - destruct (azLoopDown_spec azInit) as [H _]. specialize (H Hgt). lra.
  - destruct (Rlt_dec azInit 0) as [Hlt | Hge].
    + destruct (azLoopUp_spec azInit) as [H _]. specialize (H Hlt). lra.
    + lra.
Qed.

Lemma degrees_bounds (x : R) : 0 < x <= PI -> 0 < Py.degrees x <= 180.
Proof.
  intros [H0 Hpi]. unfold Py.degrees.
  assert (Hp := PI_RGT_0).
  assert (Hq : 0 < 180 / PI) by (apply Rdiv_lt_0_compat; lra).
  split.
  - apply Rmult_lt_0_compat; assumption.
  - replace 180 with (PI * (180 / PI)) at 2 by (field; lra).
    apply Rmult_le_compat_r; lra.
Qed.

Lemma altFinalOf_bounds (altitude : R) :
  0 < altitude <= PI -> (0 <= altFinalOf altitude <= 90)%Z.
Proof.
  intros H. apply degrees_bounds in H.
  assert (Hb : (0 <= Py.int (Py.degrees altitude) <= 180)%Z)
    by (apply int_bounds; lra).
  unfold altFinalOf.
  destruct (90 <? Py.int (Py.degrees altitude))%Z eqn:E.
  - apply Z.ltb_lt in E. lia.
  - apply Z.ltb_ge in E. lia.
Qed.

(** *** Sums of 0/1 lists and Python 2 integer division *)

Lemma fold_left_Zadd (l : list Z) (a : Z) :
  fold_left Z.add l a = (a + Py.sumZ l)%Z.
Proof.
  unfold Py.sumZ. revert a.
  induction l as [| x l IH]; intros a; simpl.
  - lia.
  - rewrite IH, (IH x). lia.
Qed.

Lemma sumZ_cons (x : Z) (l : list Z) : Py.sumZ (x :: l) = (x + Py.sumZ l)%Z.
Proof. unfold Py.sumZ at 1. simpl. now rewrite fold_left_Zadd. Qed.

(** The sum of the flags of a list counts the flagged elements. *)
Lemma sumZ_flags {A} (flag : A -> bool) (l : list A) :
  Py.sumZ (map (fun a => if flag a then 1%Z else 0%Z) l)
  = Z.of_nat (length (filter flag l)).
Proof.
  induction l as [| a l IH].
  - reflexivity.
  - simpl map. rewrite sumZ_cons, IH. simpl filter.
    destruct (flag a); simpl length; lia.
Qed.

Lemma filter_length_forallb {A} (flag : A -> bool) (l : list A) :
  (length (filter flag l) <= length l)%nat
  /\ (length (filter flag l) = length l <-> forallb flag l = true).
Proof.
  induction l as [| a l [IHle IHeq]]; simpl.
  - split; [lia | tauto].
  - destruct (flag a); simpl.
    + split; [lia |]. rewrite <- IHeq. split; lia.
    + split; [lia |]. split; [lia | discriminate].
Qed.

(** Floor division of a count by the size of the list it counts in
    gives 1 when every element is counted and 0 otherwise. *)
Lemma count_div_length {A} (flag : A -> bool) (l : list A) :
  l <> [] ->
  (Z.of_nat (length (filter flag l)) / Z.of_nat (length l))%Z
  = if forallb flag l then 1%Z else 0%Z.
Proof.
  intros Hne.
  assert (Hpos : (0 < length l)%nat)
    by (destruct l; [contradiction | simpl; lia]).
  destruct (filter_length_forallb flag l) as [Hle Heq].
  destruct (forallb flag l).
  - rewrite (proj2 Heq eq_refl). apply Z.div_same. lia.
  - apply Z.div_small. split; [lia |].
    assert (length (filter flag l) <> length l)
      by (intros H; apply Heq in H; discriminate).
    lia.
Qed.

Lemma sumZ_flat_flags {A} (flag : A -> bool) (l : list A) :
  Py.sumZ (flat_map (fun a => if flag a then [1%Z] else []) l)
  = Z.of_nat (length (filter flag l)).
Proof.
  induction l as [| a l IH].
  - reflexivity.
  - simpl flat_map. simpl filter. destruct (flag a).
    + simpl app. rewrite sumZ_cons, IH. simpl length. lia.
    + simpl app. exact IH.
Qed.

Section Geometry.

Context {Point Vector Mesh : Type}.
Variable MeshRay : Mesh -> Point -> Vector -> R.
Variables splineStand splineSit : Z -> Z -> R.

(** *** The visibility fractions under Python 2 division *)

Lemma context_nonempty (e : LowRes.Env Point Vector Mesh) :
  context e <> [] -> (0 <? length (context e))%nat = true.
Proof.
  intros H. apply Nat.ltb_lt.
  destruct (context e); [contradiction | simpl; lia].
Qed.

Lemma fBesOf_spec (e : LowRes.Env Point Vector Mesh) (count : nat) (sunVec : Vector) :
  context e <> [] -> mannequinMesh e <> [] ->
  nth_error (sunVectors e) count = Some (Some sunVec) ->
  fBesOf MeshRay e count
  = Some (if forallb (fun point => negb (rayBlocked MeshRay (context e) point sunVec))
               (mannequinMesh e)
          then 1%Z else 0%Z).
Proof.
  intros Hc Hm Hs. unfold fBesOf.
  rewrite (context_nonempty e Hc), Hs.
  unfold fBesList. rewrite length_map.
  rewrite (map_ext _
             (fun point =>
                if negb (rayBlocked MeshRay (context e) point sunVec)
                then 1%Z else 0%Z))
    by (intros p; now destruct (rayBlocked MeshRay (context e) p sunVec)).
  rewrite sumZ_flags. unfold Py.intdiv.
  destruct (Z.of_nat (length (mannequinMesh e)) =? 0)%Z eqn:E.
  - apply Z.eqb_eq in E. destruct (mannequinMesh e); [contradiction | simpl in E; lia].
  - now rewrite count_div_length.
Qed.

(** [fBes] is never a proper fraction. *)
Lemma fBesOf_zero_or_one (e : LowRes.Env Point Vector Mesh) (count : nat) (fBes : Z) :
  fBesOf MeshRay e count = Some fBes -> fBes = 0%Z \/ fBes = 1%Z.
Proof.
  unfold fBesOf. destruct (0 <? length (context e))%nat.
  - destruct (nth_error (sunVectors e) count) as [[sunVec |] |];
      try discriminate.
    unfold Py.intdiv, fBesList. rewrite length_map.
    destruct (Z.of_nat (length (mannequinMesh e)) =? 0)%Z eqn:E;
      [discriminate |].
    rewrite (map_ext _
               (fun point =>
                  if negb (rayBlocked MeshRay (context e) point sunVec)
                  then 1%Z else 0%Z))
      by (intros p; now destruct (rayBlocked MeshRay (context e) p sunVec)).
    rewrite sumZ_flags, count_div_length.
    + intros H. injection H as <-.
      destruct (forallb _ (mannequinMesh e)); auto.
    + intros Hnil. rewrite Hnil in E. discriminate.
  - intros H. injection H as <-. now right.
Qed.

Lemma skyViewFac_spec (e : LowRes.Env Point Vector Mesh) (middle : Point) :
  context e <> [] -> viewVectors e <> [] ->
  middlePt e = Some middle ->
  skyViewFac MeshRay e
  = Some (1 - (if forallb (fun viewVec => rayBlocked MeshRay (context e) middle viewVec)
                    (viewVectors e)
               then 1 else 0))%Z.
Proof.
  intros Hc Hv Hm. unfold skyViewFac. rewrite Hm. simpl.
  rewrite (context_nonempty e Hc).
  rewrite sumZ_flat_flags. unfold Py.intdiv.
  destruct (Z.of_nat (length (viewVectors e)) =? 0)%Z eqn:E.
  - apply Z.eqb_eq in E. destruct (viewVectors e); [contradiction | simpl in E; lia].
  - simpl. now rewrite count_div_length.
Qed.

(** *** The appends of one hour *)

Lemma hourERF_inv (e : LowRes.Env Point Vector Mesh) (skyViewFac fBes : Z) (count : nat) (hour : Z)
  (x : R) :
  hourERF splineStand splineSit e skyViewFac fBes count hour = Some x ->
  exists diffRad dirNormRad altitude azimuth w,
    Py.index (diffSolarRad e) (hour - 1) = Some diffRad
    /\ Py.index (directSolarRad e) (hour - 1) = Some dirNormRad
    /\ nth_error (altitudes e) count = Some altitude
    /\ nth_error (azimuths e) count = Some azimuth
    /\ Py.index (winTrans e) (hour - 1) = Some w
    /\ x = ((0.5 * fracEff (bodyPosture_ e) * IZR skyViewFac
             * (diffRad + ((dirNormRad * sin altitude + diffRad) * groundR e))
             + (fracEff (bodyPosture_ e)
                * ProjAreaFac splineStand splineSit e azimuth altitude
                * IZR fBes * dirNormRad)) * w)
           * (cloA e / 0.95).
Proof.
  unfold hourERF. intros H.
  destruct (Py.index (diffSolarRad e) (hour - 1)) as [diffRad |];
    simpl in H; [| discriminate].
  destruct (Py.index (directSolarRad e) (hour - 1)) as [dirNormRad |];
    simpl in H; [| discriminate].
  rewrite !PyFacts.index_nat in H.
  destruct (nth_error (altitudes e) count) as [altitude |];
    simpl in H; [| discriminate].
  destruct (nth_error (azimuths e) count) as [azimuth |];
    simpl in H; [| discriminate].
  destruct (Py.index (winTrans e) (hour - 1)) as [w |];
    simpl in H; [| discriminate].
  injection H as <-.
  exists diffRad, dirNormRad, altitude, azimuth, w. now repeat split.
Qed.

Lemma MRTCalc_inv (e : LowRes.Env Point Vector Mesh) (skyViewFac : Z) (count : nat) (hour : Z)
  (acts : list Action) :
  MRTCalc MeshRay splineStand splineSit e skyViewFac count hour = Some acts ->
  exists altitude rt,
    nth_error (altitudes e) count = Some altitude
    /\ nth_error (radTemp e) count = Some rt
    /\ ((altitude > 0
         /\ exists fBes x,
             fBesOf MeshRay e count = Some fBes /\ (0 < fBes)%Z
             /\ hourERF splineStand splineSit e skyViewFac fBes count hour
                = Some x
             /\ acts =
                [AppendERF x;
                 AppendDelta (x / (fracEff (bodyPosture_ e) * radTransCoeff));
                 AppendMRT (x / (fracEff (bodyPosture_ e) * radTransCoeff) + rt)])
        \/ ((altitude <= 0
             \/ exists fBes, fBesOf MeshRay e count = Some fBes /\ (fBes <= 0)%Z)
            /\ acts = [AppendERF 0; AppendMRT rt; AppendDelta 0])).
Proof.
  unfold MRTCalc. intros H. rewrite !PyFacts.index_nat in H.
  destruct (nth_error (altitudes e) count) as [altitude |];
    simpl in H; [| discriminate].
  destruct (Py.gtb altitude 0) eqn:Ea.
  - apply PyFacts.gtb_true_iff in Ea.
    destruct (fBesOf MeshRay e count) as [fBes |]; simpl in H; [| discriminate].
    destruct (0 <? fBes)%Z eqn:Ef.
    + apply Z.ltb_lt in Ef.
      destruct (hourERF splineStand splineSit e skyViewFac fBes count hour)
        as [x |] eqn:Ex; simpl in H; [| discriminate].
      destruct (nth_error (radTemp e) count) as [rt |];
        simpl in H; [| discriminate].
      injection H as <-. exists altitude, rt.
      split; [reflexivity |]. split; [reflexivity |].
      left. split; [assumption |]. exists fBes, x. now repeat split.
    + apply Z.ltb_ge in Ef.
      destruct (nth_error (radTemp e) count) as [rt |];
        simpl in H; [| discriminate].
      injection H as <-. exists altitude, rt.
      split; [reflexivity |]. split; [reflexivity |].
      right. split; [| reflexivity]. right. now exists fBes.
  - apply PyFacts.gtb_false_iff in Ea.
    destruct (nth_error (radTemp e) count) as [rt |];
      simpl in H; [| discriminate].
    injection H as <-. exists altitude, rt.
    split; [reflexivity |]. split; [reflexivity |].
    right. split; [now left | reflexivity].
Qed.

Lemma MRTCalc_OneEach (e : LowRes.Env Point Vector Mesh) (skyViewFac : Z) (count : nat) (hour : Z)
  (acts : list Action) :
  MRTCalc MeshRay splineStand splineSit e skyViewFac count hour = Some acts ->
  exists x m d, OneEach acts x m d.
Proof.
  intros H. destruct (MRTCalc_inv _ _ _ _ _ H)
    as (altitude & rt & _ & _
        & [(_ & fBes & x & _ & _ & _ & ->) | (_ & ->)]);
    do 3 eexists; repeat split.
Qed.

(** An hour whose sun is down appends its three values without
    looking at the radiation of the hour. *)
Lemma MRTCalc_night (e : LowRes.Env Point Vector Mesh) (skyViewFac : Z) (count : nat) (hour : Z)
  (altitude rt : R) :
  nth_error (altitudes e) count = Some altitude -> altitude <= 0 ->
  nth_error (radTemp e) count = Some rt ->
  MRTCalc MeshRay splineStand splineSit e skyViewFac count hour
  = Some [AppendERF 0; AppendMRT rt; AppendDelta 0].
Proof.
  intros Ha Hle Hr. unfold MRTCalc.
  rewrite !PyFacts.index_nat, Ha. simpl.
  rewrite (PyFacts.gtb_false _ _ Hle), Hr. reflexivity.
Qed.

(** *** The sequential run *)

Lemma index_hour {A} (l : list A) (hour : Z) :
  (1 <= hour <= Z.of_nat (length l))%Z ->
  exists x, Py.index l (hour - 1) = Some x.
Proof.
  intros H. unfold Py.index.
  destruct (0 <=? hour - 1)%Z eqn:E; [| apply Z.leb_gt in E; lia].
  destruct (nth_error l (Z.to_nat (hour - 1))) as [x |] eqn:En; [eauto |].
  apply nth_error_None in En. lia.
Qed.

Lemma middlePt_mannequin (e : LowRes.Env Point Vector Mesh) (middle : Point) :
  middlePt e = Some middle -> mannequinMesh e <> [].
Proof.
  unfold middlePt. intros H Hnil. rewrite Hnil in H.
  destruct (_ || _); discriminate.
Qed.

Lemma fBesOf_total (e : LowRes.Env Point Vector Mesh) (count : nat) (altitude : R) :
  WellFormed e ->
  nth_error (altitudes e) count = Some altitude -> altitude > 0 ->
  exists fBes, fBesOf MeshRay e count = Some fBes.
Proof.
  intros WF Ha Hpos.
  destruct (context e) as [| mesh rest] eqn:Ec.
  - unfold fBesOf. rewrite Ec. simpl. eauto.
  - assert (Hc : context e <> []) by (rewrite Ec; discriminate).
    destruct (wf_sun e WF count altitude Hc Ha Hpos) as [sunVec Hs].
    destruct (wf_middle e WF) as [middle Hm].
    rewrite (fBesOf_spec e count sunVec Hc (middlePt_mannequin e middle Hm) Hs).
    eauto.
Qed.

Lemma skyViewFac_total (e : LowRes.Env Point Vector Mesh) :
  WellFormed e -> exists skyViewFac, LowRes.skyViewFac MeshRay e = Some skyViewFac.
Proof.
  intros WF. destruct (wf_middle e WF) as [middle Hm].
  destruct (context e) as [| mesh rest] eqn:Ec.
  - unfold skyViewFac. rewrite Hm, Ec. simpl. eauto.
  - assert (Hc : context e <> []) by (rewrite Ec; discriminate).
    rewrite (skyViewFac_spec e middle Hc (wf_views e WF Hc) Hm). eauto.
Qed.

Lemma hourERF_total (e : LowRes.Env Point Vector Mesh) (skyViewFac fBes : Z) (count : nat) (hour : Z) :
  WellFormed e -> nth_error (HOYS e) count = Some hour ->
  exists x, hourERF splineStand splineSit e skyViewFac fBes count hour = Some x.
Proof.
  intros WF Hn.
  assert (Hc : (count < length (HOYS e))%nat)
    by (apply nth_error_Some; congruence).
  destruct (wf_hours e WF hour (nth_error_In _ _ Hn)) as (Hdir & Hdiff & Hwin).
  destruct (index_hour (diffSolarRad e) hour) as [diffRad Ediff]; [lia |].
  destruct (index_hour (directSolarRad e) hour) as [dirNormRad Edir]; [lia |].
  destruct (index_hour (winTrans e) hour) as [w Ew]; [lia |].
  destruct (nth_error (altitudes e) count) as [altitude |] eqn:Ea.
  2:{ apply nth_error_None in Ea. rewrite (wf_altitudes e WF) in Ea. lia. }
  destruct (nth_error (azimuths e) count) as [azimuth |] eqn:Ez.
  2:{ apply nth_error_None in Ez. rewrite (wf_azimuths e WF) in Ez. lia. }
  unfold hourERF. rewrite Ediff, Edir. simpl.
  rewrite !PyFacts.index_nat, Ea, Ez. simpl. rewrite Ew. simpl. eauto.
Qed.

Lemma MRTCalc_total (e : LowRes.Env Point Vector Mesh) (skyViewFac : Z) (count : nat) (hour : Z) :
  WellFormed e -> nth_error (HOYS e) count = Some hour ->
  exists acts,
    MRTCalc MeshRay splineStand splineSit e skyViewFac count hour = Some acts.
Proof.
  intros WF Hn.
  assert (Hc : (count < length (HOYS e))%nat)
    by (apply nth_error_Some; congruence).
  destruct (nth_error (altitudes e) count) as [altitude |] eqn:Ea.
  2:{ apply nth_error_None in Ea. rewrite (wf_altitudes e WF) in Ea. lia. }
  destruct (nth_error (radTemp e) count) as [rt |] eqn:Er.
  2:{ apply nth_error_None in Er. rewrite (wf_radTemp e WF) in Er. lia. }
  unfold MRTCalc. rewrite !PyFacts.index_nat, Ea. simpl.
  destruct (Py.gtb altitude 0) eqn:Eg.
  - apply PyFacts.gtb_true_iff in Eg.
    destruct (fBesOf_total e count altitude WF Ea Eg) as [fBes ->]. simpl.
    destruct (0 <? fBes)%Z.
    + destruct (hourERF_total e skyViewFac fBes count hour WF Hn) as [x ->].
      simpl. rewrite Er. simpl. eauto.
    + rewrite Er. simpl. eauto.
  - rewrite Er. simpl. eauto.
Qed.

Lemma nonParallelMRTCalc_total (e : LowRes.Env Point Vector Mesh) :
  WellFormed e ->
  exists out, nonParallelMRTCalc MeshRay splineStand splineSit e = Some out.
Proof.
  intros WF. unfold nonParallelMRTCalc.
  destruct (skyViewFac_total e WF) as [skyViewFac ->]. simpl.
  destruct (PyFacts.mapM_total
              (fun ch => MRTCalc MeshRay splineStand splineSit e skyViewFac
                           (fst ch) (snd ch))
              (Py.enumerate (HOYS e))) as [actss Hm].
  { intros [c h] Hin. apply PyFacts.enumerate_In in Hin.
    now apply MRTCalc_total. }
  eexists. apply (SeriesFacts.forEach_total _ _ _ _ Hm).
Qed.

(** Entry [count] of the output series is what [MRTCalc] appends for
    that hour. *)
Lemma nonParallelMRTCalc_hour (e : LowRes.Env Point Vector Mesh) (out : Series) (count : nat)
  (hour : Z) :
  nonParallelMRTCalc MeshRay splineStand splineSit e = Some out ->
  nth_error (HOYS e) count = Some hour ->
  exists skyViewFac acts x m d,
    LowRes.skyViewFac MeshRay e = Some skyViewFac
    /\ MRTCalc MeshRay splineStand splineSit e skyViewFac count hour = Some acts
    /\ OneEach acts x m d
    /\ nth_error (ERF out) count = Some x
    /\ nth_error (solarAdjustedMRT out) count = Some m
    /\ nth_error (MRTDelta out) count = Some d.
Proof.
  unfold nonParallelMRTCalc. intros Hrun Hn.
  destruct (LowRes.skyViewFac MeshRay e) as [skyViewFac |];
    simpl in Hrun; [| discriminate].
  exists skyViewFac.
  destruct (SeriesFacts.forEach_hour
              (fun ch => MRTCalc MeshRay splineStand splineSit e skyViewFac
                           (fst ch) (snd ch))
              (HOYS e) out Hrun) with (i := count) (h := hour)
    as (acts & x & m & d & H);
    [| exact Hn | exists acts, x, m, d; split; [reflexivity | exact H]].
  intros [c h] acts H. exact (MRTCalc_OneEach _ _ _ _ _ H).
Qed.


End Geometry.


End LowResFacts.

(** ** The parallel loop under uninterrupted workers *)

Module ParallelFacts.
Import Parallel.

(** *** The re-ordering *)

Lemma insert_perm (p : nat * R) (l : list (nat * R)) :
  Permutation (insert p l) (p :: l).
Proof.
  induction l as [| q l IH]; simpl.
  - reflexivity.
  - destruct (pair_leb p q).
    + reflexivity.
    + rewrite IH. apply perm_swap.
Qed.

Lemma sorted_perm (l : list (nat * R)) : Permutation (sorted l) l.
Proof.
  induction l as [| p l IH]; simpl.
  - reflexivity.
  - rewrite insert_perm. now apply perm_skip.
Qed.







(** *** Workers that run without interruption *)












(** *** The series of a run with uninterrupted workers *)

Lemma mapM_task (body : nat -> option (list Action)) (l : list nat)
  (actss : list (list Action)) :
  Py.mapM body l = Some actss ->
  Py.mapM (task body) l
  = Some (map (fun ca => snd ca ++ [AppendOrder (fst ca)]) (combine l actss)).
Proof.
  revert actss. induction l as [| c l IH]; intros actss H; simpl in H.
  - now injection H as <-.
  - destruct (body c) as [acts |] eqn:Eb; [| discriminate].
    destruct (Py.mapM body l) as [actss' |]; [| discriminate].
    injection H as <-. simpl. unfold task at 1. rewrite Eb. simpl.
    now rewrite (IH actss' eq_refl).
Qed.





Lemma mapM_enumerate (F : nat -> Z -> option (list Action)) (hs : list Z) :
  Py.mapM (fun ch => F (fst ch) (snd ch)) (Py.enumerate hs)
  = Py.mapM (fun c => h <- nth_error hs c ;; F c h) (seq 0 (length hs)).
Proof.
  unfold Py.enumerate.
  assert (H : forall l pre,
             Py.mapM (fun ch => F (fst ch) (snd ch))
               (Py.enumerateFrom (length pre) l)
             = Py.mapM (fun c => h <- nth_error (pre ++ l) c ;; F c h)
                 (seq (length pre) (length l))).
  { induction l as [| a l IH]; intros pre.
    - reflexivity.
    - simpl. rewrite nth_error_app2, Nat.sub_diag by lia. simpl.
      destruct (F (length pre) a) as [acts |]; [| reflexivity].
      specialize (IH (pre ++ [a])).
      rewrite length_app, Nat.add_1_r, <- app_assoc in IH. simpl in IH.
      now rewrite IH. }
  exact (H hs []).
Qed.



End ParallelFacts.

(** ** The example inputs, evaluated *)

Module ExampleFacts.
Import Examples.

Ltac py_cmp :=
  repeat first
    [ match goal with
      | |- context [Pos.to_nat ?p] =>
          let n := eval compute in (Pos.to_nat p) in
          change (Pos.to_nat p) with n; cbn
      end
    | rewrite PyFacts.gtb_true by lra
    | rewrite PyFacts.gtb_false by lra
    | rewrite PyFacts.ltb_true by lra
    | rewrite PyFacts.ltb_false by lra
    | rewrite PyFacts.neqb_true by lra
    | rewrite PyFacts.neqb_false by lra
    | rewrite PyFacts.div_ok by lra ].

Lemma exHigh_wf : HighRes.WellFormed exHigh.
Proof.
  constructor; try reflexivity.
  - intros hour Hh. simpl in Hh.
    assert (Hsky : exists dd, HighRes.getHourlySky (HighRes.cumSkyMtx_d exHigh) hour = Some [dd]).
    { cbn. destruct (hour =? 17)%Z; eauto. }
    destruct Hsky as [dd ->]. exists [dd]. split; [reflexivity |].
    intros patches p Hin Hp _. simpl in Hin.
    destruct Hin as [<- | [<- | []]]; destruct Hp as [<- | []]; simpl; lia.
  - discriminate.
  - exists (0 + 2 * 1 * 1). split; [reflexivity | lra].
Qed.

Lemma exHigh_sunUp_0 : HighRes.sunUpTest exHigh 0 = Some true.
Proof. unfold HighRes.sunUpTest. cbn. py_cmp. reflexivity. Qed.

Lemma exHigh_sunUp_3 : HighRes.sunUpTest exHigh 3 = Some false.
Proof. unfold HighRes.sunUpTest. cbn. repeat (py_cmp; cbn). reflexivity. Qed.

Lemma exHigh_cyclic_3 : HighRes.sunUpTestCyclic exHigh 3 = Some true.
Proof. unfold HighRes.sunUpTestCyclic. cbn. py_cmp. reflexivity. Qed.

Lemma exHigh_flux :
  HighRes.hourFlux exHigh 0 17
  = Some (HighRes.mkFlux
            [0 + (0 + 100 + 200) * cos 0; 0 + (0 + 100 + 200) * cos 0]
            (0 + (0 + 100 + 200) * cos 0)
            (0 + (0 + (0 + 100 + 200) * cos 0) * (2 * 1 * 1))
            (0.5 * ((0 + (0 + 100 + 200) * cos 0) * 0.5) * 0.696 * 0.25)
            (((0 + (0 + (0 + 100 + 200) * cos 0) * (2 * 1 * 1)) * 0.5
              + 0.5 * ((0 + (0 + 100 + 200) * cos 0) * 0.5) * 0.696 * 0.25)
             / (0 + 2 * 1 * 1))).
Proof.
  unfold HighRes.hourFlux, exHigh. cbn. py_cmp. reflexivity.
Qed.

Lemma annual_length (x : R) : length (annual x) = Z.to_nat 8760.
Proof. apply repeat_length. Qed.

Lemma annual_index (x : R) (hour : Z) :
  (1 <= hour <= 8760)%Z -> Py.index (annual x) (hour - 1) = Some x.
Proof.
  intros H. unfold Py.index.
  destruct (0 <=? hour - 1)%Z eqn:E; [| apply Z.leb_gt in E; lia].
  unfold annual. apply nth_error_repeat. lia.
Qed.

#[local] Arguments annual : simpl never.
#[local] Opaque annual.

Lemma exLow_wf : LowRes.WellFormed exLow.
Proof.
  constructor; try reflexivity.
  - intros hour Hh. cbn [LowRes.directSolarRad LowRes.diffSolarRad LowRes.winTrans exLow].
    rewrite !annual_length. simpl in Hh. lia.
  - exists 1%nat. reflexivity.
  - discriminate.
  - intros count altitude _ Ha Hpos. simpl in Ha.
    destruct count as [| [| [| count]]]; simpl in Ha.
    + eexists; reflexivity.
    + eexists; reflexivity.
    + injection Ha as <-. lra.
    + destruct count; discriminate.
Qed.

Lemma exLow_skyViewFac : LowRes.skyViewFac exMeshRay exLow = Some 1%Z.
Proof.
  unfold LowRes.skyViewFac, LowRes.rayBlocked, exMeshRay. cbn. py_cmp. reflexivity.
Qed.

Lemma exLow_fBes_0 : LowRes.fBesOf exMeshRay exLow 0 = Some 0%Z.
Proof.
  unfold LowRes.fBesOf, LowRes.fBesList, LowRes.rayBlocked, exMeshRay. cbn.
  py_cmp. reflexivity.
Qed.

Lemma exLow_fBes_1 : LowRes.fBesOf exMeshRay exLow 1 = Some 1%Z.
Proof.
  unfold LowRes.fBesOf, LowRes.fBesList, LowRes.rayBlocked, exMeshRay. cbn.
  py_cmp. reflexivity.
Qed.

Lemma exLow_hour_1 :
  LowRes.MRTCalc exMeshRay exSpline exSpline exLow 1 1 13
  = Some [AppendERF exERF; AppendDelta (exERF / (0.725 * radTransCoeff));
          AppendMRT (exERF / (0.725 * radTransCoeff) + 20)].
Proof.
  assert (Hpi := PI_RGT_0).
  unfold LowRes.MRTCalc. rewrite exLow_fBes_1.
  cbn -[LowRes.hourERF]. py_cmp.
  unfold LowRes.hourERF. 
  cbn [LowRes.diffSolarRad LowRes.directSolarRad LowRes.winTrans exLow].
  rewrite !annual_index by lia.
  cbn. py_cmp. reflexivity.
Qed.

Lemma exLow_hour_0 :
  LowRes.MRTCalc exMeshRay exSpline exSpline exLow 1 0 12
  = Some [AppendERF 0; AppendMRT 20; AppendDelta 0].
Proof.
  assert (Hpi := PI_RGT_0).
  unfold LowRes.MRTCalc. rewrite exLow_fBes_0.
  cbn. py_cmp. reflexivity.
Qed.

Lemma exLow_hour_2 :
  LowRes.MRTCalc exMeshRay exSpline exSpline exLow 1 2 20
  = Some [AppendERF 0; AppendMRT 20; AppendDelta 0].
Proof.
  apply LowResFacts.MRTCalc_night with (altitude := -0.1);
    [reflexivity | lra | reflexivity].
Qed.

Lemma exERF_pos : exERF > 0.
Proof. unfold exERF. rewrite sin_PI6. lra. Qed.

Lemma exLow_sequential :
  LowRes.nonParallelMRTCalc exMeshRay exSpline exSpline exLow
  = Some (mkSeries [0; exERF; 0]
            [0; exERF / (0.725 * radTransCoeff); 0]
            [20; exERF / (0.725 * radTransCoeff) + 20; 20]
            []).
Proof.
  unfold LowRes.nonParallelMRTCalc. rewrite exLow_skyViewFac.
  cbn [Py.bind LowRes.HOYS exLow Py.enumerate Py.enumerateFrom forEach fst snd].
  rewrite exLow_hour_0, exLow_hour_1, exLow_hour_2. reflexivity.
Qed.

Lemma exLow_parallel :
  LowRes.parallelMRTCalc exMeshRay exSpline exSpline exLow exSchedule
  = Some (mkSeries [exERF; 0; 0]
            [0; 0; exERF / (0.725 * radTransCoeff)]
            [20; 20; exERF / (0.725 * radTransCoeff) + 20]
            [0; 2; 1]%nat).
Proof.
  unfold LowRes.parallelMRTCalc. rewrite exLow_skyViewFac.
  unfold Parallel.ForEach, Parallel.programs, Parallel.task.
  cbn [Py.bind LowRes.HOYS exLow length seq Py.mapM nth_error].
  rewrite exLow_hour_0, exLow_hour_1, exLow_hour_2. reflexivity.
Qed.

Lemma exLow_resorted :
  Parallel.resort (mkSeries [exERF; 0; 0]
            [0; 0; exERF / (0.725 * radTransCoeff)]
            [20; 20; exERF / (0.725 * radTransCoeff) + 20]
            [0; 2; 1]%nat)
  = mkSeries [exERF; 0; 0]
            [0; exERF / (0.725 * radTransCoeff); 0]
            [20; exERF / (0.725 * radTransCoeff) + 20; 20]
            [0; 2; 1]%nat.
Proof. reflexivity. Qed.
Lemma exHigh_hour_0 :
  HighRes.radCalc exHigh 0 17
  = Some [AppendERF (exHourERF / 1000);
          AppendMRT (exHourERF / (0.696 * radTransCoeff) + 20);
          AppendDelta (exHourERF / (0.696 * radTransCoeff) + 20 - 20)].
Proof.
  unfold HighRes.radCalc. rewrite exHigh_sunUp_0, exHigh_flux. reflexivity.
Qed.

Lemma exHourERF_pos : exHourERF > 0.
Proof. unfold exHourERF. rewrite cos_0. lra. Qed.

Lemma exLow_claimed_fBes_0 : Claimed.fBes exMeshRay exLow 10%nat = 2 / 3.
Proof.
  unfold Claimed.fBes, LowRes.rayBlocked, exMeshRay. cbn. py_cmp. cbn. lra.
Qed.

Lemma exLow_claimed_fBes_1 : Claimed.fBes exMeshRay exLow 11%nat = 1.
Proof.
  unfold Claimed.fBes, LowRes.rayBlocked, exMeshRay. cbn. py_cmp. cbn. lra.
Qed.

Lemma exLow_claimed_skyViewFac :
  Claimed.skyViewFac exMeshRay exLow 1%nat = 3 / 4.
Proof.
  unfold Claimed.skyViewFac, LowRes.rayBlocked, exMeshRay. cbn. py_cmp. cbn. lra.
Qed.

Lemma exLow_ProjAreaFac :
  LowRes.ProjAreaFac exSpline exSpline exLow PI (PI / 6) = 0.3.
Proof. reflexivity. Qed.

End ExampleFacts.

(** ** Binary64 *)

Module Binary64Facts.

(** Subtracting 0 returns the float itself, whatever it is. *)
Lemma sub_zero (x : float) : (x - 0)%float = x.
Proof.
  apply Prim2SF_inj. rewrite sub_spec.
  change (Prim2SF 0%float) with (S754_zero false).
  destruct (Prim2SF x) as [[|] | [|] | | s m e]; reflexivity.
Qed.

(** A value above 180 that the subtraction of 180 leaves as it is keeps
    the first loop running for ever. *)
Lemma azLoopDown_stuck (x : float) :
  (180 <? x)%float = true -> (x - 180)%float = x ->
  forall fuel, Binary64.azLoopDown fuel x = None.
Proof.
  intros Hgt Hfix fuel. induction fuel as [| fuel IH].
  - cbn [Binary64.azLoopDown]. now rewrite Hgt.
  - cbn [Binary64.azLoopDown]. rewrite Hgt, Hfix. exact IH.
Qed.

Lemma azLoopUp_stuck (x : float) :
  (x <? 0)%float = true -> (x + 180)%float = x ->
  forall fuel, Binary64.azLoopUp fuel x = None.
Proof.
  intros Hlt Hfix fuel. induction fuel as [| fuel IH].
  - cbn [Binary64.azLoopUp]. now rewrite Hlt.
  - cbn [Binary64.azLoopUp]. rewrite Hlt, Hfix. exact IH.
Qed.

End Binary64Facts.

(** * The claims *)

(** The formula of the low-resolution ERF over the integers the code
    computes.  For a sun-up hour (altitude > 0) whose [fBes], the floor
    of the lit share of the body points, is positive (and then 1), the ERF
    of the hour, as the worker of the hour appends it and as the sequential
    run reports it at the hour's position, is
    ((0.5 * fracEff * skyViewFac * (diffuse + (directNormal * sin(altitude)
    + diffuse) * groundR)) + (fracEff * ProjAreaFac * fBes * directNormal))
    * winTrans[hour-1] * (cloA / 0.95), with [skyViewFac] the floor
    the code computes (0 or 1 as well). *)
Lemma hourERF_over_truncated_fractions {Point Vector Mesh : Type}
  (MeshRay : Mesh -> Point -> Vector -> R) (splineStand splineSit : Z -> Z -> R)
  (e : LowRes.Env Point Vector Mesh) (count : nat) (hour : Z)
  (altitude : R) (fBes : Z) :
  LowRes.WellFormed e ->
  nth_error (LowRes.HOYS e) count = Some hour ->
  nth_error (LowRes.altitudes e) count = Some altitude ->
  altitude > 0 ->
  LowRes.fBesOf MeshRay e count = Some fBes ->
  (0 < fBes)%Z ->
  exists out skyViewFac diffRad dirNormRad azimuth w rest,
    LowRes.nonParallelMRTCalc MeshRay splineStand splineSit e = Some out
    /\ LowRes.skyViewFac MeshRay e = Some skyViewFac
    /\ Py.index (LowRes.diffSolarRad e) (hour - 1) = Some diffRad
    /\ Py.index (LowRes.directSolarRad e) (hour - 1) = Some dirNormRad
    /\ nth_error (LowRes.azimuths e) count = Some azimuth
    /\ Py.index (LowRes.winTrans e) (hour - 1) = Some w
    /\ let hourERF :=
         ((0.5 * fracEff (LowRes.bodyPosture_ e) * IZR skyViewFac
           * (diffRad + ((dirNormRad * sin altitude + diffRad) * LowRes.groundR e))
           + (fracEff (LowRes.bodyPosture_ e)
              * LowRes.ProjAreaFac splineStand splineSit e azimuth altitude
              * IZR fBes * dirNormRad)) * w)
         * (LowRes.cloA e / 0.95) in
       LowRes.MRTCalc MeshRay splineStand splineSit e skyViewFac count hour
       = Some (AppendERF hourERF :: rest)
       /\ nth_error (ERF out) count = Some hourERF.
Proof.
  intros WF Hn Ha Hpos Hf Hfpos.
  destruct (LowResFacts.nonParallelMRTCalc_total MeshRay splineStand splineSit e WF)
    as [out Hout].
  destruct (LowResFacts.nonParallelMRTCalc_hour _ _ _ e out count hour Hout Hn)
    as (skyViewFac & acts & x & m & d & Hsvf & Hacts & Hone & Hx & _ & _).
  destruct (LowResFacts.MRTCalc_inv _ _ _ _ _ _ _ _ Hacts)
    as (altitude' & rt & Ha' & Hr
        & [(_ & fBes' & x' & Hf' & _ & Hx' & ->)
          | ([Hle | (fBes' & Hf' & Hle)] & ->)]).
  - rewrite Hf in Hf'. injection Hf' as <-.
    destruct (LowResFacts.hourERF_inv _ _ _ _ _ _ _ _ Hx')
      as (diffRad & dirNormRad & altitude'' & azimuth & w
          & Hdiff & Hdir & Ha'' & Haz & Hw & ->).
    rewrite Ha in Ha''. injection Ha'' as <-.
    destruct Hone as (He & _ & _). simpl in He. injection He as <-.
    exists out, skyViewFac, diffRad, dirNormRad, azimuth, w.
    eexists. repeat split; try eassumption; reflexivity.
  - rewrite Ha in Ha'. injection Ha' as <-. lra.
  - rewrite Hf in Hf'. injection Hf' as <-. lia.
Qed.

(** C1 (what the code computes).  The direct-sun visibility fraction and
    the sky-view factor are floor-divided, so the ERF of a partly shaded
    sun-up hour is not the claimed expression.  In [exLow], hour 12 has the
    sun up and two of the three body points lit (visibility fraction 2/3),
    and three of the four view directions free (sky-view factor 3/4): the
    claimed ERF is positive, the reported ERF is 0.  In hour 13 all three
    body points are lit and the reported ERF is the claimed expression with
    the sky-view factor 1, not with 3/4. *)
Theorem C1_partly_shaded_hour_reports_no_erf :
  nth_error (LowRes.HOYS Examples.exLow) 0 = Some 12%Z
  /\ nth_error (LowRes.altitudes Examples.exLow) 0 = Some (PI / 6)
  /\ PI / 6 > 0
  /\ nth_error (LowRes.sunVectors Examples.exLow) 0 = Some (Some 10%nat)
  /\ Claimed.fBes Examples.exMeshRay Examples.exLow 10%nat = 2 / 3
  /\ LowRes.middlePt Examples.exLow = Some 1%nat
  /\ Claimed.skyViewFac Examples.exMeshRay Examples.exLow 1%nat = 3 / 4
  /\ Py.index (LowRes.diffSolarRad Examples.exLow) (12 - 1) = Some 100
  /\ Py.index (LowRes.directSolarRad Examples.exLow) (12 - 1) = Some 500
  /\ Py.index (LowRes.winTrans Examples.exLow) (12 - 1) = Some 1
  /\ nth_error (LowRes.azimuths Examples.exLow) 0 = Some PI
  /\ (exists out,
         LowRes.nonParallelMRTCalc Examples.exMeshRay Examples.exSpline
           Examples.exSpline Examples.exLow = Some out
         /\ nth_error (ERF out) 0 = Some 0
         /\ nth_error (ERF out) 1 = Some Examples.exERF)
  /\ Claimed.ERF (fracEff (LowRes.bodyPosture_ Examples.exLow)) (3 / 4) 100 500
       (PI / 6) (LowRes.groundR Examples.exLow)
       (LowRes.ProjAreaFac Examples.exSpline Examples.exSpline Examples.exLow
          PI (PI / 6))
       (2 / 3) 1 (LowRes.cloA Examples.exLow) > 0
  /\ nth_error (LowRes.sunVectors Examples.exLow) 1 = Some (Some 11%nat)
  /\ Claimed.fBes Examples.exMeshRay Examples.exLow 11%nat = 1
  /\ Examples.exERF
     = Claimed.ERF (fracEff (LowRes.bodyPosture_ Examples.exLow)) 1 100 500
         (PI / 6) (LowRes.groundR Examples.exLow)
         (LowRes.ProjAreaFac Examples.exSpline Examples.exSpline Examples.exLow
            PI (PI / 6))
         1 1 (LowRes.cloA Examples.exLow)
  /\ Examples.exERF
     <> Claimed.ERF (fracEff (LowRes.bodyPosture_ Examples.exLow)) (3 / 4) 100
          500 (PI / 6) (LowRes.groundR Examples.exLow)
          (LowRes.ProjAreaFac Examples.exSpline Examples.exSpline
             Examples.exLow PI (PI / 6))
          1 1 (LowRes.cloA Examples.exLow).
Proof.
  assert (Hpi := PI_RGT_0).
  split; [reflexivity |]. split; [reflexivity |]. split; [lra |].
  split; [reflexivity |].
  split; [exact ExampleFacts.exLow_claimed_fBes_0 |].
  split; [reflexivity |].
  split; [exact ExampleFacts.exLow_claimed_skyViewFac |].
  split; [apply ExampleFacts.annual_index; lia |].
  split; [apply ExampleFacts.annual_index; lia |].
  split; [apply ExampleFacts.annual_index; lia |].
  split; [reflexivity |].
  split.
  { eexists. split; [exact ExampleFacts.exLow_sequential |].
    split; reflexivity. }
  rewrite ExampleFacts.exLow_ProjAreaFac.
  unfold Claimed.ERF, Examples.exERF.
  change (fracEff (LowRes.bodyPosture_ Examples.exLow)) with 0.725.
  change (LowRes.groundR Examples.exLow) with 0.25.
  change (LowRes.cloA Examples.exLow) with 0.7.
  rewrite sin_PI6.
  split; [lra |]. split; [reflexivity |].
  split; [exact ExampleFacts.exLow_claimed_fBes_1 |].
  split; lra.
Qed.

(** C2 (as the code has it).  High-resolution path, for an hour that
    passes the sun-up test: the radiation of every sample point is the sum,
    over the patches flagged as intersecting, of the patch's radiation
    times the cosine of the stored angle; the body total is the sum, over
    the sample points but the last (the ground sample), of the point's
    radiation times its area; the ground-reflected contribution is
    0.5 * (groundSampleRadiation * windowTransmissivity) * fracEff *
    groundR, the ground sample being scaled by the window transmissivity
    just as the body total is; and the flux is the scaled body total plus
    the ground-reflected contribution, divided by the total person area.
    The ERF of the hour is computed from that flux. *)
Theorem C2_high_res_flux (e : HighRes.Env) (count : nat) (hour : Z) :
  HighRes.WellFormed e ->
  nth_error (HighRes.HOYS e) count = Some hour ->
  HighRes.sunUpTest e count = Some true ->
  exists f skyMtxLists w area rest,
    HighRes.hourFlux e count hour = Some f
    /\ HighRes.getHourlySky (HighRes.cumSkyMtx_d e) hour = Some skyMtxLists
    /\ nth_error (HighRes.finalWinTransmiss e) count = Some w
    /\ HighRes.totalPersonArea e = Some area
    /\ Forall2
         (fun patches r =>
            r = HighRes.patchSum (HighRes.skyMatrixOf skyMtxLists) patches)
         (HighRes.intDict e) (HighRes.radiationResult f)
    /\ HighRes.radiationResult f
       = removelast (HighRes.radiationResult f) ++ [HighRes.groundSample f]
    /\ HighRes.totalPersonBeamDiffRad f
       = Py.sum (map (fun ab => fst ab * snd ab)
                   (combine (removelast (HighRes.radiationResult f))
                      (HighRes.personMeshAreas e)))
    /\ HighRes.groundRefRad f
       = 0.5 * (HighRes.groundSample f * w) * fracEff (HighRes.bodyPosture_ e)
         * HighRes.groundR e
    /\ HighRes.radiantFlux f
       = (HighRes.totalPersonBeamDiffRad f * w + HighRes.groundRefRad f) / area
    /\ HighRes.radCalc e count hour
       = Some (AppendERF (HighRes.radiantFlux f * HighRes.cloA e / 0.95 / 1000)
                 :: rest).
Proof.
  intros WF Hn Hup.
  destruct (HighResFacts.radCalc_total e count hour WF Hn) as [acts Hacts].
  destruct (HighResFacts.radCalc_inv _ _ _ _ Hacts)
    as [(_ & f & rt & Hf & _ & ->) | (Hdown & _)]; [| congruence].
  destruct (HighResFacts.hourFlux_inv _ _ _ _ Hf)
    as (skyMtxLists & w & area & Hsky & Hw & Harea & _ & H1 & H2 & H3 & H4 & H5).
  exists f, skyMtxLists, w, area. eexists.
  repeat split; try eassumption; reflexivity.
Qed.

Lemma C2_high_res_flux_witness :
  exists f skyMtxLists w area rest,
    HighRes.hourFlux Examples.exHigh 0 17 = Some f
    /\ HighRes.getHourlySky (HighRes.cumSkyMtx_d Examples.exHigh) 17
       = Some skyMtxLists
    /\ nth_error (HighRes.finalWinTransmiss Examples.exHigh) 0 = Some w
    /\ HighRes.totalPersonArea Examples.exHigh = Some area
    /\ Forall2
         (fun patches r =>
            r = HighRes.patchSum (HighRes.skyMatrixOf skyMtxLists) patches)
         (HighRes.intDict Examples.exHigh) (HighRes.radiationResult f)
    /\ HighRes.radiationResult f
       = removelast (HighRes.radiationResult f) ++ [HighRes.groundSample f]
    /\ HighRes.totalPersonBeamDiffRad f
       = Py.sum (map (fun ab => fst ab * snd ab)
                   (combine (removelast (HighRes.radiationResult f))
                      (HighRes.personMeshAreas Examples.exHigh)))
    /\ HighRes.groundRefRad f
       = 0.5 * (HighRes.groundSample f * w)
         * fracEff (HighRes.bodyPosture_ Examples.exHigh)
         * HighRes.groundR Examples.exHigh
    /\ HighRes.radiantFlux f
       = (HighRes.totalPersonBeamDiffRad f * w + HighRes.groundRefRad f) / area
    /\ HighRes.radCalc Examples.exHigh 0 17
       = Some (AppendERF
                 (HighRes.radiantFlux f * HighRes.cloA Examples.exHigh
                  / 0.95 / 1000)
                 :: rest).
Proof.
  apply (C2_high_res_flux Examples.exHigh 0 17).
  - exact ExampleFacts.exHigh_wf.
  - reflexivity.
  - exact ExampleFacts.exHigh_sunUp_0.
Defined.

(** C2 as stated fails where the window transmissivity is not 1: at the
    first hour of [exHigh] (transmissivity 0.5) the ground-reflected
    contribution is half of 0.5 * groundSampleRadiation * fracEff * groundR,
    and the flux is not (scaled body total + that term) / area. *)
Lemma C2_ground_term_counterexample :
  exists f,
    HighRes.sunUpTest Examples.exHigh 0 = Some true
    /\ HighRes.hourFlux Examples.exHigh 0 17 = Some f
    /\ HighRes.groundRefRad f
       <> 0.5 * HighRes.groundSample f
          * fracEff (HighRes.bodyPosture_ Examples.exHigh)
          * HighRes.groundR Examples.exHigh
    /\ HighRes.radiantFlux f
       <> (HighRes.totalPersonBeamDiffRad f * 0.5
           + 0.5 * HighRes.groundSample f
             * fracEff (HighRes.bodyPosture_ Examples.exHigh)
             * HighRes.groundR Examples.exHigh) / 2.
Proof.
  eexists. split; [exact ExampleFacts.exHigh_sunUp_0 |].
  split; [exact ExampleFacts.exHigh_flux |].
  cbn. rewrite cos_0. split; lra.
Qed.

Lemma fracEff_pos (p : option Z) : fracEff p > 0.
Proof. unfold fracEff. destruct (standing p), (seated p); lra. Qed.

(** C3 (what the code computes).  High-resolution path: the ERF series
    holds the hour's ERF divided by 1000, while the MRT delta is derived
    from the undivided ERF, so the reported MRT delta is not the reported
    ERF divided by (fracEff * 6.012) but about 1000 times as much: in the
    first hour of [exHigh] the reported ERF is exHourERF / 1000, the
    solar-adjusted MRT is exHourERF / (0.696 * 6.012) + 20 and the MRT
    delta is that MRT minus 20.  The low-resolution path reports the ERF
    undivided, and there the relation of the claim holds ([exLow], hour
    13).  On binary64, for an hourly ERF of 250.25 and a baseline of 25.7
    the high-resolution values are ERF 0.25024999999999997 and MRT delta
    59.806153975573764, where the claim gives 0.059806153975573755; and
    since the delta is computed as (quotient + baseline) - baseline, it
    can differ from the quotient itself (ERF 100, baseline 20).  The
    posture constants are those of the claim. *)
Theorem C3_high_res_erf_divided_by_1000 :
  (exists out x d m,
      HighRes.nonParallelRadCalc Examples.exHigh = Some out
      /\ nth_error (ERF out) 0 = Some x
      /\ nth_error (MRTDelta out) 0 = Some d
      /\ nth_error (solarAdjustedMRT out) 0 = Some m
      /\ nth_error (HighRes.radTemp Examples.exHigh) 0 = Some 20
      /\ x = Examples.exHourERF / 1000
      /\ m = Examples.exHourERF
             / (fracEff (HighRes.bodyPosture_ Examples.exHigh) * radTransCoeff)
             + 20
      /\ d = m - 20
      /\ x > 0
      /\ d > 999 * (x / (fracEff (HighRes.bodyPosture_ Examples.exHigh) * 6.012))
      /\ d <> x / (fracEff (HighRes.bodyPosture_ Examples.exHigh) * 6.012))
  /\ (exists out x d m,
         LowRes.nonParallelMRTCalc Examples.exMeshRay Examples.exSpline
           Examples.exSpline Examples.exLow = Some out
         /\ nth_error (ERF out) 1 = Some x
         /\ nth_error (MRTDelta out) 1 = Some d
         /\ nth_error (solarAdjustedMRT out) 1 = Some m
         /\ nth_error (LowRes.radTemp Examples.exLow) 1 = Some 20
         /\ x = Examples.exERF
         /\ x > 0
         /\ d = x / (fracEff (LowRes.bodyPosture_ Examples.exLow) * 6.012)
         /\ m = d + 20)
  /\ Binary64.highResValues None 250.25 25.7
     = (0.25024999999999997, 59.806153975573764, 85.506153975573767)%float
  /\ (0.25024999999999997 / (Binary64.fracEff None * Binary64.radTransCoeff)
      = 0.059806153975573755)%float
  /\ Binary64.lowResValues None 250.25 25.7
     = (250.25, 59.806153975573764, 85.506153975573767)%float
  /\ Binary64.highResValues None 100 20
     = (0.10000000000000001, 23.8985630272023, 43.8985630272023)%float
  /\ (100 / (Binary64.fracEff None * Binary64.radTransCoeff)
      = 23.898563027202304)%float
  /\ (23.8985630272023 =? 23.898563027202304)%float = false
  /\ fracEff (Some 0%Z) = 0.725 /\ fracEff (Some 3%Z) = 0.725
  /\ fracEff (Some 1%Z) = 0.696 /\ fracEff (Some 4%Z) = 0.696
  /\ fracEff None = 0.696
  /\ fracEff (Some 2%Z) = 0.68 /\ fracEff (Some 5%Z) = 0.68.
Proof.
  split.
  { destruct (HighResFacts.nonParallelRadCalc_total Examples.exHigh
                ExampleFacts.exHigh_wf) as [out Hout].
    destruct (HighResFacts.nonParallelRadCalc_hour Examples.exHigh out 0 17
                Hout eq_refl)
      as (acts & x & m & d & Hacts & (He & Hm' & Hd') & Hx & Hm & Hd).
    rewrite ExampleFacts.exHigh_hour_0 in Hacts. injection Hacts as <-.
    simpl in He, Hm', Hd'.
    injection He as <-. injection Hm' as <-. injection Hd' as <-.
    exists out. do 3 eexists.
    split; [exact Hout |]. split; [exact Hx |]. split; [exact Hd |].
    split; [exact Hm |]. split; [reflexivity |]. split; [reflexivity |].
    split; [reflexivity |]. split; [reflexivity |].
    assert (Hpos := ExampleFacts.exHourERF_pos).
    change (fracEff (HighRes.bodyPosture_ Examples.exHigh)) with 0.696.
    unfold radTransCoeff.
    assert (Hq : Examples.exHourERF / 1000 / (0.696 * 6.012)
                 = Examples.exHourERF / (0.696 * 6.012) / 1000) by (field; lra).
    assert (Hq0 : 0 < Examples.exHourERF / (0.696 * 6.012))
      by (apply Rdiv_lt_0_compat; lra).
    rewrite Hq. split; [lra |]. split; lra. }
  split.
  { eexists. do 3 eexists.
    split; [exact ExampleFacts.exLow_sequential |].
    split; [reflexivity |]. split; [reflexivity |]. split; [reflexivity |].
    split; [reflexivity |]. split; [reflexivity |].
    split; [exact ExampleFacts.exERF_pos |].
    split; reflexivity. }
  split; [vm_compute; reflexivity |].
  split; [vm_compute; reflexivity |].
  split; [vm_compute; reflexivity |].
  split; [vm_compute; reflexivity |].
  split; [vm_compute; reflexivity |].
  split; [vm_compute; reflexivity |].
  now repeat split.
Qed.

Lemma prevIndex_cyclic (n count : nat) :
  (count < n)%nat -> HighRes.prevIndex n count = ((count + n - 1) mod n)%nat.
Proof.
  intros H. unfold HighRes.prevIndex. destruct count as [| c]; simpl (_ =? _)%nat.
  - rewrite Nat.mod_small by lia. lia.
  - apply Nat.mod_unique with (q := 1%nat); lia.
Qed.

Lemma nextIndex_cyclic (n count : nat) :
  (count < n)%nat ->
  HighRes.nextIndex n count = count
  \/ HighRes.nextIndex n count = ((count + 1) mod n)%nat.
Proof.
  intros H. unfold HighRes.nextIndex.
  destruct (count =? n - 1)%nat eqn:E; [now left | right].
  apply Nat.eqb_neq in E. rewrite Nat.mod_small by lia. reflexivity.
Qed.

(** C4.  An hour whose solar altitude is <= 0, and whose previous and next
    hours in the period (taken cyclically) have altitudes <= 0 as well,
    is reported with ERF = 0, MRT delta = 0 and solar-adjusted MRT equal
    to the baseline MRT of the hour, in the high-resolution path; in the
    low-resolution path the hour's own altitude <= 0 is enough.  In both
    paths these are also the values that the worker of the hour appends. *)
Theorem C4_night_hour_is_baseline {Point Vector Mesh : Type}
  (MeshRay : Mesh -> Point -> Vector -> R) (splineStand splineSit : Z -> Z -> R)
  (eH : HighRes.Env) (countH : nat) (hourH : Z) (aH bH cH : R)
  (eL : LowRes.Env Point Vector Mesh) (countL : nat) (hourL : Z) (aL : R) :
  HighRes.WellFormed eH ->
  nth_error (HighRes.HOYS eH) countH = Some hourH ->
  nth_error (HighRes.altitudes eH) countH = Some aH ->
  nth_error (HighRes.altitudes eH)
    ((countH + length (HighRes.HOYS eH) - 1) mod length (HighRes.HOYS eH))
  = Some bH ->
  nth_error (HighRes.altitudes eH)
    ((countH + 1) mod length (HighRes.HOYS eH))
  = Some cH ->
  aH <= 0 -> bH <= 0 -> cH <= 0 ->
  LowRes.WellFormed eL ->
  nth_error (LowRes.HOYS eL) countL = Some hourL ->
  nth_error (LowRes.altitudes eL) countL = Some aL ->
  aL <= 0 ->
  (exists out rt,
      HighRes.nonParallelRadCalc eH = Some out
      /\ nth_error (HighRes.radTemp eH) countH = Some rt
      /\ HighRes.radCalc eH countH hourH
         = Some [AppendERF 0; AppendMRT rt; AppendDelta 0]
      /\ nth_error (ERF out) countH = Some 0
      /\ nth_error (MRTDelta out) countH = Some 0
      /\ nth_error (solarAdjustedMRT out) countH = Some rt)
  /\ (exists out skyViewFac rt,
         LowRes.nonParallelMRTCalc MeshRay splineStand splineSit eL = Some out
         /\ LowRes.skyViewFac MeshRay eL = Some skyViewFac
         /\ nth_error (LowRes.radTemp eL) countL = Some rt
         /\ LowRes.MRTCalc MeshRay splineStand splineSit eL skyViewFac countL hourL
            = Some [AppendERF 0; AppendMRT rt; AppendDelta 0]
         /\ nth_error (ERF out) countL = Some 0
         /\ nth_error (MRTDelta out) countL = Some 0
         /\ nth_error (solarAdjustedMRT out) countL = Some rt).
Proof.
  intros WFH HnH HaH HbH HcH LaH LbH LcH WFL HnL HaL LaL. split.
  - assert (Hc : (countH < length (HighRes.HOYS eH))%nat)
      by (apply nth_error_Some; congruence).
    destruct (HighResFacts.sunUpTest_spec eH countH
                (HighRes.wf_altitudes eH WFH) Hc)
      as (a & b & c & Ha & Hb & Hc' & Hs).
    rewrite HaH in Ha. injection Ha as <-.
    rewrite (prevIndex_cyclic _ _ Hc), HbH in Hb. injection Hb as <-.
    assert (Lc : c <= 0).
    { destruct (nextIndex_cyclic _ _ Hc) as [E | E]; rewrite E in Hc'.
      - rewrite HaH in Hc'. injection Hc' as <-. exact LaH.
      - rewrite HcH in Hc'. injection Hc' as <-. exact LcH. }
    rewrite !PyFacts.gtb_false in Hs by assumption. simpl in Hs.
    destruct (HighResFacts.nonParallelRadCalc_total eH WFH) as [out Hout].
    destruct (HighResFacts.nonParallelRadCalc_hour eH out countH hourH Hout HnH)
      as (acts & x & m & d & Hacts & (He & Hm' & Hd') & Hx & Hm & Hd).
    destruct (HighResFacts.radCalc_inv _ _ _ _ Hacts)
      as [(Hup & _) | (_ & rt & Hr & ->)]; [congruence |].
    simpl in He, Hm', Hd'.
    injection He as <-. injection Hm' as <-. injection Hd' as <-.
    exists out, rt. now repeat split.
  - destruct (LowResFacts.nonParallelMRTCalc_total MeshRay splineStand splineSit
                eL WFL) as [out Hout].
    destruct (LowResFacts.nonParallelMRTCalc_hour _ _ _ eL out countL hourL
                Hout HnL)
      as (skyViewFac & acts & x & m & d & Hsvf & Hacts & (He & Hm' & Hd')
          & Hx & Hm & Hd).
    destruct (LowResFacts.MRTCalc_inv _ _ _ _ _ _ _ _ Hacts)
      as (altitude & rt & Ha & Hr & [(Hpos & _) | (_ & ->)]).
    + rewrite HaL in Ha. injection Ha as <-. lra.
    + simpl in He, Hm', Hd'.
      injection He as <-. injection Hm' as <-. injection Hd' as <-.
      exists out, skyViewFac, rt. now repeat split.
Qed.

Lemma C4_night_hour_is_baseline_witness :
  (exists out rt,
      HighRes.nonParallelRadCalc Examples.exHigh = Some out
      /\ nth_error (HighRes.radTemp Examples.exHigh) 2 = Some rt
      /\ HighRes.radCalc Examples.exHigh 2 19
         = Some [AppendERF 0; AppendMRT rt; AppendDelta 0]
      /\ nth_error (ERF out) 2 = Some 0
      /\ nth_error (MRTDelta out) 2 = Some 0
      /\ nth_error (solarAdjustedMRT out) 2 = Some rt)
  /\ (exists out skyViewFac rt,
         LowRes.nonParallelMRTCalc Examples.exMeshRay Examples.exSpline
           Examples.exSpline Examples.exLow = Some out
         /\ LowRes.skyViewFac Examples.exMeshRay Examples.exLow = Some skyViewFac
         /\ nth_error (LowRes.radTemp Examples.exLow) 2 = Some rt
         /\ LowRes.MRTCalc Examples.exMeshRay Examples.exSpline Examples.exSpline
              Examples.exLow skyViewFac 2 20
            = Some [AppendERF 0; AppendMRT rt; AppendDelta 0]
         /\ nth_error (ERF out) 2 = Some 0
         /\ nth_error (MRTDelta out) 2 = Some 0
         /\ nth_error (solarAdjustedMRT out) 2 = Some rt).
Proof.
  apply (C4_night_hour_is_baseline Examples.exMeshRay Examples.exSpline
           Examples.exSpline
           Examples.exHigh 2 19 (-0.2) (-0.1) (-0.3)
           Examples.exLow 2 20 (-0.1)).
  - exact ExampleFacts.exHigh_wf.
  - reflexivity.
  - reflexivity.
  - reflexivity.
  - reflexivity.
  - lra.
  - lra.
  - lra.
  - exact ExampleFacts.exLow_wf.
  - reflexivity.
  - reflexivity.
  - lra.
Defined.

(** C6 (as the code has it).  High-resolution path: the sun-up test of an
    hour reads three altitudes: the hour's own, that of the entry before
    it in the period (for the first hour, the last entry of the period)
    and that of the entry after it (for the last hour, the hour's own
    entry once more: nothing wraps around at the end of the period).  The
    hour is short-circuited exactly when the three are all <= 0, and then
    its zero contribution is appended whatever the sky and the
    intersection matrix hold: the flux of the hour is not computed. *)
Theorem C6_sun_up_test_neighbours (e : HighRes.Env) (count : nat) :
  length (HighRes.altitudes e) = length (HighRes.HOYS e) ->
  (count < length (HighRes.HOYS e))%nat ->
  exists a b c,
    nth_error (HighRes.altitudes e) count = Some a
    /\ nth_error (HighRes.altitudes e)
         (if (count =? 0)%nat then (length (HighRes.HOYS e) - 1)%nat
          else (count - 1)%nat) = Some b
    /\ nth_error (HighRes.altitudes e)
         (if (count =? length (HighRes.HOYS e) - 1)%nat then count
          else (count + 1)%nat) = Some c
    /\ (HighRes.sunUpTest e count = Some false <-> a <= 0 /\ b <= 0 /\ c <= 0)
    /\ (HighRes.sunUpTest e count = Some true <-> a > 0 \/ b > 0 \/ c > 0)
    /\ (forall hour rt sky matrix,
           a <= 0 /\ b <= 0 /\ c <= 0 ->
           nth_error (HighRes.radTemp e) count = Some rt ->
           HighRes.radCalc
             (HighRes.mkEnv (HighRes.bodyPosture_ e) (HighRes.method e)
                (HighRes.HOYS e) (HighRes.radTemp e) (HighRes.altitudes e)
                (HighRes.finalWinTransmiss e) sky matrix
                (HighRes.meshSrfAreas e) (HighRes.conversionFac e)
                (HighRes.groundR e) (HighRes.cloA e))
             count hour
           = Some [AppendERF 0; AppendMRT rt; AppendDelta 0]).
Proof.
  intros Hlen Hc.
  destruct (HighResFacts.sunUpTest_spec e count Hlen Hc)
    as (a & b & c & Ha & Hb & Hc' & Hs).
  exists a, b, c.
  split; [exact Ha |]. split; [exact Hb |]. split; [exact Hc' |].
  assert (Hfalse : HighRes.sunUpTest e count = Some false
                   <-> a <= 0 /\ b <= 0 /\ c <= 0).
  { rewrite Hs. split.
    - intros H. injection H as H.
      apply orb_false_elim in H. destruct H as [H Hcc].
      apply orb_false_elim in H. destruct H as [Haa Hbb].
      now rewrite !PyFacts.gtb_false_iff in *.
    - intros (La & Lb & Lc). now rewrite !PyFacts.gtb_false by assumption. }
  split; [exact Hfalse |]. split.
  - rewrite Hs. split.
    + intros H. injection H as H.
      apply orb_true_iff in H. destruct H as [H | H].
      * apply orb_true_iff in H. destruct H as [H | H];
          apply PyFacts.gtb_true_iff in H; auto.
      * apply PyFacts.gtb_true_iff in H; auto.
    + intros [H | [H | H]]; apply PyFacts.gtb_true_iff in H; rewrite H;
        now rewrite ?orb_true_r.
  - intros hour rt sky matrix Hle Hr.
    apply HighResFacts.radCalc_night; [| exact Hr].
    apply Hfalse in Hle. exact Hle.
Qed.

Lemma C6_sun_up_test_neighbours_witness :
  exists a b c,
    nth_error (HighRes.altitudes Examples.exHigh) 3 = Some a
    /\ nth_error (HighRes.altitudes Examples.exHigh)
         (if (3 =? 0)%nat then (length (HighRes.HOYS Examples.exHigh) - 1)%nat
          else (3 - 1)%nat) = Some b
    /\ nth_error (HighRes.altitudes Examples.exHigh)
         (if (3 =? length (HighRes.HOYS Examples.exHigh) - 1)%nat then 3%nat
          else (3 + 1)%nat) = Some c
    /\ (HighRes.sunUpTest Examples.exHigh 3 = Some false
        <-> a <= 0 /\ b <= 0 /\ c <= 0)
    /\ (HighRes.sunUpTest Examples.exHigh 3 = Some true
        <-> a > 0 \/ b > 0 \/ c > 0)
    /\ (forall hour rt sky matrix,
           a <= 0 /\ b <= 0 /\ c <= 0 ->
           nth_error (HighRes.radTemp Examples.exHigh) 3 = Some rt ->
           HighRes.radCalc
             (HighRes.mkEnv (HighRes.bodyPosture_ Examples.exHigh)
                (HighRes.method Examples.exHigh)
                (HighRes.HOYS Examples.exHigh) (HighRes.radTemp Examples.exHigh)
                (HighRes.altitudes Examples.exHigh)
                (HighRes.finalWinTransmiss Examples.exHigh) sky matrix
                (HighRes.meshSrfAreas Examples.exHigh)
                (HighRes.conversionFac Examples.exHigh)
                (HighRes.groundR Examples.exHigh) (HighRes.cloA Examples.exHigh))
             3 hour
           = Some [AppendERF 0; AppendMRT rt; AppendDelta 0]).
Proof.
  apply (C6_sun_up_test_neighbours Examples.exHigh 3).
  - reflexivity.
  - simpl. lia.
Defined.

(** C6 as stated fails at the end of the period: the last hour of
    [exHigh] is short-circuited although the first hour of the period, its
    next hour under wraparound, has the sun up. *)
Lemma C6_wraparound_counterexample :
  nth_error (HighRes.altitudes Examples.exHigh)
    ((3 + 1) mod length (HighRes.HOYS Examples.exHigh)) = Some 0.1
  /\ HighRes.sunUpTestCyclic Examples.exHigh 3 = Some true
  /\ HighRes.sunUpTest Examples.exHigh 3 = Some false
  /\ HighRes.radCalc Examples.exHigh 3 20
     = Some [AppendERF 0; AppendMRT 20; AppendDelta 0].
Proof.
  split; [reflexivity |].
  split; [exact ExampleFacts.exHigh_cyclic_3 |].
  split; [exact ExampleFacts.exHigh_sunUp_3 |].
  apply HighResFacts.radCalc_night;
    [exact ExampleFacts.exHigh_sunUp_3 | reflexivity].
Qed.

(** C8 (as the code has it).  For every hour of the period, in both
    paths, the reported solar-adjusted MRT minus the reported MRT delta is
    the baseline MRT of the hour when the operations are taken without
    rounding.  An hour without solar gain is reported with the baseline
    itself as its MRT and with the delta 0, and for these the difference is
    the baseline on binary64 as well, bit for bit.  An hour with solar gain
    has its three values tied by one rounded operation (low resolution:
    MRT = delta + baseline; high resolution: delta = MRT - baseline), and
    there the difference need not be the baseline. *)
Theorem C8_mrt_minus_delta_without_rounding {Point Vector Mesh : Type}
  (MeshRay : Mesh -> Point -> Vector -> R) (splineStand splineSit : Z -> Z -> R)
  (eH : HighRes.Env) (countH : nat) (hourH : Z)
  (eL : LowRes.Env Point Vector Mesh) (countL : nat) (hourL : Z) :
  HighRes.WellFormed eH ->
  nth_error (HighRes.HOYS eH) countH = Some hourH ->
  LowRes.WellFormed eL ->
  nth_error (LowRes.HOYS eL) countL = Some hourL ->
  (exists out m d rt,
      HighRes.nonParallelRadCalc eH = Some out
      /\ nth_error (solarAdjustedMRT out) countH = Some m
      /\ nth_error (MRTDelta out) countH = Some d
      /\ nth_error (HighRes.radTemp eH) countH = Some rt
      /\ m - d = rt
      /\ ((HighRes.sunUpTest eH countH = Some false /\ m = rt /\ d = 0)
          \/ (HighRes.sunUpTest eH countH = Some true /\ d = m - rt)))
  /\ (exists out m d rt,
         LowRes.nonParallelMRTCalc MeshRay splineStand splineSit eL = Some out
         /\ nth_error (solarAdjustedMRT out) countL = Some m
         /\ nth_error (MRTDelta out) countL = Some d
         /\ nth_error (LowRes.radTemp eL) countL = Some rt
         /\ m - d = rt
         /\ ((m = rt /\ d = 0)
             \/ ((exists altitude fBes,
                     nth_error (LowRes.altitudes eL) countL = Some altitude
                     /\ altitude > 0
                     /\ LowRes.fBesOf MeshRay eL countL = Some fBes
                     /\ (0 < fBes)%Z)
                 /\ m = d + rt)))
  /\ (forall rt : float,
         (snd (Binary64.noGainValues rt)
          - snd (fst (Binary64.noGainValues rt)))%float = rt)
  /\ (forall (p : option Z) (hourERF rt : float),
         snd (Binary64.lowResValues p hourERF rt)
         = (snd (fst (Binary64.lowResValues p hourERF rt)) + rt)%float)
  /\ (forall (p : option Z) (hourERF rt : float),
         snd (fst (Binary64.highResValues p hourERF rt))
         = (snd (Binary64.highResValues p hourERF rt) - rt)%float).
Proof.
  intros WFH HnH WFL HnL. split; [| split].
  - destruct (HighResFacts.nonParallelRadCalc_total eH WFH) as [out Hout].
    destruct (HighResFacts.nonParallelRadCalc_hour eH out countH hourH Hout HnH)
      as (acts & x & m & d & Hacts & (_ & Hm' & Hd') & _ & Hm & Hd).
    destruct (HighResFacts.radCalc_inv _ _ _ _ Hacts)
      as [(Hsun & f & rt & _ & Hr & ->) | (Hsun & rt & Hr & ->)];
      simpl in Hm', Hd'; injection Hm' as Em; injection Hd' as Ed;
      exists out, m, d, rt; subst m d;
      (split; [exact Hout |]); (split; [exact Hm |]); (split; [exact Hd |]);
      (split; [exact Hr |]); (split; [ring |]).
    + right. split; [exact Hsun | reflexivity].
    + left. split; [exact Hsun |]. split; reflexivity.
  - destruct (LowResFacts.nonParallelMRTCalc_total MeshRay splineStand splineSit
                eL WFL) as [out Hout].
    destruct (LowResFacts.nonParallelMRTCalc_hour _ _ _ eL out countL hourL
                Hout HnL)
      as (skyViewFac & acts & x & m & d & _ & Hacts & (_ & Hm' & Hd')
          & _ & Hm & Hd).
    destruct (LowResFacts.MRTCalc_inv _ _ _ _ _ _ _ _ Hacts)
      as (altitude & rt & Ha & Hr
          & [(Hpos & fBes & x' & Hf & Hfpos & _ & ->) | (_ & ->)]);
      simpl in Hm', Hd'; injection Hm' as Em; injection Hd' as Ed;
      exists out, m, d, rt; subst m d;
      (split; [exact Hout |]); (split; [exact Hm |]); (split; [exact Hd |]);
      (split; [exact Hr |]); (split; [ring |]).
    + right. split; [| reflexivity]. exists altitude, fBes. now repeat split.
    + left. split; reflexivity.
  - split; [| split].
    + intros rt. exact (Binary64Facts.sub_zero rt).
    + reflexivity.
    + reflexivity.
Qed.

Lemma C8_mrt_minus_delta_without_rounding_witness :
  (exists out m d rt,
      HighRes.nonParallelRadCalc Examples.exHigh = Some out
      /\ nth_error (solarAdjustedMRT out) 0 = Some m
      /\ nth_error (MRTDelta out) 0 = Some d
      /\ nth_error (HighRes.radTemp Examples.exHigh) 0 = Some rt
      /\ m - d = rt
      /\ ((HighRes.sunUpTest Examples.exHigh 0 = Some false /\ m = rt /\ d = 0)
          \/ (HighRes.sunUpTest Examples.exHigh 0 = Some true /\ d = m - rt)))
  /\ (exists out m d rt,
         LowRes.nonParallelMRTCalc Examples.exMeshRay Examples.exSpline
           Examples.exSpline Examples.exLow = Some out
         /\ nth_error (solarAdjustedMRT out) 1 = Some m
         /\ nth_error (MRTDelta out) 1 = Some d
         /\ nth_error (LowRes.radTemp Examples.exLow) 1 = Some rt
         /\ m - d = rt
         /\ ((m = rt /\ d = 0)
             \/ ((exists altitude fBes,
                     nth_error (LowRes.altitudes Examples.exLow) 1 = Some altitude
                     /\ altitude > 0
                     /\ LowRes.fBesOf Examples.exMeshRay Examples.exLow 1
                        = Some fBes
                     /\ (0 < fBes)%Z)
                 /\ m = d + rt)))
  /\ (forall rt : float,
         (snd (Binary64.noGainValues rt)
          - snd (fst (Binary64.noGainValues rt)))%float = rt)
  /\ (forall (p : option Z) (hourERF rt : float),
         snd (Binary64.lowResValues p hourERF rt)
         = (snd (fst (Binary64.lowResValues p hourERF rt)) + rt)%float)
  /\ (forall (p : option Z) (hourERF rt : float),
         snd (fst (Binary64.highResValues p hourERF rt))
         = (snd (Binary64.highResValues p hourERF rt) - rt)%float).
Proof.
  apply (C8_mrt_minus_delta_without_rounding Examples.exMeshRay
           Examples.exSpline Examples.exSpline Examples.exHigh 0 17
           Examples.exLow 1 13).
  - exact ExampleFacts.exHigh_wf.
  - reflexivity.
  - exact ExampleFacts.exLow_wf.
  - reflexivity.
Defined.

(** C8 as stated fails on binary64.  Low resolution, standing posture, an
    hourly ERF of 250.25 and a baseline of 18.3: the MRT delta is
    57.413907816550811, the MRT 75.713907816550815, and their difference
    18.300000000000004.  High resolution, default posture, an hourly ERF of
    250.25 and a baseline of 25.7: the MRT is 85.506153975573767, the delta
    59.806153975573764, and their difference 25.700000000000003. *)
Lemma C8_binary64_counterexample :
  Binary64.lowResValues (Some 3%Z) 250.25 18.3
  = (250.25, 57.413907816550811, 75.713907816550815)%float
  /\ (snd (Binary64.lowResValues (Some 3%Z) 250.25 18.3)
       - snd (fst (Binary64.lowResValues (Some 3%Z) 250.25 18.3))
       = 18.300000000000004)%float
  /\ (snd (Binary64.lowResValues (Some 3%Z) 250.25 18.3)
       - snd (fst (Binary64.lowResValues (Some 3%Z) 250.25 18.3))
       =? 18.3)%float = false
  /\ Binary64.highResValues None 250.25 25.7
     = (0.25024999999999997, 59.806153975573764, 85.506153975573767)%float
  /\ (snd (Binary64.highResValues None 250.25 25.7)
       - snd (fst (Binary64.highResValues None 250.25 25.7))
       = 25.700000000000003)%float
  /\ (snd (Binary64.highResValues None 250.25 25.7)
       - snd (fst (Binary64.highResValues None 250.25 25.7))
       =? 25.7)%float = false.
Proof.
  repeat split; vm_compute; reflexivity.
Qed.

(** C9.  The checks of the ground reflectivity and of the clothing
    absorptivity accept a given value exactly when it lies strictly between
    0 and 1: the values 0 and 1 are rejected, 0.5 is accepted; and the
    analysis runs only if both checks (and the checks of the other inputs)
    succeed, so that a rejected value keeps it from running. *)
Theorem C9_reflectivity_absorptivity_open_interval :
  (forall v, fst (Inputs.checkGroundReflectivity (Some v)) = true <-> 0 < v < 1)
  /\ (forall v, fst (Inputs.checkClothingAbsorptivity (Some v)) = true <-> 0 < v < 1)
  /\ Inputs.checkGroundReflectivity (Some 0) = (false, None)
  /\ Inputs.checkGroundReflectivity (Some 1) = (false, None)
  /\ Inputs.checkClothingAbsorptivity (Some 0) = (false, None)
  /\ Inputs.checkClothingAbsorptivity (Some 1) = (false, None)
  /\ Inputs.checkGroundReflectivity (Some 0.5) = (true, Some 0.5)
  /\ Inputs.checkClothingAbsorptivity (Some 0.5) = (true, Some 0.5)
  /\ (forall o g c _runIt,
         Inputs.analysisRuns _runIt (Inputs.checkData o g c) = true <->
         _runIt = true
         /\ fst (Inputs.checkGroundReflectivity g) = true
         /\ fst (Inputs.checkClothingAbsorptivity c) = true
         /\ Inputs.checkData1 o = true /\ Inputs.checkData2 o = true
         /\ Inputs.checkData3 o = true /\ Inputs.checkData6 o = true
         /\ Inputs.checkData7 o = true /\ Inputs.checkData8 o = true
         /\ Inputs.checkData9 o = true).
Proof.
  assert (Hopen : forall v, Py.ltb v 1 && Py.gtb v 0 = true <-> 0 < v < 1).
  { intros v. unfold Py.ltb, Py.gtb.
    destruct (Rlt_dec v 1), (Rlt_dec 0 v); simpl; split;
      try discriminate; try lra; auto. }
  assert (Hreject : forall v, ~ 0 < v < 1 -> Py.ltb v 1 && Py.gtb v 0 = false).
  { intros v Hv. destruct (Py.ltb v 1 && Py.gtb v 0) eqn:E; [| reflexivity].
    apply Hopen in E. contradiction. }
  split.
  { intros v. unfold Inputs.checkGroundReflectivity. rewrite <- (Hopen v).
    destruct (Py.ltb v 1 && Py.gtb v 0); simpl; tauto. }
  split.
  { intros v. unfold Inputs.checkClothingAbsorptivity. rewrite <- (Hopen v).
    destruct (Py.ltb v 1 && Py.gtb v 0); simpl; tauto. }
  do 4 (split; [unfold Inputs.checkGroundReflectivity,
                  Inputs.checkClothingAbsorptivity;
                rewrite Hreject by lra; reflexivity |]).
  do 2 (split; [unfold Inputs.checkGroundReflectivity,
                  Inputs.checkClothingAbsorptivity;
                rewrite (proj2 (Hopen 0.5)) by lra; reflexivity |]).
  clear Hopen Hreject.
  intros o g c _runIt. unfold Inputs.analysisRuns, Inputs.checkData.
  destruct _runIt, (Inputs.checkData1 o), (Inputs.checkData2 o),
    (Inputs.checkData3 o), (Inputs.checkData6 o), (Inputs.checkData7 o),
    (Inputs.checkData8 o), (Inputs.checkData9 o),
    (fst (Inputs.checkGroundReflectivity g)),
    (fst (Inputs.checkClothingAbsorptivity c)); simpl;
    (split; [intros H; first [discriminate H | now repeat split]
            | intros (H0 & H1 & H2 & H3 & H4 & H5 & H6 & H7 & H8 & H9);
              congruence]).
Qed.

(** The arguments of the spline call when the azimuth loops are run in
    exact arithmetic, where both are total functions: for an altitude
    above 0 and up to a straight angle, the truncated azimuth lies in
    [0, 180] and the altitude argument, which is 90 minus the truncated
    altitude for the lying postures, in [0, 90]. *)
Lemma spline_arguments_in_range_exact {Point Vector Mesh : Type}
  (splineStand splineSit : Z -> Z -> R)
  (e : LowRes.Env Point Vector Mesh) (azimuth altitude : R) :
  0 < altitude <= PI ->
  (0 <= fst (LowRes.splineArgs e azimuth altitude) <= 180)%Z
  /\ (0 <= snd (LowRes.splineArgs e azimuth altitude) <= 90)%Z
  /\ fst (LowRes.splineArgs e azimuth altitude)
     = LowRes.azFinalOf (LowRes.azInitOf e azimuth)
  /\ snd (LowRes.splineArgs e azimuth altitude)
     = (if standing (LowRes.bodyPosture_ e) || seated (LowRes.bodyPosture_ e)
        then LowRes.altFinalOf altitude
        else (90 - LowRes.altFinalOf altitude)%Z)
  /\ LowRes.ProjAreaFac splineStand splineSit e azimuth altitude
     = (if standing (LowRes.bodyPosture_ e) then splineStand
        else if seated (LowRes.bodyPosture_ e) then splineSit
        else splineStand)
         (fst (LowRes.splineArgs e azimuth altitude))
         (snd (LowRes.splineArgs e azimuth altitude)).
Proof.
  intros Halt.
  assert (Haz := LowResFacts.azFinalOf_bounds (LowRes.azInitOf e azimuth)).
  assert (Ha := LowResFacts.altFinalOf_bounds altitude Halt).
  unfold LowRes.ProjAreaFac, LowRes.splineArgs.
  destruct (standing (LowRes.bodyPosture_ e)),
    (seated (LowRes.bodyPosture_ e)); cbn [fst snd orb];
    repeat split; try reflexivity; lia.
Qed.

(** C10 (what the code computes).  The azimuth loops run on binary64, and
    the mannequin rotation angle reaches them unchecked.  With a rotation
    angle of 1e19 and a solar azimuth of 180 degrees, [azInit] is 1e19;
    1e19 is above 180, and 1e19 - 180 is 1e19 again, so the first loop
    never exits, whatever the number of turns it is given.  With -1e19 the
    second loop never exits.  For angles of ordinary size the loops exit:
    450 is taken to 90 in two turns, -200 to 160. *)
Theorem C10_azimuth_loop_never_exits :
  Binary64.azInitOf 180 0 1e19 = 1e19%float
  /\ (180 <? 1e19)%float = true
  /\ (1e19 - 180)%float = 1e19%float
  /\ (forall fuel : nat,
         Binary64.azFinalOf fuel (Binary64.azInitOf 180 0 1e19) = None)
  /\ Binary64.azInitOf 180 0 (-1e19) = (-1e19)%float
  /\ (-1e19 <? 0)%float = true
  /\ (-1e19 + 180)%float = (-1e19)%float
  /\ (forall fuel : nat,
         Binary64.azFinalOf fuel (Binary64.azInitOf 180 0 (-1e19)) = None)
  /\ Binary64.azFinalOf 2 (Binary64.azInitOf 180 0 270) = Some 90%float
  /\ Binary64.azFinalOf 1 (Binary64.azInitOf 180 0 270) = None
  /\ Binary64.azFinalOf 2 (Binary64.azInitOf 180 0 (-380)) = Some 160%float
  /\ Binary64.azFinalOf 0 (Binary64.azInitOf 180 0 0) = Some 180%float.
Proof.
  assert (Hinit : Binary64.azInitOf 180 0 1e19 = 1e19%float)
    by (vm_compute; reflexivity).
  assert (Hinit' : Binary64.azInitOf 180 0 (-1e19) = (-1e19)%float)
    by (vm_compute; reflexivity).
  assert (Hgt : (180 <? 1e19)%float = true) by (vm_compute; reflexivity).
  assert (Hfix : (1e19 - 180)%float = 1e19%float) by (vm_compute; reflexivity).
  assert (Hlt : (-1e19 <? 0)%float = true) by (vm_compute; reflexivity).
  assert (Hfix' : (-1e19 + 180)%float = (-1e19)%float)
    by (vm_compute; reflexivity).
  split; [exact Hinit |]. split; [exact Hgt |]. split; [exact Hfix |].
  split.
  { intros fuel. rewrite Hinit. unfold Binary64.azFinalOf. rewrite Hgt.
    exact (Binary64Facts.azLoopDown_stuck 1e19%float Hgt Hfix fuel). }
  split; [exact Hinit' |]. split; [exact Hlt |]. split; [exact Hfix' |].
  split.
  { intros fuel. rewrite Hinit'. unfold Binary64.azFinalOf.
    replace (180 <? -1e19)%float with false by (vm_compute; reflexivity).
    rewrite Hlt.
    exact (Binary64Facts.azLoopUp_stuck (-1e19)%float Hlt Hfix' fuel). }
  repeat split; vm_compute; reflexivity.
Qed.

(** C5 (what the code computes).  With context geometry, [fBes] and the
    blocked share of the sky are quotients of Python 2 integers, so a
    partly blocked body or sky is truncated: [fBes] is 0 or 1, never a
    fraction.  In [exLow] two of the three body points see the sun of the
    first hour, yet [fBes] is 0 and the hour is reported without any solar
    load; three of the four view directions are free, yet the sky-view
    factor is 1. *)
Theorem C5_visibility_fractions_truncated :
  (forall (Point Vector Mesh : Type) (MeshRay : Mesh -> Point -> Vector -> R)
          (e : LowRes.Env Point Vector Mesh) (count : nat) (fBes : Z),
      LowRes.fBesOf MeshRay e count = Some fBes -> fBes = 0%Z \/ fBes = 1%Z)
  /\ nth_error (LowRes.sunVectors Examples.exLow) 0 = Some (Some 10%nat)
  /\ filter (fun point =>
               negb (LowRes.rayBlocked Examples.exMeshRay
                       (LowRes.context Examples.exLow) point 10%nat))
       (LowRes.mannequinMesh Examples.exLow) = [1; 2]%nat
  /\ length (LowRes.mannequinMesh Examples.exLow) = 3%nat
  /\ LowRes.fBesOf Examples.exMeshRay Examples.exLow 0 = Some 0%Z
  /\ LowRes.MRTCalc Examples.exMeshRay Examples.exSpline Examples.exSpline
       Examples.exLow 1 0 12
     = Some [AppendERF 0; AppendMRT 20; AppendDelta 0]
  /\ LowRes.middlePt Examples.exLow = Some 1%nat
  /\ filter (fun viewVec =>
               negb (LowRes.rayBlocked Examples.exMeshRay
                       (LowRes.context Examples.exLow) 1%nat viewVec))
       (LowRes.viewVectors Examples.exLow) = [1; 2; 3]%nat
  /\ length (LowRes.viewVectors Examples.exLow) = 4%nat
  /\ LowRes.skyViewFac Examples.exMeshRay Examples.exLow = Some 1%Z.
Proof.
  split.
  { intros Point Vector Mesh MeshRay e count fBes.
    apply LowResFacts.fBesOf_zero_or_one. }
  split; [reflexivity |].
  split.
  { unfold LowRes.rayBlocked, Examples.exMeshRay. cbn.
    ExampleFacts.py_cmp. reflexivity. }
  split; [reflexivity |].
  split; [exact ExampleFacts.exLow_fBes_0 |].
  split; [exact ExampleFacts.exLow_hour_0 |].
  split; [reflexivity |].
  split.
  { unfold LowRes.rayBlocked, Examples.exMeshRay. cbn.
    ExampleFacts.py_cmp. reflexivity. }
  split; [reflexivity |].
  exact ExampleFacts.exLow_skyViewFac.
Qed.

(** C7 (what the code computes).  The workers of the parallel loop append
    to the three series and to [hourOrder] one list at a time.  In [exLow],
    when the worker of the second hour is interrupted after its first
    append, the re-ordering by [hourOrder] puts that hour's ERF at the
    first hour: the parallel run reports the ERF series [x; 0; 0] where the
    sequential run reports [0; x; 0], with x > 0. *)
Theorem C7_interleaved_appends_misorder :
  LowRes.mainSimple Examples.exMeshRay Examples.exSpline Examples.exSpline
    Examples.exLow false []
  = Some (mkSeries [0; Examples.exERF; 0]
            [0; Examples.exERF / (0.725 * radTransCoeff); 0]
            [20; Examples.exERF / (0.725 * radTransCoeff) + 20; 20]
            [])
  /\ LowRes.mainSimple Examples.exMeshRay Examples.exSpline Examples.exSpline
       Examples.exLow true Examples.exSchedule
     = Some (mkSeries [Examples.exERF; 0; 0]
               [0; Examples.exERF / (0.725 * radTransCoeff); 0]
               [20; Examples.exERF / (0.725 * radTransCoeff) + 20; 20]
               [0; 2; 1]%nat)
  /\ Examples.exERF > 0.
Proof.
  split; [exact ExampleFacts.exLow_sequential |].
  split; [| exact ExampleFacts.exERF_pos].
  unfold LowRes.mainSimple. rewrite ExampleFacts.exLow_parallel.
  simpl Py.bind. now rewrite ExampleFacts.exLow_resorted.
Qed.

(** * Further properties *)

(** ** Facts used below *)

Module MoreFacts.


Lemma sum_nonneg (l : list R) : Forall (fun x => 0 <= x) l -> 0 <= Py.sum l.
Proof.
  induction 1 as [| x l Hx _ IH].
  - rewrite PyFacts.sum_nil. lra.
  - rewrite PyFacts.sum_cons. lra.
Qed.

Lemma In_removelast {A} (l : list A) (x : A) : In x (removelast l) -> In x l.
Proof.
  induction l as [| a l IH]; simpl; [tauto |].
  destruct l as [| b l]; [contradiction |].
  intros [-> | H]; [now left | right; now apply IH].
Qed.

Lemma nth_nonneg (l : list R) (i : nat) :
  Forall (fun x => 0 <= x) l -> 0 <= nth i l 0.
Proof.
  intros H. revert i. induction H as [| x l Hx _ IH]; intros [| i]; simpl;
    try lra; auto.
Qed.


Lemma Forall2_In_r {A B} (P : A -> B -> Prop) (l : list A) (l' : list B) (y : B) :
  Forall2 P l l' -> In y l' -> exists x, In x l /\ P x y.
Proof.
  induction 1 as [| a b l l' Hab _ IH]; simpl; [contradiction |].
  intros [<- | Hy]; [exists a; auto |].
  destruct (IH Hy) as (x & Hx & Hp). exists x. auto.
Qed.

Lemma div_nonneg (x y : R) : 0 <= x -> 0 < y -> 0 <= x / y.
Proof.
  intros Hx Hy. unfold Rdiv. apply Rmult_le_pos; [exact Hx |].
  left. now apply Rinv_0_lt_compat.
Qed.

(** With radiation that is not negative and flagged patches in front of
    the sample points, the flux of a computed hour is not negative. *)
Lemma hourFlux_nonneg (e : HighRes.Env) (count : nat) (hour : Z)
  (f : HighRes.Flux) :
  HighRes.hourFlux e count hour = Some f ->
  (forall entry d r, In entry (HighRes.cumSkyMtx_d e) ->
                     snd entry hour = Some (d, r) -> 0 <= d /\ 0 <= r) ->
  (forall patches p, In patches (HighRes.intDict e) -> In p patches ->
                     HighRes.isIntersect (snd p) = true ->
                     0 <= cos (HighRes.vecAngle (snd p))) ->
  Forall (fun x => 0 <= x) (HighRes.meshSrfAreas e) ->
  Forall (fun x => 0 <= x) (HighRes.finalWinTransmiss e) ->
  0 <= HighRes.groundR e ->
  0 <= HighRes.radiantFlux f.
Proof.
  intros Hf Hsky Hcos Hareas Hwin HgR.
  destruct (HighResFacts.hourFlux_inv _ _ _ _ Hf)
    as (skyMtxLists & w & area & Hs & Hw & Ha & Hane & Hrr & Hlast & Ht & Hg & ->).
  assert (Hfe := fracEff_pos (HighRes.bodyPosture_ e)).
  assert (Hmat : Forall (fun x => 0 <= x) (HighRes.skyMatrixOf skyMtxLists)).
  { unfold HighRes.skyMatrixOf. apply Forall_map.
    unfold HighRes.getHourlySky in Hs.
    apply (PyFacts.mapM_Forall _ (fun dr => 0 <= 0 + fst dr + snd dr) _ _ Hs).
    intros entry [d r] Hin Hentry. apply filter_In in Hin.
    destruct (Hsky entry d r (proj1 Hin) Hentry). simpl. lra. }
  assert (Hres : Forall (fun x => 0 <= x) (HighRes.radiationResult f)).
  { apply Forall_forall. intros x Hx.
    destruct (Forall2_In_r _ _ _ x Hrr Hx) as (patches & Hp & ->).
    unfold HighRes.patchSum. apply sum_nonneg. apply Forall_map.
    apply Forall_forall. intros p Hpin. apply filter_In in Hpin.
    apply Rmult_le_pos; [now apply nth_nonneg |].
    exact (Hcos patches p Hp (proj1 Hpin) (proj2 Hpin)). }
  rewrite Forall_forall in Hres, Hareas, Hwin.
  assert (Hw0 : 0 <= w) by (apply Hwin; eapply nth_error_In; eauto).
  assert (Hg0 : 0 <= HighRes.groundSample f).
  { apply Hres. rewrite Hlast. apply in_or_app. right. now left. }
  assert (Hpa : Forall (fun x => 0 <= x) (HighRes.personMeshAreas e)).
  { unfold HighRes.personMeshAreas. apply Forall_map. apply Forall_forall.
    intros a Hin. apply In_removelast in Hin. specialize (Hareas a Hin).
    assert (0 <= HighRes.conversionFac e * HighRes.conversionFac e) by nra.
    rewrite Rmult_assoc. now apply Rmult_le_pos. }
  assert (Ht0 : 0 <= HighRes.totalPersonBeamDiffRad f).
  { rewrite Ht. apply sum_nonneg. apply Forall_map. apply Forall_forall.
    intros [a b] Hin. simpl.
    apply Rmult_le_pos.
    - apply Hres. apply In_removelast. eapply in_combine_l; eauto.
    - rewrite Forall_forall in Hpa. apply Hpa. eapply in_combine_r; eauto. }
  assert (Harea : 0 < area).
  { unfold HighRes.totalPersonArea in Ha.
    destruct (HighRes.method e =? 0)%Z.
    - injection Ha as <-. assert (H0 := sum_nonneg _ Hpa). lra.
    - destruct (HighRes.method e =? 1)%Z; [| discriminate].
      injection Ha as <-. lra. }
  apply div_nonneg; [| exact Harea].
  apply Rplus_le_le_0_compat; [now apply Rmult_le_pos |].
  rewrite Hg. apply Rmult_le_pos; [| exact HgR].
  apply Rmult_le_pos; [| lra].
  apply Rmult_le_pos; [lra |]. now apply Rmult_le_pos.
Qed.

Section Geometry.

Context {Point Vector Mesh : Type}.
Variable MeshRay : Mesh -> Point -> Vector -> R.


End Geometry.

End MoreFacts.

(** ** The hourly results *)





(** X3.  High-resolution path: when the sky radiation, the face areas, the
    window transmissivities, the ground reflectivity and the clothing
    absorptivity are not negative, and every patch flagged as seen lies in
    front of its sample point (the cosine of the stored angle is not
    negative), no hour has a negative ERF and no hour's solar-adjusted MRT
    lies below its baseline MRT. *)
Theorem X3_high_res_never_below_baseline (e : HighRes.Env) (count : nat)
  (hour : Z) :
  HighRes.WellFormed e ->
  nth_error (HighRes.HOYS e) count = Some hour ->
  (forall entry d r, In entry (HighRes.cumSkyMtx_d e) ->
                     snd entry hour = Some (d, r) -> 0 <= d /\ 0 <= r) ->
  (forall patches p, In patches (HighRes.intDict e) -> In p patches ->
                     HighRes.isIntersect (snd p) = true ->
                     0 <= cos (HighRes.vecAngle (snd p))) ->
  Forall (fun x => 0 <= x) (HighRes.meshSrfAreas e) ->
  Forall (fun x => 0 <= x) (HighRes.finalWinTransmiss e) ->
  0 <= HighRes.groundR e ->
  0 <= HighRes.cloA e ->
  exists out x m rt,
    HighRes.nonParallelRadCalc e = Some out
    /\ nth_error (ERF out) count = Some x
    /\ nth_error (solarAdjustedMRT out) count = Some m
    /\ nth_error (HighRes.radTemp e) count = Some rt
    /\ 0 <= x
    /\ rt <= m.
Proof.
  intros WF Hn Hsky Hcos Hareas Hwin HgR HcloA.
  destruct (HighResFacts.nonParallelRadCalc_total e WF) as [out Hout].
  destruct (HighResFacts.nonParallelRadCalc_hour e out count hour Hout Hn)
    as (acts & x & m & d & Hacts & (He & Hm' & _) & Hx & Hm & _).
  assert (Hfe := fracEff_pos (HighRes.bodyPosture_ e)).
  destruct (HighResFacts.radCalc_inv _ _ _ _ Hacts)
    as [(_ & f & rt & Hf & Hr & ->) | (_ & rt & Hr & ->)];
    simpl in He, Hm'; injection He as Ex; injection Hm' as Em;
    exists out, x, m, rt; subst x m;
    (split; [exact Hout |]); (split; [exact Hx |]); (split; [exact Hm |]);
    (split; [exact Hr |]).
  - assert (Hflux := MoreFacts.hourFlux_nonneg e count hour f Hf Hsky Hcos
                       Hareas Hwin HgR).
    assert (Herf : 0 <= HighRes.hourERF e f).
    { unfold HighRes.hourERF. apply MoreFacts.div_nonneg; [| lra].
      now apply Rmult_le_pos. }
    split.
    + apply MoreFacts.div_nonneg; [exact Herf | lra].
    + assert (0 <= HighRes.hourERF e f
                   / (fracEff (HighRes.bodyPosture_ e) * radTransCoeff)).
      { apply MoreFacts.div_nonneg; [exact Herf |]. unfold radTransCoeff. nra. }
      lra.
  - split; lra.
Qed.

Lemma X3_high_res_never_below_baseline_witness :
  exists out x m rt,
    HighRes.nonParallelRadCalc Examples.exHigh = Some out
    /\ nth_error (ERF out) 0 = Some x
    /\ nth_error (solarAdjustedMRT out) 0 = Some m
    /\ nth_error (HighRes.radTemp Examples.exHigh) 0 = Some rt
    /\ 0 <= x
    /\ rt <= m.
Proof.
  apply (X3_high_res_never_below_baseline Examples.exHigh 0 17%Z).
  - exact ExampleFacts.exHigh_wf.
  - reflexivity.
  - intros entry d r [<- | [<- | []]] H; simpl in H; injection H as <- <-;
      split; lra.
  - intros patches p [<- | [<- | []]] [<- | []] _; simpl; rewrite cos_0; lra.
  - simpl. repeat constructor; lra.
  - simpl. repeat constructor; lra.
  - simpl. lra.
  - simpl. lra.
Defined.

Module MoreExampleFacts.

Import Examples MoreExamples.


Lemma exHighOpaque_wf : HighRes.WellFormed exHighOpaque.
Proof.
  constructor; try reflexivity.
  - intros hour Hh. simpl in Hh.
    assert (Hsky : exists dd,
               HighRes.getHourlySky (HighRes.cumSkyMtx_d exHighOpaque) hour
               = Some [dd]).
    { cbn. destruct (hour =? 17)%Z; eauto. }
    destruct Hsky as [dd ->]. exists [dd]. split; [reflexivity |].
    intros patches p Hin Hp _. simpl in Hin.
    destruct Hin as [<- | [<- | []]]; destruct Hp as [<- | []]; simpl; lia.
  - discriminate.
  - exists (0 + 2 * 1 * 1). split; [reflexivity | lra].
Qed.

End MoreExampleFacts.



(** X5.  High-resolution path: in an hour whose window transmissivity is 0
    the ERF and the MRT delta are 0 and the solar-adjusted MRT is the
    baseline MRT. *)
Theorem X5_high_res_opaque_window (e : HighRes.Env) (count : nat) (hour : Z) :
  HighRes.WellFormed e ->
  nth_error (HighRes.HOYS e) count = Some hour ->
  nth_error (HighRes.finalWinTransmiss e) count = Some 0 ->
  exists out rt,
    HighRes.nonParallelRadCalc e = Some out
    /\ nth_error (HighRes.radTemp e) count = Some rt
    /\ nth_error (ERF out) count = Some 0
    /\ nth_error (MRTDelta out) count = Some 0
    /\ nth_error (solarAdjustedMRT out) count = Some rt.
Proof.
  intros WF Hn Hw0.
  destruct (HighResFacts.nonParallelRadCalc_total e WF) as [out Hout].
  destruct (HighResFacts.nonParallelRadCalc_hour e out count hour Hout Hn)
    as (acts & x & m & d & Hacts & (He & Hm' & Hd') & Hx & Hm & Hd).
  destruct (HighResFacts.radCalc_inv _ _ _ _ Hacts)
    as [(_ & f & rt & Hf & Hr & ->) | (_ & rt & Hr & ->)];
    simpl in He, Hm', Hd'; injection He as Ex; injection Hm' as Em;
    injection Hd' as Ed; exists out, rt;
    (split; [exact Hout |]); (split; [exact Hr |]).
  - destruct (HighResFacts.hourFlux_inv _ _ _ _ Hf)
      as (skyMtxLists & w & area & _ & Hw & _ & Hane & _ & _ & _ & Hg & Hflux).
    rewrite Hw0 in Hw. injection Hw as <-.
    assert (Hf0 : HighRes.radiantFlux f = 0).
    { rewrite Hflux, Hg. unfold Rdiv. ring. }
    assert (He0 : HighRes.hourERF e f = 0).
    { unfold HighRes.hourERF. rewrite Hf0. unfold Rdiv. ring. }
    rewrite He0 in Ex, Em, Ed.
    assert (Hz : 0 / (fracEff (HighRes.bodyPosture_ e) * radTransCoeff) = 0)
      by (unfold Rdiv; ring).
    rewrite Hz in Em, Ed.
    assert (Hz' : 0 / 1000 = 0) by (unfold Rdiv; ring).
    rewrite Hz' in Ex.
    replace (0 + rt - rt) with 0 in Ed by ring.
    rewrite Rplus_0_l in Em.
    subst x m d. now repeat split.
  - subst x m d. now repeat split.
Qed.

Lemma X5_high_res_opaque_window_witness :
  exists out rt,
    HighRes.nonParallelRadCalc MoreExamples.exHighOpaque = Some out
    /\ nth_error (HighRes.radTemp MoreExamples.exHighOpaque) 0 = Some rt
    /\ nth_error (ERF out) 0 = Some 0
    /\ nth_error (MRTDelta out) 0 = Some 0
    /\ nth_error (solarAdjustedMRT out) 0 = Some rt.
Proof.
  apply (X5_high_res_opaque_window MoreExamples.exHighOpaque 0 17%Z).
  - exact MoreExampleFacts.exHighOpaque_wf.
  - reflexivity.
  - reflexivity.
Defined.

(** ** The parallel loop under any schedule *)

Module ScheduleFacts.

Import Parallel.

Lemma concat_setNth (progs : list (list Action)) (w : nat) (a : Action)
  (prog : list Action) :
  nth_error progs w = Some (a :: prog) ->
  Permutation (concat progs) (a :: concat (setNth w prog progs)).
Proof.
  revert w. induction progs as [| p progs IH]; intros w H.
  - destruct w; discriminate.
  - destruct w as [| w]; simpl in H.
    + injection H as ->. reflexivity.
    + simpl. rewrite (IH w H). symmetry. apply Permutation_middle.
Qed.

Lemma finished_concat (progs : list (list Action)) :
  finished progs = true -> concat progs = [].
Proof.
  unfold finished. induction progs as [| p progs IH]; simpl.
  - reflexivity.
  - destruct p; [| discriminate]. simpl. exact IH.
Qed.

(** Whatever the schedule, a completed run has appended to each list the
    values of all the programs, each once. *)
Lemma interleave_perm {X} (f : Action -> list X) (proj : Series -> list X) :
  (forall st a, proj (append st a) = proj st ++ f a) ->
  forall schedule progs st out,
    interleave progs schedule st = Some out ->
    Permutation (proj out) (proj st ++ flat_map f (concat progs)).
Proof.
  intros Hproj. induction schedule as [| w schedule IH]; intros progs st out H;
    simpl in H.
  - destruct (finished progs) eqn:Ef; [| discriminate].
    injection H as <-. rewrite (finished_concat _ Ef). simpl.
    now rewrite app_nil_r.
  - destruct (nth_error progs w) as [[| a prog] |] eqn:En; try discriminate.
    rewrite (IH _ _ _ H), Hproj, <- app_assoc.
    apply Permutation_app_head.
    rewrite (Permutation_flat_map f (concat_setNth _ _ _ _ En)).
    simpl. reflexivity.
Qed.

Lemma append_ERF (st : Series) (a : Action) :
  ERF (append st a) = ERF st ++ erfOf a.
Proof. destruct a; simpl; now rewrite ?app_nil_r. Qed.

Lemma append_MRT (st : Series) (a : Action) :
  solarAdjustedMRT (append st a) = solarAdjustedMRT st ++ mrtOf a.
Proof. destruct a; simpl; now rewrite ?app_nil_r. Qed.

Lemma append_Delta (st : Series) (a : Action) :
  MRTDelta (append st a) = MRTDelta st ++ deltaOf a.
Proof. destruct a; simpl; now rewrite ?app_nil_r. Qed.

Lemma append_Order (st : Series) (a : Action) :
  hourOrder (append st a) = hourOrder st ++ orderOf a.
Proof. destruct a; simpl; now rewrite ?app_nil_r. Qed.

Lemma programs_values {X} (f : Action -> list X) (l : list nat)
  (actss : list (list Action)) :
  (forall c, f (AppendOrder c) = []) ->
  flat_map f (concat (map (fun ca => snd ca ++ [AppendOrder (fst ca)])
                        (combine l actss)))
  = flat_map f (concat (firstn (length l) actss)).
Proof.
  intros Hf. revert actss. induction l as [| c l IH]; intros actss.
  - reflexivity.
  - destruct actss as [| acts actss]; [reflexivity |].
    simpl. rewrite !flat_map_app, IH. simpl. rewrite Hf. simpl.
    now rewrite app_nil_r.
Qed.

Lemma programs_order (l : list nat) (actss : list (list Action)) :
  length actss = length l ->
  Forall (fun acts => flat_map orderOf acts = []) actss ->
  flat_map orderOf (concat (map (fun ca => snd ca ++ [AppendOrder (fst ca)])
                              (combine l actss)))
  = l.
Proof.
  revert actss. induction l as [| c l IH]; intros actss Hlen HF.
  - reflexivity.
  - destruct actss as [| acts actss]; [discriminate |].
    inversion HF as [| ? ? Ha HF']; subst.
    simpl. rewrite !flat_map_app, Ha, IH by (simpl in Hlen; auto; lia).
    reflexivity.
Qed.

Lemma map_snd_combine {A B} (l : list A) (l' : list B) :
  length l = length l' -> map snd (combine l l') = l'.
Proof.
  revert l'. induction l as [| a l IH]; intros [| b l'] H; simpl in *;
    try reflexivity; try discriminate.
  f_equal. apply IH. lia.
Qed.

(** Re-ordering by [hourOrder] moves the values of a list but keeps every
    one of them. *)
Lemma reorder_perm (order : list nat) (xs : list R) :
  length order = length xs -> Permutation (reorder order xs) xs.
Proof.
  intros H. unfold reorder.
  rewrite (Permutation_map snd (ParallelFacts.sorted_perm (combine order xs))).
  now rewrite map_snd_combine.
Qed.

Lemma any_schedule (body : nat -> option (list Action)) (n : nat)
  (schedule : list nat) (st : Series) :
  (forall c acts, body c = Some acts -> exists x m d, ThreeAppends acts x m d) ->
  ForEach body n schedule = Some st ->
  exists actss,
    Py.mapM body (seq 0 n) = Some actss
    /\ Permutation (hourOrder st) (seq 0 n)
    /\ Permutation (ERF (resort st))
         (ERF (runActions (concat actss) emptySeries))
    /\ Permutation (MRTDelta (resort st))
         (MRTDelta (runActions (concat actss) emptySeries))
    /\ Permutation (solarAdjustedMRT (resort st))
         (solarAdjustedMRT (runActions (concat actss) emptySeries)).
Proof.
  intros Hshape Hrun. unfold ForEach, programs in Hrun.
  destruct (Py.mapM body (seq 0 n)) as [actss |] eqn:Em.
  2:{ assert (E : Py.mapM (task body) (seq 0 n) = None).
      { clear Hrun. revert Em. generalize (seq 0 n) as l.
        induction l as [| c l IH]; simpl; [discriminate |].
        unfold task at 1. destruct (body c); simpl; [| reflexivity].
        destruct (Py.mapM body l); [discriminate |].
        intros _. now rewrite IH. }
      rewrite E in Hrun. discriminate. }
  rewrite (ParallelFacts.mapM_task _ _ _ Em) in Hrun. simpl in Hrun.
  exists actss. split; [reflexivity |].
  assert (Hlen : length actss = n).
  { rewrite (HighResFacts.mapM_length _ _ _ Em). apply length_seq. }
  assert (Hthree : Forall (fun acts => exists x m d, ThreeAppends acts x m d) actss).
  { apply (PyFacts.mapM_Forall _ _ _ _ Em). intros c acts _ H. eauto. }
  assert (Hfirst : firstn (length (seq 0 n)) actss = actss).
  { rewrite length_seq, <- Hlen. apply firstn_all. }
  assert (HO : Permutation (hourOrder st) (seq 0 n)).
  { rewrite (interleave_perm orderOf hourOrder append_Order _ _ _ _ Hrun).
    simpl. rewrite programs_order; [reflexivity | now rewrite length_seq |].
    revert Hthree. apply Forall_impl.
    intros acts (x & m & d & [-> | ->]); reflexivity. }
  assert (Hcount : forall f : Action -> list R,
             (forall acts, (exists x m d, ThreeAppends acts x m d) ->
                           length (flat_map f acts) = 1%nat) ->
             length (flat_map f (concat actss)) = n).
  { intros f Hf. rewrite SeriesFacts.flat_map_concat.
    rewrite SeriesFacts.length_concat_singletons, length_map; [exact Hlen |].
    apply Forall_map. revert Hthree. apply Forall_impl. exact Hf. }
  assert (HlenO : length (hourOrder st) = n).
  { rewrite (Permutation_length HO). apply length_seq. }
  unfold resort. cbn [ERF MRTDelta solarAdjustedMRT hourOrder].
  rewrite SeriesFacts.runActions_ERF, SeriesFacts.runActions_MRT,
    SeriesFacts.runActions_Delta.
  cbn [ERF MRTDelta solarAdjustedMRT emptySeries app].
  assert (HE : Permutation (ERF st) (flat_map erfOf (concat actss))).
  { rewrite (interleave_perm erfOf ERF append_ERF _ _ _ _ Hrun). simpl.
    rewrite programs_values, Hfirst by reflexivity. reflexivity. }
  assert (HD : Permutation (MRTDelta st) (flat_map deltaOf (concat actss))).
  { rewrite (interleave_perm deltaOf MRTDelta append_Delta _ _ _ _ Hrun). simpl.
    rewrite programs_values, Hfirst by reflexivity. reflexivity. }
  assert (HM : Permutation (solarAdjustedMRT st) (flat_map mrtOf (concat actss))).
  { rewrite (interleave_perm mrtOf solarAdjustedMRT append_MRT _ _ _ _ Hrun). simpl.
    rewrite programs_values, Hfirst by reflexivity. reflexivity. }
  split; [exact HO |].
  split; [| split].
  - rewrite reorder_perm; [exact HE |].
    rewrite (Permutation_length HE), HlenO. symmetry. apply Hcount.
    intros acts (x & m & d & [-> | ->]); reflexivity.
  - rewrite reorder_perm; [exact HD |].
    rewrite (Permutation_length HD), HlenO. symmetry. apply Hcount.
    intros acts (x & m & d & [-> | ->]); reflexivity.
  - rewrite reorder_perm; [exact HM |].
    rewrite (Permutation_length HM), HlenO. symmetry. apply Hcount.
    intros acts (x & m & d & [-> | ->]); reflexivity.
Qed.

End ScheduleFacts.

(** X6.  High-resolution path: a parallel run that completes, under any
    schedule of the appends, returns after the re-sort series that hold
    exactly the values of the sequential run, each as often, and has
    recorded every hour index once; only their order can differ. *)
Theorem X6_high_res_parallel_keeps_values (e : HighRes.Env)
  (schedule : list nat) (outP : Series) :
  HighRes.main e true schedule = Some outP ->
  exists outS,
    HighRes.main e false [] = Some outS
    /\ Permutation (hourOrder outP) (seq 0 (length (HighRes.HOYS e)))
    /\ Permutation (ERF outP) (ERF outS)
    /\ Permutation (MRTDelta outP) (MRTDelta outS)
    /\ Permutation (solarAdjustedMRT outP) (solarAdjustedMRT outS).
Proof.
  unfold HighRes.main, HighRes.parallelRadCalc.
  destruct (Parallel.ForEach _ _ schedule) as [st |] eqn:Erun; [| discriminate].
  simpl. intros H. injection H as <-.
  apply ScheduleFacts.any_schedule in Erun.
  2:{ intros c acts.
      destruct (nth_error (HighRes.HOYS e) c) as [h |]; [| discriminate].
      simpl. intros H.
      destruct (HighResFacts.radCalc_inv _ _ _ _ H)
        as [(_ & f & rt & _ & _ & ->) | (_ & rt & _ & ->)];
        do 3 eexists; left; reflexivity. }
  destruct Erun as (actss & Hm & HO & HE & HD & HM).
  rewrite <- (ParallelFacts.mapM_enumerate (HighRes.radCalc e)) in Hm.
  exists (runActions (concat actss) emptySeries).
  split; [exact (SeriesFacts.forEach_total _ _ _ _ Hm) |].
  now repeat split.
Qed.

Lemma X6_high_res_parallel_keeps_values_witness :
  exists outS,
    HighRes.main MoreExamples.exHighNight false [] = Some outS
    /\ Permutation (hourOrder (mkSeries [0; 0] [0; 0] [20; 18] [1; 0]%nat))
         (seq 0 (length (HighRes.HOYS MoreExamples.exHighNight)))
    /\ Permutation (ERF (mkSeries [0; 0] [0; 0] [20; 18] [1; 0]%nat)) (ERF outS)
    /\ Permutation (MRTDelta (mkSeries [0; 0] [0; 0] [20; 18] [1; 0]%nat))
         (MRTDelta outS)
    /\ Permutation (solarAdjustedMRT (mkSeries [0; 0] [0; 0] [20; 18] [1; 0]%nat))
         (solarAdjustedMRT outS).
Proof.
  apply (X6_high_res_parallel_keeps_values MoreExamples.exHighNight
           MoreExamples.exAlternating).
  unfold HighRes.main, HighRes.parallelRadCalc, Parallel.ForEach,
    Parallel.programs, Parallel.task, HighRes.radCalc, HighRes.sunUpTest,
    MoreExamples.exHighNight, MoreExamples.exAlternating.
  cbn. ExampleFacts.py_cmp. cbn. ExampleFacts.py_cmp. reflexivity.
Defined.

(** X7.  Low-resolution path: a parallel run that completes, under any
    schedule of the appends, returns after the re-sort series that hold
    exactly the values of the sequential run, each as often, and has
    recorded every hour index once; only their order can differ. *)
Theorem X7_low_res_parallel_keeps_values {Point Vector Mesh : Type}
  (MeshRay : Mesh -> Point -> Vector -> R) (splineStand splineSit : Z -> Z -> R)
  (e : LowRes.Env Point Vector Mesh) (schedule : list nat) (outP : Series) :
  LowRes.mainSimple MeshRay splineStand splineSit e true schedule = Some outP ->
  exists outS,
    LowRes.mainSimple MeshRay splineStand splineSit e false [] = Some outS
    /\ Permutation (hourOrder outP) (seq 0 (length (LowRes.HOYS e)))
    /\ Permutation (ERF outP) (ERF outS)
    /\ Permutation (MRTDelta outP) (MRTDelta outS)
    /\ Permutation (solarAdjustedMRT outP) (solarAdjustedMRT outS).
Proof.
  unfold LowRes.mainSimple, LowRes.parallelMRTCalc, LowRes.nonParallelMRTCalc.
  destruct (LowRes.skyViewFac MeshRay e) as [skyViewFac |]; [| discriminate].
  simpl.
  destruct (Parallel.ForEach _ _ schedule) as [st |] eqn:Erun; [| discriminate].
  simpl. intros H. injection H as <-.
  apply ScheduleFacts.any_schedule in Erun.
  2:{ intros c acts.
      destruct (nth_error (LowRes.HOYS e) c) as [h |]; [| discriminate].
      simpl. intros H.
      destruct (LowResFacts.MRTCalc_inv _ _ _ _ _ _ _ _ H)
        as (altitude & rt & _ & _
            & [(_ & fBes & x & _ & _ & _ & ->) | (_ & ->)]);
        do 3 eexists; [right | left]; reflexivity. }
  destruct Erun as (actss & Hm & HO & HE & HD & HM).
  rewrite <- (ParallelFacts.mapM_enumerate
                (LowRes.MRTCalc MeshRay splineStand splineSit e skyViewFac))
    in Hm.
  exists (runActions (concat actss) emptySeries).
  split; [exact (SeriesFacts.forEach_total _ _ _ _ Hm) |].
  now repeat split.
Qed.

Lemma X7_low_res_parallel_keeps_values_witness :
  exists outS,
    LowRes.mainSimple Examples.exMeshRay Examples.exSpline Examples.exSpline
      Examples.exLow false [] = Some outS
    /\ Permutation
         (hourOrder
            (Parallel.resort
               (mkSeries [Examples.exERF; 0; 0]
                  [0; 0; Examples.exERF / (0.725 * radTransCoeff)]
                  [20; 20; Examples.exERF / (0.725 * radTransCoeff) + 20]
                  [0; 2; 1]%nat)))
         (seq 0 (length (LowRes.HOYS Examples.exLow)))
    /\ Permutation
         (ERF
            (Parallel.resort
               (mkSeries [Examples.exERF; 0; 0]
                  [0; 0; Examples.exERF / (0.725 * radTransCoeff)]
                  [20; 20; Examples.exERF / (0.725 * radTransCoeff) + 20]
                  [0; 2; 1]%nat)))
         (ERF outS)
    /\ Permutation
         (MRTDelta
            (Parallel.resort
               (mkSeries [Examples.exERF; 0; 0]
                  [0; 0; Examples.exERF / (0.725 * radTransCoeff)]
                  [20; 20; Examples.exERF / (0.725 * radTransCoeff) + 20]
                  [0; 2; 1]%nat)))
         (MRTDelta outS)
    /\ Permutation
         (solarAdjustedMRT
            (Parallel.resort
               (mkSeries [Examples.exERF; 0; 0]
                  [0; 0; Examples.exERF / (0.725 * radTransCoeff)]
                  [20; 20; Examples.exERF / (0.725 * radTransCoeff) + 20]
                  [0; 2; 1]%nat)))
         (solarAdjustedMRT outS).
Proof.
  apply (X7_low_res_parallel_keeps_values Examples.exMeshRay Examples.exSpline
           Examples.exSpline Examples.exLow Examples.exSchedule).
  unfold LowRes.mainSimple. rewrite ExampleFacts.exLow_parallel. reflexivity.
Defined.



(** ** The azimuth handed to the spline *)

(** X9.  For an azimuth from 0 up to 2^53, where binary64 subtracts 180
    without rounding, so that the loop on the reals is the loop the program
    runs, the first [while] loop shifts the azimuth down by a whole number
    of half turns into the range from 0 to 180 (it does not mirror it), and
    an azimuth already in that range is left as it is; the spline argument
    is the integer part of the shifted value.  Negative azimuths are left
    out: the last addition of the second loop can round. *)
Theorem X9_azimuth_shifted_by_half_turns (azInit : R) :
  0 <= azInit < 2 ^ 53 ->
  exists k : Z,
    (0 <= k)%Z
    /\ 180 * IZR k < 2 ^ 53
    /\ 0 <= azInit - 180 * IZR k <= 180
    /\ LowRes.azFinalOf azInit = Py.int (azInit - 180 * IZR k)
    /\ (azInit <= 180 -> k = 0%Z).
Proof.
  intros [H0 Hmax].
  assert (Hdown : forall az, exists k : Z,
               (0 <= k)%Z
               /\ LowRes.azLoopDown az = az - 180 * IZR k
               /\ (az <= 180 -> k = 0%Z)).
  { intros az.
    apply (LowRes.azLoopDown_elim
             (fun az r => exists k : Z,
                  (0 <= k)%Z
                  /\ r = az - 180 * IZR k /\ (az <= 180 -> k = 0%Z))).
    - intros az' Hgt (k & Hk & -> & _) _. exists (k + 1)%Z.
      split; [lia |]. split; [rewrite plus_IZR; ring | lra].
    - intros az' Hle _. exists 0%Z.
      split; [lia |]. split; [simpl; ring | reflexivity]. }
  unfold LowRes.azFinalOf, Py.gtb, Py.ltb.
  destruct (Rlt_dec 180 azInit) as [Hgt | Hle].
  - destruct (Hdown azInit) as (k & Hk0 & Hk & _). exists k.
    destruct (LowResFacts.azLoopDown_spec azInit) as [Hb _].
    specialize (Hb Hgt). rewrite Hk in Hb |- *.
    split; [exact Hk0 |]. split; [lra |].
    split; [lra |]. split; [reflexivity | lra].
  - destruct (Rlt_dec azInit 0) as [Hlt | Hge]; [lra |].
    exists 0%Z. replace (azInit - 180 * IZR 0) with azInit by (simpl; ring).
    split; [lia |]. split; [simpl (IZR 0); lra |].
    split; [lra |]. split; reflexivity.
Qed.

Lemma X9_azimuth_shifted_by_half_turns_witness :
  exists k : Z,
    (0 <= k)%Z
    /\ 180 * IZR k < 2 ^ 53
    /\ 0 <= 450 - 180 * IZR k <= 180
    /\ LowRes.azFinalOf 450 = Py.int (450 - 180 * IZR k)
    /\ (450 <= 180 -> k = 0%Z).
Proof.
  apply (X9_azimuth_shifted_by_half_turns 450).
  split; [lra | simpl; lra].
Defined.

(** ** The checks of the inputs *)

Module CheckFacts.

Import PyList Checks.

Lemma validTrans_iff (x : R) : validTrans x = true <-> 0 <= x <= 1.
Proof.
  unfold validTrans, leb, geb.
  destruct (Rle_dec x 1), (Rle_dec 0 x); simpl; split; intros H;
    try discriminate; try reflexivity; lra.
Qed.

Lemma forallb_validTrans (l : list R) :
  forallb validTrans l = true <-> Forall (fun x => 0 <= x <= 1) l.
Proof.
  rewrite forallb_forall, Forall_forall.
  split; intros H x Hx; apply validTrans_iff; auto.
Qed.

Lemma transLoop_spec (values winTrans : list R) (allGood : bool) :
  transLoop values winTrans allGood
  = (winTrans ++ filter validTrans values,
     allGood && forallb validTrans values).
Proof.
  revert winTrans allGood.
  induction values as [| v values IH]; intros winTrans allGood; simpl.
  - now rewrite app_nil_r, andb_true_r.
  - destruct (validTrans v); rewrite IH; simpl.
    + now rewrite <- app_assoc.
    + now rewrite andb_false_r.
Qed.

Lemma filter_all {A} (f : A -> bool) (l : list A) :
  forallb f l = true -> filter f l = l.
Proof.
  induction l as [| a l IH]; simpl; [reflexivity |].
  destruct (f a); simpl; [| discriminate].
  intros H. now rewrite IH.
Qed.

Section Float.

Variable floatOfString : string -> option R.

(** The conversion loop only appends. *)
Lemma floatLoop_grows (items acc r : list PyVal) (b c : bool) :
  floatLoop floatOfString items acc b = (r, c) -> exists more, r = acc ++ more.
Proof.
  revert acc b. induction items as [| item items IH]; intros acc b H;
    simpl in H.
  - injection H as <- _. exists []. now rewrite app_nil_r.
  - destruct (pyFloat floatOfString item) as [x |].
    + destruct (IH _ _ H) as [more ->]. exists (PyFloat x :: more).
      now rewrite <- app_assoc.
    + exact (IH _ _ H).
Qed.

(** It ends with [checkData1] set only when it has appended a number. *)
Lemma floatLoop_true (items acc r : list PyVal) :
  floatLoop floatOfString items acc false = (r, true) -> r <> [].
Proof.
  revert acc. induction items as [| item items IH]; intros acc H; simpl in H.
  - discriminate.
  - destruct (pyFloat floatOfString item) as [x |].
    + destruct (floatLoop_grows _ _ _ _ _ H) as [more ->].
      destruct acc; discriminate.
    + exact (IH _ H).
Qed.

(** What the loop does with items that are all numbers. *)
Lemma floatLoop_floats (xs : list R) (acc : list PyVal) (b : bool) :
  floatLoop floatOfString (map PyFloat xs) acc b
  = (acc ++ map PyFloat xs, match xs with [] => b | _ => true end).
Proof.
  revert acc b. induction xs as [| x xs IH]; intros acc b; simpl.
  - now rewrite app_nil_r.
  - rewrite IH, <- app_assoc. simpl. now destruct xs.
Qed.

(** What it does with items none of which is a number. *)
Lemma floatLoop_junk (junk acc : list PyVal) (b : bool) :
  Forall (fun v => pyFloat floatOfString v = None) junk ->
  floatLoop floatOfString junk acc b
  = (acc, match junk with [] => b | _ => false end).
Proof.
  intros H. revert acc b. induction H as [| v junk Hv _ IH]; intros acc b;
    simpl.
  - reflexivity.
  - rewrite Hv, IH. now destruct junk.
Qed.

Lemma floatLoop_app (l1 l2 acc : list PyVal) (b : bool) :
  floatLoop floatOfString (l1 ++ l2) acc b
  = floatLoop floatOfString l2
      (fst (floatLoop floatOfString l1 acc b))
      (snd (floatLoop floatOfString l1 acc b)).
Proof.
  revert acc b. induction l1 as [| v l1 IH]; intros acc b; simpl.
  - reflexivity.
  - destruct (pyFloat floatOfString v); apply IH.
Qed.

End Float.

Lemma sliceFrom_length {A} (l : list A) (a : Z) :
  (0 <= a)%Z ->
  length (sliceFrom l a) = (length l - Z.to_nat a)%nat.
Proof.
  intros Ha. unfold sliceFrom, slice, clamp.
  destruct (a <? 0)%Z eqn:E; [apply Z.ltb_lt in E; lia |].
  destruct (Z.of_nat (length l) <? 0)%Z eqn:E0; [apply Z.ltb_lt in E0; lia |].
  rewrite length_firstn, length_skipn. lia.
Qed.

Lemma sliceFrom_app {A} (l1 l2 : list A) :
  sliceFrom (l1 ++ l2) (Z.of_nat (length l1)) = l2.
Proof.
  unfold sliceFrom, slice, clamp. rewrite length_app.
  destruct (Z.of_nat (length l1) <? 0)%Z eqn:E; [apply Z.ltb_lt in E; lia |].
  destruct (Z.of_nat (length l1 + length l2) <? 0)%Z eqn:E0;
    [apply Z.ltb_lt in E0; lia |].
  rewrite Z.min_id, Z.min_l by lia. rewrite Nat2Z.id.
  rewrite skipn_app, skipn_all, Nat.sub_diag. simpl.
  apply firstn_all2. lia.
Qed.

End CheckFacts.

(** X10.  [windowTransmissivity_] is accepted in exactly three cases, and
    the check then returns 8760 values: no value (every hour gets 1), one
    value from 0 to 1, both included (repeated for every hour), or 8760
    values that are all from 0 to 1 (kept as they are). *)
Theorem X10_window_transmissivity_accepted (windowTransmissivity_ w : list R) :
  Checks.checkWindowTransmissivity windowTransmissivity_ = (true, w)
  <-> (windowTransmissivity_ = [] /\ w = repeat 1 (Z.to_nat 8760))
      \/ (exists x, windowTransmissivity_ = [x] /\ 0 <= x <= 1
                    /\ w = repeat x (Z.to_nat 8760))
      \/ (Z.of_nat (length windowTransmissivity_) = 8760%Z
          /\ Forall (fun x => 0 <= x <= 1) windowTransmissivity_
          /\ w = windowTransmissivity_).
Proof.
  unfold Checks.checkWindowTransmissivity.
  destruct windowTransmissivity_ as [| first rest].
  - split.
    + intros H. apply pair_equal_spec in H. destruct H as [_ <-].
      left. now split.
    + intros [[_ ->] | [(x & H & _) | (H & _)]]; [reflexivity | |];
        discriminate.
  - destruct (Z.of_nat (length (first :: rest)) =? 8760)%Z eqn:E8.
    + apply Z.eqb_eq in E8. rewrite CheckFacts.transLoop_spec.
      remember (first :: rest) as l eqn:El.
      unfold fst, snd. rewrite app_nil_l, andb_true_l. split.
      * intros H. injection H as Hall <-. right. right.
        split; [exact E8 |]. split.
        -- now apply CheckFacts.forallb_validTrans.
        -- now apply CheckFacts.filter_all.
      * intros [[H _] | [(x & H & _) | (_ & Hall & ->)]].
        -- rewrite El in H. discriminate.
        -- rewrite H in E8. simpl in E8. discriminate.
        -- apply CheckFacts.forallb_validTrans in Hall.
           rewrite Hall. now rewrite (CheckFacts.filter_all _ _ Hall).
    + apply Z.eqb_neq in E8.
      destruct (length (first :: rest) =? 1)%nat eqn:E1.
      * apply Nat.eqb_eq in E1. destruct rest; [| discriminate].
        destruct (Checks.validTrans first) eqn:Ev.
        -- split.
           ++ intros H. apply pair_equal_spec in H. destruct H as [_ <-].
              right. left. exists first.
              split; [reflexivity |]. split; [| reflexivity].
              now apply CheckFacts.validTrans_iff.
           ++ intros [[H _] | [(x & H & _ & ->) | (H & _)]].
              ** discriminate.
              ** now injection H as ->.
              ** contradiction.
        -- split; [discriminate |].
           intros [[H _] | [(x & H & Hx & _) | (H & _)]].
           ++ discriminate.
           ++ injection H as ->. apply CheckFacts.validTrans_iff in Hx.
              congruence.
           ++ contradiction.
      * apply Nat.eqb_neq in E1. split; [discriminate |].
        intros [[H _] | [(x & H & _) | (H & _)]].
        -- discriminate.
        -- injection H as -> ->. now elim E1.
        -- contradiction.
Qed.

(** X11.  When the check of [_meanRadTemperature] accepts its input, the
    temperatures it returns are at least 8760 items, or none at all: the
    latter for a list that is only a header, which is accepted although it
    holds no temperature. *)
Theorem X11_mean_rad_temperature_accepted (floatOfString : string -> option R)
  (_meanRadTemperature radTemp : list PyList.PyVal) :
  Checks.checkMeanRadTemperature floatOfString _meanRadTemperature
  = (true, radTemp) ->
  (8760 <= Z.of_nat (length radTemp))%Z
  \/ (radTemp = []
      /\ (3 <= length _meanRadTemperature <= 7)%nat
      /\ exists v, nth_error _meanRadTemperature 2 = Some v
                   /\ PyList.contains "Temperature" v = Some true).
Proof.
  unfold Checks.checkMeanRadTemperature. cbv zeta.
  set (found := if negb (length _meanRadTemperature =? 0)%nat then _ else _).
  destruct ((Z.of_nat (length (fst found)) <? 8760)%Z
            && negb (length (fst found) =? 0)%nat) eqn:Esmall.
  - destruct (fst found) as [| v [| v' rest]].
    + discriminate.
    + intros H. apply pair_equal_spec in H. destruct H as [_ <-].
      left. rewrite repeat_length. lia.
    + discriminate.
  - intros H. apply pair_equal_spec in H. destruct H as [Hc <-].
    apply andb_false_iff in Esmall. destruct Esmall as [E | E].
    + left. apply Z.ltb_ge in E. exact E.
    + right. apply negb_false_iff, Nat.eqb_eq in E.
      apply length_zero_iff_nil in E. split; [exact E |].
      subst found.
      destruct (negb (length _meanRadTemperature =? 0)%nat); [| discriminate].
      assert (Hloop : forall tried,
                 tried = ([], false) ->
                 fst (if negb (snd tried)
                      then Checks.floatLoop floatOfString _meanRadTemperature
                             (fst tried) (snd tried)
                      else tried) = [] ->
                 snd (if negb (snd tried)
                      then Checks.floatLoop floatOfString _meanRadTemperature
                             (fst tried) (snd tried)
                      else tried) = true ->
                 False).
      { intros tried -> H1 H2. simpl in H1, H2.
        destruct (Checks.floatLoop floatOfString _meanRadTemperature [] false)
          as [r c] eqn:El.
        simpl in H1, H2. subst r c.
        exact (CheckFacts.floatLoop_true _ _ _ _ El eq_refl). }
      destruct (nth_error _meanRadTemperature 2) as [v |] eqn:En.
      * destruct (PyList.contains "Temperature" v) as [[|] |] eqn:Ec.
        -- simpl in E. split.
           ++ assert (Hlt : (2 < length _meanRadTemperature)%nat)
                by (apply nth_error_Some; congruence).
              split; [lia |].
              apply (f_equal (@length _)) in E.
              rewrite CheckFacts.sliceFrom_length in E by lia.
              simpl length in E. lia.
           ++ exists v. now split.
        -- exfalso. exact (Hloop _ eq_refl E Hc).
        -- exfalso. exact (Hloop _ eq_refl E Hc).
      * exfalso. exact (Hloop _ eq_refl E Hc).
Qed.

Lemma X11_mean_rad_temperature_accepted_witness :
  (8760 <= Z.of_nat (length (repeat (PyList.PyFloat 20) (Z.to_nat 8760))))%Z
  \/ (repeat (PyList.PyFloat 20) (Z.to_nat 8760) = []
      /\ (3 <= length [PyList.PyFloat 20] <= 7)%nat
      /\ exists v, nth_error [PyList.PyFloat 20] 2 = Some v
                   /\ PyList.contains "Temperature" v = Some true).
Proof.
  apply (X11_mean_rad_temperature_accepted (fun _ => None) [PyList.PyFloat 20]
           (repeat (PyList.PyFloat 20) (Z.to_nat 8760))).
  reflexivity.
Defined.

(** X12.  Items of [_meanRadTemperature] that are not numbers are dropped
    without a warning as long as the last item is a number: such items
    followed by one number are accepted, and the number stands for every
    hour of the year.  The same number followed by those items is
    rejected. *)
Theorem X12_items_before_a_number_are_dropped
  (floatOfString : string -> option R) (junk : list PyList.PyVal) (x : R) :
  Forall (fun v => Checks.pyFloat floatOfString v = None
                   /\ PyList.contains "Temperature" v <> Some true) junk ->
  junk <> [] ->
  Checks.checkMeanRadTemperature floatOfString (junk ++ [PyList.PyFloat x])
  = (true, repeat (PyList.PyFloat x) (Z.to_nat 8760))
  /\ Checks.checkMeanRadTemperature floatOfString (PyList.PyFloat x :: junk)
     = (false, repeat (PyList.PyFloat x) (Z.to_nat 8760)).
Proof.
  intros Hjunk Hne.
  assert (Hfloat : Forall (fun v => Checks.pyFloat floatOfString v = None) junk).
  { revert Hjunk. apply Forall_impl. now intros v [H _]. }
  assert (Hno : forall l,
             (forall v, In v l -> PyList.contains "Temperature" v <> Some true) ->
             match nth_error l 2 with
             | Some v =>
                 match PyList.contains "Temperature" v with
                 | Some true => (PyList.sliceFrom l 7, true)
                 | _ => ([], false)
                 end
             | None => ([], false)
             end = ([], false)).
  { intros l Hl. destruct (nth_error l 2) as [v |] eqn:En; [| reflexivity].
    specialize (Hl v (nth_error_In _ _ En)).
    destruct (PyList.contains "Temperature" v) as [[|] |]; congruence. }
  rewrite Forall_forall in Hjunk.
  unfold Checks.checkMeanRadTemperature. cbv zeta. split.
  - rewrite Hno.
    2:{ intros v Hv. apply in_app_or in Hv. destruct Hv as [Hv | [<- | []]].
        - now apply Hjunk.
        - discriminate. }
    replace (negb (length (junk ++ [PyList.PyFloat x]) =? 0)%nat) with true
      by (rewrite length_app, Nat.add_1_r; reflexivity).
    cbn [fst snd negb].
    rewrite CheckFacts.floatLoop_app.
    rewrite (CheckFacts.floatLoop_junk floatOfString junk _ _ Hfloat).
    reflexivity.
  - rewrite Hno.
    2:{ intros v [<- | Hv]; [discriminate | now apply Hjunk]. }
    cbn [length Nat.eqb fst snd negb Checks.floatLoop Checks.pyFloat app].
    rewrite (CheckFacts.floatLoop_junk floatOfString junk _ _ Hfloat).
    destruct junk; [contradiction | reflexivity].
Qed.

Lemma X12_items_before_a_number_are_dropped_witness :
  Checks.checkMeanRadTemperature (fun _ => None)
    ([PyList.PyStr "abc"] ++ [PyList.PyFloat 20])
  = (true, repeat (PyList.PyFloat 20) (Z.to_nat 8760))
  /\ Checks.checkMeanRadTemperature (fun _ => None)
       [PyList.PyFloat 20; PyList.PyStr "abc"]
     = (false, repeat (PyList.PyFloat 20) (Z.to_nat 8760)).
Proof.
  apply (X12_items_before_a_number_are_dropped (fun _ => None)
           [PyList.PyStr "abc"] 20).
  - constructor; [| constructor]. split; [reflexivity | discriminate].
  - discriminate.
Defined.

(** X13.  The solar-adjusted MRT that the component puts out, header
    included, is read back by the check of [_meanRadTemperature] of another
    run: a series of 8760 values or more is accepted as it is, the value of
    a single hour is taken for every hour of the year, a series of a shorter
    period is rejected, and an empty series is accepted with no
    temperatures. *)
Theorem X13_output_read_back (floatOfString : string -> option R)
  (location : string) (analysisStart analysisEnd : PyList.PyVal) (st : Series) :
  Checks.checkMeanRadTemperature floatOfString
    (Checks.solarAdjustedMRTOutput location analysisStart analysisEnd st)
  = match solarAdjustedMRT st with
    | [] => (true, [])
    | [x] => (true, repeat (PyList.PyFloat x) (Z.to_nat 8760))
    | xs =>
        if (Z.of_nat (length xs) <? 8760)%Z then (false, map PyList.PyFloat xs)
        else (true, map PyList.PyFloat xs)
    end.
Proof.
  unfold Checks.solarAdjustedMRTOutput, Checks.withHeader.
  generalize (solarAdjustedMRT st) as xs. intros xs.
  set (key := PyList.PyStr "key:location/dataType/units/frequency/startsAt/endsAt").
  set (dataType := PyList.PyStr "Solar-Adjusted Mean Radiant Temperature").
  assert (Hc : PyList.contains "Temperature" dataType = Some true)
    by reflexivity.
  set (head := [key; PyList.PyStr location; dataType; PyList.PyStr "C";
                PyList.PyStr "Hourly"; analysisStart; analysisEnd]).
  change (key :: PyList.PyStr location :: dataType :: PyList.PyStr "C"
          :: PyList.PyStr "Hourly" :: analysisStart :: analysisEnd
          :: map PyList.PyFloat xs)
    with (head ++ map PyList.PyFloat xs).
  assert (Hs : PyList.sliceFrom (head ++ map PyList.PyFloat xs) 7
               = map PyList.PyFloat xs)
    by exact (CheckFacts.sliceFrom_app head (map PyList.PyFloat xs)).
  unfold Checks.checkMeanRadTemperature. cbv zeta.
  change (nth_error (head ++ map PyList.PyFloat xs) 2) with (Some dataType).
  cbv beta iota. rewrite Hc, Hs.
  change (negb (length (head ++ map PyList.PyFloat xs) =? 0)%nat) with true.
  cbn [fst snd negb]. rewrite length_map.
  destruct xs as [| x [| y xs]].
  - reflexivity.
  - reflexivity.
  - set (l := x :: y :: xs).
    destruct (Z.of_nat (length l) <? 8760)%Z; reflexivity.
Qed.

(** X14.  A number given as [analysisPeriodOrHOY_] is cut to its integer
    part and selects the single-hour method; it is accepted exactly when
    that integer part lies from 1 to 8760, that is for numbers from 1 up
    to, but not including, 8761. *)
Theorem X14_hour_of_year_accepted (x : R) (rest : list Checks.PeriodItem) :
  exists checkData9,
    Checks.checkAnalysisPeriod (Checks.HourNumber x :: rest)
    = (checkData9, 1%Z, Checks.HourOfYear (Py.int x))
    /\ (checkData9 = true <-> (1 <= Py.int x <= 8760)%Z)
    /\ (checkData9 = true <-> 1 <= x < 8761).
Proof.
  assert (Hint : (1 <= Py.int x <= 8760)%Z <-> 1 <= x < 8761).
  { unfold Py.int. destruct (Rle_dec 0 x) as [Hpos | Hneg].
    - destruct (base_Int_part x) as [Hle Hgt]. split.
      + intros [H1 H2]. apply IZR_le in H1, H2. lra.
      + intros [H1 H2]. split.
        * assert (H : (0 < Int_part x)%Z) by (apply lt_IZR; lra). lia.
        * assert (H : (Int_part x < 8761)%Z) by (apply lt_IZR; lra). lia.
    - destruct (base_Int_part (- x)) as [Hle Hgt].
      assert (H : (-1 < Int_part (- x))%Z) by (apply lt_IZR; lra).
      split; [lia | lra]. }
  unfold Checks.checkAnalysisPeriod. cbv zeta.
  destruct ((Py.int x <? 1)%Z || (Py.int x >? 8760)%Z) eqn:E.
  - exists false. split; [reflexivity |].
    assert (Hout : ~ (1 <= Py.int x <= 8760)%Z).
    { apply orb_true_iff in E. destruct E as [E | E].
      - apply Z.ltb_lt in E. lia.
      - apply Z.gtb_lt in E. lia. }
    split; split; try discriminate; intros H; exfalso; apply Hout;
      [exact H | now apply Hint].
  - exists true. split; [reflexivity |].
    apply orb_false_iff in E. destruct E as [E1 E2].
    apply Z.ltb_ge in E1.
    assert (E3 : (Py.int x <= 8760)%Z).
    { destruct (Z.gtb_spec (Py.int x) 8760); [discriminate | lia]. }
    split; split; try reflexivity; intros _; [lia | apply Hint; lia].
Qed.

(** ** The low-resolution run from its inputs *)

Module PrepareFacts.

Lemma mannequinPoints_middle {Vector Mesh : Type}
  (bodyPosture_ : option Z) (bodyLocation_ : option Mannequin.Point3d)
  (conversionFac : R) :
  conversionFac <> 0 ->
  exists mannequinMesh,
    Mannequin.mannequinPoints bodyPosture_ bodyLocation_ conversionFac
    = Some mannequinMesh
    /\ (length mannequinMesh = 9%nat \/ length mannequinMesh = 3%nat)
    /\ forall e : LowRes.Env Mannequin.Point3d Vector Mesh,
        LowRes.bodyPosture_ e = bodyPosture_ ->
        LowRes.mannequinMesh e = mannequinMesh ->
        exists middle,
          LowRes.middlePt e = Some middle
          /\ (forall l, bodyLocation_ = Some l -> middle = l)
          /\ (bodyLocation_ = None ->
              fst (fst middle) = 0 /\ snd (fst middle) = 0).
Proof.
  intros Hcf.
  assert (Hcases :
            bodyPosture_ = None \/ bodyPosture_ = Some 0%Z
            \/ bodyPosture_ = Some 1%Z \/ bodyPosture_ = Some 2%Z
            \/ bodyPosture_ = Some 3%Z \/ bodyPosture_ = Some 4%Z
            \/ exists z, bodyPosture_ = Some z
                         /\ (z =? 0)%Z = false /\ (z =? 1)%Z = false
                         /\ (z =? 2)%Z = false /\ (z =? 3)%Z = false
                         /\ (z =? 4)%Z = false).
  { destruct bodyPosture_ as [z |]; [| now left].
    destruct (Z.eqb_spec z 0) as [-> | H0]; [tauto |].
    destruct (Z.eqb_spec z 1) as [-> | H1]; [tauto |].
    destruct (Z.eqb_spec z 2) as [-> | H2]; [tauto |].
    destruct (Z.eqb_spec z 3) as [-> | H3]; [tauto |].
    destruct (Z.eqb_spec z 4) as [-> | H4]; [tauto |].
    do 6 right. exists z. repeat split; now apply Z.eqb_neq. }
  unfold Mannequin.mannequinPoints, Mannequin.centre.
  destruct Hcases as [-> | [-> | [-> | [-> | [-> | [-> | (z & -> & E0 & E1 & E2 & E3 & E4)]]]]]];
    unfold standing, seated, postureIs, postureIsNone;
    rewrite ?E0, ?E1, ?E2, ?E3, ?E4;
    cbn [Z.eqb Pos.eqb orb];
    rewrite ?PyFacts.div_ok by exact Hcf;
    destruct bodyLocation_ as [[[x y] h] |];
    cbn [Py.bind fst snd map Mannequin.nineOffsets Mannequin.threeOffsets];
    eexists; (split; [reflexivity |]);
    (split; [cbn [length]; tauto |]);
    intros e Hp Hm; unfold LowRes.middlePt; rewrite Hp, Hm;
    unfold postureIs, postureIsNone;
    rewrite ?E0, ?E1, ?E2, ?E3, ?E4;
    cbn [Z.eqb Pos.eqb orb];
    eexists; (split; [reflexivity |]);
    (split; [intros l Hl; first [now injection Hl as <- | discriminate Hl]
            | intros Hl; first [discriminate Hl | now split]]).
Qed.

Lemma index_in_range {A} (l : list A) (i : Z) :
  (0 <= i < Z.of_nat (length l))%Z -> exists x, Py.index l i = Some x.
Proof.
  intros H. unfold Py.index.
  destruct (0 <=? i)%Z eqn:E; [| apply Z.leb_gt in E; lia].
  destruct (nth_error l (Z.to_nat i)) as [x |] eqn:En; [eauto |].
  apply nth_error_None in En. lia.
Qed.

Lemma checkWindowTransmissivity_length (windowTransmissivity_ w : list R) :
  Checks.checkWindowTransmissivity windowTransmissivity_ = (true, w) ->
  length w = Z.to_nat 8760.
Proof.
  unfold Checks.checkWindowTransmissivity.
  destruct windowTransmissivity_ as [| first rest].
  - intros H. apply pair_equal_spec in H. destruct H as [_ <-].
    apply repeat_length.
  - destruct (Z.of_nat (length (first :: rest)) =? 8760)%Z eqn:E8.
    + apply Z.eqb_eq in E8. rewrite CheckFacts.transLoop_spec.
      remember (first :: rest) as l eqn:El.
      unfold fst, snd. rewrite app_nil_l, andb_true_l.
      intros H. apply pair_equal_spec in H. destruct H as [Hall <-].
      rewrite (CheckFacts.filter_all _ _ Hall). lia.
    + destruct (length (first :: rest) =? 1)%nat; [| discriminate].
      destruct (Checks.validTrans first); [| discriminate].
      intros H. apply pair_equal_spec in H. destruct H as [_ <-].
      apply repeat_length.
Qed.

End PrepareFacts.

(** X15.  With a unit conversion factor that is not 0 the body points of the
    low-resolution method are always built: nine or three points, and
    always as many as the sky-view calculation needs, whose middle point
    is then the given body location, or a point above the origin when no
    location is given. *)
Theorem X15_body_points_have_a_middle {Vector Mesh : Type}
  (bodyPosture_ : option Z) (bodyLocation_ : option Mannequin.Point3d)
  (conversionFac : R) :
  conversionFac <> 0 ->
  exists mannequinMesh,
    Mannequin.mannequinPoints bodyPosture_ bodyLocation_ conversionFac
    = Some mannequinMesh
    /\ (length mannequinMesh = 9%nat \/ length mannequinMesh = 3%nat)
    /\ forall e : LowRes.Env Mannequin.Point3d Vector Mesh,
        LowRes.bodyPosture_ e = bodyPosture_ ->
        LowRes.mannequinMesh e = mannequinMesh ->
        exists middle,
          LowRes.middlePt e = Some middle
          /\ (forall l, bodyLocation_ = Some l -> middle = l)
          /\ (bodyLocation_ = None ->
              fst (fst middle) = 0 /\ snd (fst middle) = 0).
Proof.
  exact (PrepareFacts.mannequinPoints_middle bodyPosture_ bodyLocation_
           conversionFac).
Qed.

Lemma X15_body_points_have_a_middle_witness :
  exists mannequinMesh,
    Mannequin.mannequinPoints (Some 3%Z) (Some (1, 2, 3)) 1
    = Some mannequinMesh
    /\ (length mannequinMesh = 9%nat \/ length mannequinMesh = 3%nat)
    /\ forall e : LowRes.Env Mannequin.Point3d nat (nat -> nat -> bool),
        LowRes.bodyPosture_ e = Some 3%Z ->
        LowRes.mannequinMesh e = mannequinMesh ->
        exists middle,
          LowRes.middlePt e = Some middle
          /\ (forall l, Some (1, 2, 3) = Some l -> middle = l)
          /\ (Some (1, 2, 3) = None ->
              fst (fst middle) = 0 /\ snd (fst middle) = 0).
Proof.
  apply (X15_body_points_have_a_middle (Some 3%Z) (Some (1, 2, 3)) 1).
  lra.
Defined.

(** X16.  Once the inputs have passed the checks, and with north and
    rotation angles of at most 2^50 in magnitude, the low-resolution run
    cannot fail: with a unit conversion factor that is not 0, hours from 1
    to 8760, an accepted window transmissivity, annual series of at least
    8760 values, solar azimuths between 0 and a full turn and, where there
    is context, at least one view vector, [mainSimple] finds every list
    entry it reads and returns one ERF, one MRT delta and one
    solar-adjusted MRT for every hour.  The rotation angle is not checked
    by the component; the bound on the angles keeps every azimuth that
    enters the loops below 2^53 in magnitude, where every turn of a loop
    on binary64 moves the azimuth by 180 without rounding as long as it is
    outside the range from -180 to 180, so that the loops end as they do
    on the reals. *)
Theorem X16_checked_inputs_run {Vector Mesh : Type}
  (MeshRay : Mesh -> Mannequin.Point3d -> Vector -> R)
  (splineStand splineSit : Z -> Z -> R)
  (solAlt solAz : Z -> R) (sunReverseVector : Z -> Vector)
  (bodyPosture_ : option Z) (bodyLocation_ : option Mannequin.Point3d)
  (conversionFac : R) (defaultPeriod : bool) (radTemp : list R)
  (context : list Mesh) (groundR cloA : R)
  (windowTransmissivity_ winTrans : list R) (HOYS : list Z)
  (rotationAngle northAngle : R) (directSolarRad diffSolarRad : list R)
  (viewVectors : list Vector) :
  conversionFac <> 0 ->
  Forall (fun hour => (1 <= hour <= 8760)%Z) HOYS ->
  Checks.checkWindowTransmissivity windowTransmissivity_ = (true, winTrans) ->
  (if defaultPeriod then length radTemp = length HOYS
   else (8760 <= Z.of_nat (length radTemp))%Z) ->
  (8760 <= Z.of_nat (length directSolarRad))%Z ->
  (8760 <= Z.of_nat (length diffSolarRad))%Z ->
  (context <> [] -> viewVectors <> []) ->
  Rabs northAngle <= 2 ^ 50 ->
  Rabs rotationAngle <= 2 ^ 50 ->
  (forall hour, In hour HOYS -> 0 <= solAz hour <= 2 * PI) ->
  exists mannequinMesh e out,
    Mannequin.mannequinPoints bodyPosture_ bodyLocation_ conversionFac
    = Some mannequinMesh
    /\ Prepare.prepareSimple solAlt solAz sunReverseVector bodyPosture_
         defaultPeriod radTemp mannequinMesh context groundR cloA winTrans
         HOYS rotationAngle northAngle directSolarRad diffSolarRad viewVectors
       = Some e
    /\ LowRes.WellFormed e
    /\ (forall hour, In hour HOYS ->
          Rabs (LowRes.azInitOf e (solAz hour)) < 2 ^ 53)
    /\ LowRes.mainSimple MeshRay splineStand splineSit e false [] = Some out
    /\ length (ERF out) = length HOYS
    /\ length (MRTDelta out) = length HOYS
    /\ length (solarAdjustedMRT out) = length HOYS.
Proof.
  intros Hcf Hhours Hwin Hrad Hdir Hdiff Hviews Hnorth Hrot Haz.
  destruct (PrepareFacts.mannequinPoints_middle (Vector := Vector)
              (Mesh := Mesh) bodyPosture_ bodyLocation_ conversionFac Hcf)
    as (mannequinMesh & Hpts & _ & Hmiddle).
  assert (Hsel : exists radTemp',
             Prepare.selectRadTemp defaultPeriod radTemp HOYS = Some radTemp'
             /\ length radTemp' = length HOYS).
  { unfold Prepare.selectRadTemp. destruct defaultPeriod; simpl.
    - exists radTemp. now split.
    - destruct (PyFacts.mapM_total (fun hour => Py.index radTemp (hour - 1)) HOYS)
        as [radTemp' Hm].
      { intros hour Hin. rewrite Forall_forall in Hhours.
        specialize (Hhours hour Hin). apply PrepareFacts.index_in_range. lia. }
      exists radTemp'. split; [exact Hm |].
      exact (HighResFacts.mapM_length _ _ _ Hm). }
  destruct Hsel as (radTemp' & Hsel & Hlen).
  assert (Hw := PrepareFacts.checkWindowTransmissivity_length _ _ Hwin).
  exists mannequinMesh.
  unfold Prepare.prepareSimple. rewrite Hsel. cbn [Py.bind].
  eexists. 
  assert (WF : LowRes.WellFormed
                 (LowRes.mkEnv bodyPosture_ HOYS radTemp' mannequinMesh context
                    groundR cloA winTrans rotationAngle northAngle
                    directSolarRad diffSolarRad (map solAlt HOYS)
                    (map solAz HOYS)
                    (Prepare.sunVectorsOf solAlt sunReverseVector HOYS)
                    viewVectors)).
  { constructor; cbn [LowRes.altitudes LowRes.azimuths LowRes.radTemp
                        LowRes.HOYS LowRes.directSolarRad LowRes.diffSolarRad
                        LowRes.winTrans LowRes.context LowRes.viewVectors
                        LowRes.sunVectors].
    - apply length_map.
    - apply length_map.
    - exact Hlen.
    - intros hour Hin. rewrite Forall_forall in Hhours.
      specialize (Hhours hour Hin). rewrite Hw. lia.
    - match goal with
      | |- exists middle, LowRes.middlePt ?e = Some middle =>
          destruct (Hmiddle e eq_refl eq_refl) as (middle & Hm & _)
      end.
      eauto.
    - exact Hviews.
    - intros count altitude _ Ha Hpos.
      rewrite nth_error_map in Ha.
      destruct (nth_error HOYS count) as [hour |] eqn:En; [| discriminate].
      simpl in Ha. injection Ha as <-.
      exists (sunReverseVector hour).
      unfold Prepare.sunVectorsOf. rewrite nth_error_map, En. simpl.
      now rewrite PyFacts.gtb_true. }
  destruct (LowResFacts.nonParallelMRTCalc_total MeshRay splineStand splineSit
              _ WF) as [out Hout].
  exists out.
  split; [exact Hpts |]. split; [reflexivity |]. split; [exact WF |].
  split.
  { intros hour Hin. specialize (Haz hour Hin).
    assert (Hn : - 2 ^ 50 <= northAngle <= 2 ^ 50)
      by (unfold Rabs in Hnorth; destruct (Rcase_abs northAngle); lra).
    assert (Hr : - 2 ^ 50 <= rotationAngle <= 2 ^ 50)
      by (unfold Rabs in Hrot; destruct (Rcase_abs rotationAngle); lra).
    assert (Hpi := PI_RGT_0).
    assert (Hdeg : 0 <= Py.degrees (solAz hour) <= 360).
    { unfold Py.degrees.
      assert (Hq : 0 < 180 / PI) by (apply Rdiv_lt_0_compat; lra).
      split; [apply Rmult_le_pos; lra |].
      replace 360 with (2 * PI * (180 / PI)) by (field; lra).
      apply Rmult_le_compat_r; lra. }
    assert (H50 : 360 < 2 ^ 50) by (simpl; lra).
    assert (H53 : 2 ^ 53 = 8 * 2 ^ 50) by (simpl; lra).
    unfold LowRes.azInitOf.
    cbn [LowRes.northAngle LowRes.rotationAngle].
    destruct (Py.neqb northAngle 0), (Py.neqb rotationAngle 0);
      apply Rabs_def1; lra. }
  split; [exact Hout |].
  unfold LowRes.nonParallelMRTCalc in Hout.
  destruct (LowRes.skyViewFac MeshRay _) as [s |]; [| discriminate].
  simpl in Hout.
  destruct (SeriesFacts.forEach_lengths _ _ _ Hout) as (H1 & H2 & H3).
  { intros [c h] acts H. exact (LowResFacts.MRTCalc_OneEach _ _ _ _ _ _ _ _ H). }
  now repeat split.
Qed.

Lemma X16_checked_inputs_run_witness :
  exists mannequinMesh e out,
    Mannequin.mannequinPoints (Some 3%Z) None 1 = Some mannequinMesh
    /\ Prepare.prepareSimple (fun _ => PI / 6) (fun _ => PI) (fun _ => 10%nat)
         (Some 3%Z) false (Examples.annual 20) mannequinMesh
         ([] : list (nat -> nat -> bool)) 0.25 0.7 (repeat 1 (Z.to_nat 8760))
         [12%Z] 0 0 (Examples.annual 500) (Examples.annual 100) [0%nat]
       = Some e
    /\ LowRes.WellFormed e
    /\ (forall hour, In hour [12%Z] ->
          Rabs (LowRes.azInitOf e ((fun _ => PI) hour)) < 2 ^ 53)
    /\ LowRes.mainSimple (fun _ _ _ => -1) Examples.exSpline Examples.exSpline
         e false [] = Some out
    /\ length (ERF out) = length [12%Z]
    /\ length (MRTDelta out) = length [12%Z]
    /\ length (solarAdjustedMRT out) = length [12%Z].
Proof.
  apply (X16_checked_inputs_run (fun _ _ _ => -1) Examples.exSpline
           Examples.exSpline (fun _ => PI / 6) (fun _ => PI) (fun _ => 10%nat)
           (Some 3%Z) None 1 false (Examples.annual 20)
           ([] : list (nat -> nat -> bool)) 0.25 0.7 [] (repeat 1 (Z.to_nat 8760))
           [12%Z] 0 0 (Examples.annual 500) (Examples.annual 100) [0%nat]).
  - lra.
  - repeat constructor; lia.
  - reflexivity.
  - rewrite ExampleFacts.annual_length. lia.
  - rewrite ExampleFacts.annual_length. lia.
  - rewrite ExampleFacts.annual_length. lia.
  - intros _. discriminate.
  - rewrite Rabs_R0. simpl. lra.
  - rewrite Rabs_R0. simpl. lra.
  - intros hour _. assert (Hpi := PI_RGT_0). lra.
Defined.

(** ** The sky of a period *)

Module SkyFacts.

Import PyList Sky.

Lemma range_length (n : Z) : length (range n) = Z.to_nat n.
Proof. unfold range. now rewrite length_map, length_seq. Qed.

Lemma firstn_seq (n start len : nat) :
  firstn n (seq start len) = seq start (Nat.min n len).
Proof.
  revert start len. induction n as [| n IH]; intros start [| len]; simpl;
    try reflexivity.
  now rewrite IH.
Qed.

(** A slice of [range(n)] with bounds that are not negative. *)
Lemma slice_range (n a b : Z) :
  (0 <= a)%Z -> (0 <= b)%Z -> (0 <= n)%Z ->
  slice (range n) a b
  = map Z.of_nat (seq (Z.to_nat (Z.min a n))
                    (Z.to_nat (Z.min b n - Z.min a n))).
Proof.
  intros Ha Hb Hn. unfold slice, clamp. rewrite range_length, Z2Nat.id by lia.
  destruct (a <? 0)%Z eqn:Ea; [apply Z.ltb_lt in Ea; lia |].
  destruct (b <? 0)%Z eqn:Eb; [apply Z.ltb_lt in Eb; lia |].
  unfold range. rewrite skipn_map, firstn_map, skipn_seq, firstn_seq.
  f_equal. f_equal; lia.
Qed.

(** Filtering an enumerated run of consecutive numbers by position is
    filtering the numbers by their distance from the first. *)
Lemma enumerate_filter (P : Z -> bool) (m a k : nat) :
  map snd (filter (fun ia => P (Z.of_nat (fst ia)))
             (Py.enumerateFrom k (map Z.of_nat (seq a m))))
  = filter (fun h => P (h - Z.of_nat a + Z.of_nat k)%Z)
      (map Z.of_nat (seq a m)).
Proof.
  revert a k. induction m as [| m IH]; intros a k; simpl.
  - reflexivity.
  - replace (Z.of_nat a - Z.of_nat a + Z.of_nat k)%Z with (Z.of_nat k) by lia.
    rewrite <- (filter_ext (fun h => P (h - Z.of_nat (S a) + Z.of_nat (S k))%Z)).
    2:{ intros h. f_equal. lia. }
    destruct (P (Z.of_nat k)); simpl; now rewrite IH.
Qed.

Lemma inHours_whole_day (k : Z) : inHours 1 24 k = true.
Proof.
  unfold inHours. assert (H := Z.mod_pos_bound k 24 ltac:(lia)).
  apply andb_true_iff. split; apply Z.leb_le; lia.
Qed.

(** [selectHourlyData] on [range(8760)] for a period that does not run
    over the end of the year. *)
Lemma selectHourlyData_range (stAnnualHour endAnnualHour stHour endHour : Z) :
  (1 <= stAnnualHour < endAnnualHour)%Z ->
  selectHourlyData (range 8760) stAnnualHour endAnnualHour stHour endHour
  = filter (fun h => inHours stHour endHour
                       (h - (stAnnualHour - 1) + stHour - 1))
      (map Z.of_nat
         (seq (Z.to_nat (Z.min (stAnnualHour - 1) 8760))
            (Z.to_nat (Z.min (endAnnualHour + 1) 8760
                       - Z.min (stAnnualHour - 1) 8760)))).
Proof.
  intros H. unfold selectHourlyData.
  destruct (stAnnualHour <? endAnnualHour)%Z eqn:E;
    [| apply Z.ltb_ge in E; lia].
  rewrite slice_range by lia. unfold Py.enumerate.
  rewrite (enumerate_filter (fun z => inHours stHour endHour (z + stHour - 1))).
  destruct (Z.le_gt_cases (stAnnualHour - 1) 8760) as [Hle | Hgt].
  - apply filter_ext. intros h. f_equal.
    rewrite Z2Nat.id by lia. rewrite Z.min_l by lia. simpl. lia.
  - rewrite !Z.min_r by lia. rewrite Z.sub_diag. reflexivity.
Qed.

(** The sums of a patch when every hour has data. *)
Lemma accumulate_all (table : Z -> option (R * R)) (HOYS : list Z) (a b : R) :
  (forall h, In h HOYS -> table (h + 1)%Z <> None) ->
  accumulate table HOYS a b
  = (a + Py.sum (map (fun h => match table (h + 1)%Z with
                               | Some dd => fst dd
                               | None => 0
                               end) HOYS),
     b + Py.sum (map (fun h => match table (h + 1)%Z with
                               | Some dd => snd dd
                               | None => 0
                               end) HOYS)).
Proof.
  revert a b. induction HOYS as [| h HOYS IH]; intros a b Hall; simpl.
  - rewrite PyFacts.sum_nil. f_equal; lra.
  - destruct (table (h + 1)%Z) as [[dif dir] |] eqn:Et.
    + rewrite IH by (intros h' Hh'; apply Hall; now right).
      rewrite !PyFacts.sum_cons. simpl. f_equal; lra.
    + exfalso. apply (Hall h (or_introl eq_refl)). exact Et.
Qed.

(** An hour without data ends the sums of the patch. *)
Lemma accumulate_stops (table : Z -> option (R * R)) (pre post : list Z)
  (h : Z) (a b : R) :
  (forall h', In h' pre -> table (h' + 1)%Z <> None) ->
  table (h + 1)%Z = None ->
  accumulate table (pre ++ h :: post) a b = accumulate table pre a b.
Proof.
  revert a b. induction pre as [| h' pre IH]; intros a b Hall Hnone; simpl.
  - now rewrite Hnone.
  - destruct (table (h' + 1)%Z) as [[dif dir] |] eqn:Et.
    + apply IH; [| exact Hnone]. intros h'' Hin. apply Hall. now right.
    + reflexivity.
Qed.

Lemma slice_middle {A} (l1 l2 l3 : list A) :
  slice (l1 ++ l2 ++ l3) (Z.of_nat (length l1))
    (Z.of_nat (length l1) + Z.of_nat (length l2))
  = l2.
Proof.
  unfold slice, clamp. rewrite !length_app.
  destruct (Z.of_nat (length l1) <? 0)%Z eqn:E; [apply Z.ltb_lt in E; lia |].
  destruct (Z.of_nat (length l1) + Z.of_nat (length l2) <? 0)%Z eqn:E0;
    [apply Z.ltb_lt in E0; lia |].
  rewrite !Z.min_l by lia.
  replace (Z.to_nat (Z.of_nat (length l1) + Z.of_nat (length l2)
                     - Z.of_nat (length l1))) with (length l2) by lia.
  rewrite Nat2Z.id, skipn_app, skipn_all, Nat.sub_diag. simpl.
  rewrite firstn_app, firstn_all, Nat.sub_diag. simpl. apply app_nil_r.
Qed.

End SkyFacts.

(** X17.  For a period that does not run over the end of the year,
    [selectHourlyData] picks from [range(8760)] the numbers from
    [stAnnualHour - 1] to [endAnnualHour], both included, that pass the
    hour-of-day test.  For whole days before the end of the year these are
    [endAnnualHour - stAnnualHour + 2] numbers, one more than the period
    has hours. *)
Theorem X17_hours_of_a_period (stAnnualHour endAnnualHour stHour endHour : Z) :
  (1 <= stAnnualHour < endAnnualHour)%Z ->
  (forall h,
      In h (Sky.selectHourlyData (PyList.range 8760) stAnnualHour
              endAnnualHour stHour endHour)
      <-> (stAnnualHour - 1 <= h <= endAnnualHour)%Z /\ (h < 8760)%Z
          /\ Sky.inHours stHour endHour
               (h - (stAnnualHour - 1) + stHour - 1) = true)
  /\ ((endAnnualHour < 8760)%Z ->
      Sky.selectHourlyData (PyList.range 8760) stAnnualHour endAnnualHour 1 24
      = map Z.of_nat
          (seq (Z.to_nat (stAnnualHour - 1))
             (Z.to_nat (endAnnualHour - stAnnualHour + 2)))).
Proof.
  intros H. split.
  - intros h. rewrite SkyFacts.selectHourlyData_range by exact H.
    rewrite filter_In, in_map_iff. split.
    + intros [(i & <- & Hi) Hf]. apply in_seq in Hi.
      split; [lia |]. split; [lia | exact Hf].
    + intros (H1 & H2 & Hf). split; [| exact Hf].
      exists (Z.to_nat h). split; [lia |]. apply in_seq. lia.
  - intros Hend. rewrite SkyFacts.selectHourlyData_range by exact H.
    rewrite !Z.min_l by lia.
    replace (endAnnualHour + 1 - (stAnnualHour - 1))%Z
      with (endAnnualHour - stAnnualHour + 2)%Z by lia.
    apply CheckFacts.filter_all. apply forallb_forall.
    intros h _. apply SkyFacts.inHours_whole_day.
Qed.

Lemma X17_hours_of_a_period_witness :
  (forall h,
      In h (Sky.selectHourlyData (PyList.range 8760) 1 48 1 24)
      <-> (1 - 1 <= h <= 48)%Z /\ (h < 8760)%Z
          /\ Sky.inHours 1 24 (h - (1 - 1) + 1 - 1) = true)
  /\ ((48 < 8760)%Z ->
      Sky.selectHourlyData (PyList.range 8760) 1 48 1 24
      = map Z.of_nat (seq (Z.to_nat (1 - 1)) (Z.to_nat (48 - 1 + 2)))).
Proof.
  apply (X17_hours_of_a_period 1 48 1 24). lia.
Defined.

(** X18.  [getCumulativeSky] never fails and returns one pair for every
    patch but patch 0.  For a patch that has data for every selected hour
    the pair holds the sums of the diffuse and of the direct values over
    the hours, divided by 1000; when an hour has no data the sums stop
    there without an error, and the pair holds the sums of the hours before
    it. *)
Theorem X18_cumulative_sky_sums
  (daylightMtxDict : list (Z * (Z -> option (R * R))))
  (stAnnualHour endAnnualHour stHour endHour : Z) (i : nat)
  (entry : Z * (Z -> option (R * R))) :
  let HOYS :=
    Sky.selectHourlyData (PyList.range 8760) stAnnualHour endAnnualHour
      stHour endHour in
  let sky :=
    Sky.getCumulativeSky daylightMtxDict stAnnualHour endAnnualHour
      stHour endHour in
  let dif := fun h => match snd entry (h + 1)%Z with
                      | Some dd => fst dd
                      | None => 0
                      end in
  let dir := fun h => match snd entry (h + 1)%Z with
                      | Some dd => snd dd
                      | None => 0
                      end in
  nth_error (filter (fun entry => negb (fst entry =? 0)%Z) daylightMtxDict) i
  = Some entry ->
  length sky
  = length (filter (fun entry => negb (fst entry =? 0)%Z) daylightMtxDict)
  /\ ((forall h, In h HOYS -> snd entry (h + 1)%Z <> None) ->
      nth_error sky i
      = Some ((0 + Py.sum (map dif HOYS)) / 1000,
              (0 + Py.sum (map dir HOYS)) / 1000))
  /\ (forall pre h post,
         HOYS = pre ++ h :: post ->
         (forall h', In h' pre -> snd entry (h' + 1)%Z <> None) ->
         snd entry (h + 1)%Z = None ->
         nth_error sky i
         = Some ((0 + Py.sum (map dif pre)) / 1000,
                 (0 + Py.sum (map dir pre)) / 1000)).
Proof.
  intros HOYS sky dif dir Hentry. subst sky. unfold Sky.getCumulativeSky.
  fold HOYS. cbv zeta. split; [apply length_map |]. split.
  - intros Hall. rewrite nth_error_map, Hentry. simpl.
    now rewrite (SkyFacts.accumulate_all _ _ _ _ Hall).
  - intros pre h post Hsplit Hall Hnone.
    rewrite nth_error_map, Hentry. simpl. rewrite Hsplit.
    rewrite (SkyFacts.accumulate_stops _ _ _ _ _ _ Hall Hnone).
    now rewrite (SkyFacts.accumulate_all _ _ _ _ Hall).
Qed.

Lemma X18_cumulative_sky_sums_witness :
  let entry : Z * (Z -> option (R * R)) :=
    (1%Z, fun HOY => if (HOY <? 3)%Z then Some (10, 20) else None) in
  let daylightMtxDict := [(0%Z, fun _ : Z => Some (0, 0)); entry] in
  let HOYS := Sky.selectHourlyData (PyList.range 8760) 1 48 1 24 in
  let sky := Sky.getCumulativeSky daylightMtxDict 1 48 1 24 in
  let dif := fun h => match snd entry (h + 1)%Z with
                      | Some dd => fst dd
                      | None => 0
                      end in
  let dir := fun h => match snd entry (h + 1)%Z with
                      | Some dd => snd dd
                      | None => 0
                      end in
  length sky
  = length (filter (fun entry => negb (fst entry =? 0)%Z) daylightMtxDict)
  /\ ((forall h, In h HOYS -> snd entry (h + 1)%Z <> None) ->
      nth_error sky 0
      = Some ((0 + Py.sum (map dif HOYS)) / 1000,
              (0 + Py.sum (map dir HOYS)) / 1000))
  /\ (forall pre h post,
         HOYS = pre ++ h :: post ->
         (forall h', In h' pre -> snd entry (h' + 1)%Z <> None) ->
         snd entry (h + 1)%Z = None ->
         nth_error sky 0
         = Some ((0 + Py.sum (map dif pre)) / 1000,
                 (0 + Py.sum (map dir pre)) / 1000)).
Proof.
  intros entry daylightMtxDict.
  apply (X18_cumulative_sky_sums daylightMtxDict 1 48 1 24 0 entry).
  reflexivity.
Defined.

(** X19.  The list that [prepareLBList] returns holds three parts of equal
    size, each a header of seven items followed by one number for every
    patch.  Whatever is removed, the total of a patch is its diffuse plus
    its direct value; with nothing removed, the totals are the sky matrix
    the hourly calculation reads. *)
Theorem X19_sky_list_parts (skyMtxLists : list (R * R))
  (strToBeFound locName unit : string) (st en : Z * Z * Z)
  (removeDiffuse removeDirect : bool) :
  let n := Z.of_nat (length skyMtxLists) in
  let out :=
    Sky.prepareLBList skyMtxLists strToBeFound st en locName unit
      removeDiffuse removeDirect in
  exists totals diffuse direct,
    Z.of_nat (length out) = (3 * (7 + n))%Z
    /\ PyList.slice out 7 (7 + n) = map PyList.PyFloat totals
    /\ PyList.slice out (14 + n) (14 + n + n) = map PyList.PyFloat diffuse
    /\ PyList.slice out (21 + n + n) (21 + n + n + n)
       = map PyList.PyFloat direct
    /\ totals = map (fun dd => fst dd + snd dd) (combine diffuse direct)
    /\ length diffuse = length skyMtxLists
    /\ length direct = length skyMtxLists
    /\ (removeDiffuse = false -> removeDirect = false ->
        totals = HighRes.skyMatrixOf skyMtxLists).
Proof.
  intros n out.
  set (triples := map (Sky.radTriple removeDiffuse removeDirect) skyMtxLists).
  exists (map (fun t => fst (fst t)) triples),
    (map (fun t => snd (fst t)) triples), (map (fun t => snd t) triples).
  assert (Hn : length triples = length skyMtxLists) by apply length_map.
  subst out. unfold Sky.prepareLBList. fold triples. cbv zeta.
  set (h1 := Sky.header strToBeFound locName "Sky Patches' Total Radiation"
               unit st en).
  set (h2 := Sky.header strToBeFound locName "Sky Patches' Diffuse Radiation"
               unit st en).
  set (h3 := Sky.header strToBeFound locName "Sky Patches' Direct Radiation"
               unit st en).
  set (t1 := map (fun t => PyList.PyFloat (fst (fst t))) triples).
  set (t2 := map (fun t => PyList.PyFloat (snd (fst t))) triples).
  set (t3 := map (fun t => PyList.PyFloat (snd t)) triples).
  assert (L1 : length t1 = length skyMtxLists)
    by (unfold t1; now rewrite length_map).
  assert (L2 : length t2 = length skyMtxLists)
    by (unfold t2; now rewrite length_map).
  assert (L3 : length t3 = length skyMtxLists)
    by (unfold t3; now rewrite length_map).
  assert (H1 : length h1 = 7%nat) by reflexivity.
  assert (H2 : length h2 = 7%nat) by reflexivity.
  assert (H3 : length h3 = 7%nat) by reflexivity.
  split; [rewrite !length_app; unfold n; lia |].
  split.
  { rewrite <- (app_assoc h1 t1).
    replace 7%Z with (Z.of_nat (length h1)) by (rewrite H1; reflexivity).
    replace n with (Z.of_nat (length t1)) by (rewrite L1; reflexivity).
    rewrite SkyFacts.slice_middle. unfold t1. now rewrite map_map. }
  split.
  { replace ((h1 ++ t1) ++ (h2 ++ t2) ++ h3 ++ t3)
      with (((h1 ++ t1) ++ h2) ++ t2 ++ (h3 ++ t3))
      by (now rewrite <- !app_assoc).
    replace (14 + n + n)%Z
      with (Z.of_nat (length ((h1 ++ t1) ++ h2)) + Z.of_nat (length t2))%Z
      by (rewrite !length_app, H1, H2, L1, L2; unfold n; lia).
    replace (14 + n)%Z with (Z.of_nat (length ((h1 ++ t1) ++ h2)))
      by (rewrite !length_app, H1, H2, L1; unfold n; lia).
    rewrite SkyFacts.slice_middle. unfold t2. now rewrite map_map. }
  split.
  { replace ((h1 ++ t1) ++ (h2 ++ t2) ++ h3 ++ t3)
      with ((((h1 ++ t1) ++ (h2 ++ t2)) ++ h3) ++ t3 ++ [])
      by (now rewrite app_nil_r, <- !app_assoc).
    replace (21 + n + n + n)%Z
      with (Z.of_nat (length (((h1 ++ t1) ++ (h2 ++ t2)) ++ h3))
            + Z.of_nat (length t3))%Z
      by (rewrite !length_app, H1, H2, H3, L1, L2, L3; unfold n; lia).
    replace (21 + n + n)%Z
      with (Z.of_nat (length (((h1 ++ t1) ++ (h2 ++ t2)) ++ h3)))
      by (rewrite !length_app, H1, H2, H3, L1, L2; unfold n; lia).
    rewrite SkyFacts.slice_middle. unfold t3. now rewrite map_map. }
  split.
  { unfold triples. rewrite !map_map. clear.
    induction skyMtxLists as [| [d r] l IH]; simpl; [reflexivity |].
    rewrite <- IH. f_equal. unfold Sky.radTriple.
    destruct removeDiffuse, removeDirect; simpl; lra. }
  split; [now rewrite length_map |].
  split; [now rewrite length_map |].
  intros -> ->. unfold triples, HighRes.skyMatrixOf. rewrite map_map.
  reflexivity.
Qed.

(** ** The temperature of the mesh faces *)

(** X20.  With [tempOrRad] set, a period that has baseline temperatures and
    transmissivities, and an absorptivity and transmissivities that are not
    negative, every face is given the mean baseline temperature plus its
    flux times one gain that is not negative: a face without flux shows
    the mean baseline, and a face with more flux is never shown cooler. *)
Theorem X20_face_temperatures (periodMethod : Z) (bodyPosture_ : option Z)
  (cloA : R) (finalWinTransmiss radTemp radResults : list R) :
  finalWinTransmiss <> [] ->
  radTemp <> [] ->
  0 <= cloA ->
  Forall (fun w => 0 <= w) finalWinTransmiss ->
  exists out gain,
    Convert.meshResults true periodMethod bodyPosture_ cloA finalWinTransmiss
      radTemp radResults = Some out
    /\ 0 <= gain
    /\ out = map (fun flux =>
                    Py.sum radTemp / INR (length radTemp) + gain * flux)
               radResults.
Proof.
  intros Hw Hr HcloA Hnonneg.
  assert (Hlw : 0 < INR (length finalWinTransmiss)).
  { apply lt_0_INR. destruct finalWinTransmiss; [contradiction | simpl; lia]. }
  assert (Hlr : 0 < INR (length radTemp)).
  { apply lt_0_INR. destruct radTemp; [contradiction | simpl; lia]. }
  assert (Hfe := fracEff_pos bodyPosture_).
  unfold Convert.meshResults.
  rewrite !PyFacts.div_ok by lra. cbn [Py.bind].
  set (fac := if (periodMethod =? 0)%Z then 500 else 1).
  assert (Hfac : 0 < fac) by (unfold fac; destruct (periodMethod =? 0)%Z; lra).
  set (avgWinTrans := Py.sum finalWinTransmiss / INR (length finalWinTransmiss)).
  assert (Havg : 0 <= avgWinTrans).
  { apply MoreFacts.div_nonneg; [now apply MoreFacts.sum_nonneg | exact Hlw]. }
  assert (Hk : 0 < fracEff bodyPosture_ * radTransCoeff)
    by (unfold radTransCoeff; nra).
  exists (map (fun flux =>
                 Convert.convertFluxToTemp (flux / INR (length radTemp)) cloA
                   (fracEff bodyPosture_) radTransCoeff
                   (Py.sum radTemp / INR (length radTemp)) avgWinTrans fac)
            radResults),
    (avgWinTrans * fac * cloA / 0.95 / (fracEff bodyPosture_ * radTransCoeff)
     / INR (length radTemp)).
  split; [reflexivity |]. split.
  - repeat apply MoreFacts.div_nonneg; try lra.
    apply Rmult_le_pos; [| exact HcloA].
    apply Rmult_le_pos; [exact Havg | lra].
  - apply map_ext. intros flux. unfold Convert.convertFluxToTemp.
    field. split; [lra |]. split; [unfold radTransCoeff; lra | lra].
Qed.

Lemma X20_face_temperatures_witness :
  exists out gain,
    Convert.meshResults true 0 None 0.7 [1; 0.5] [20; 22] [0; 1000] = Some out
    /\ 0 <= gain
    /\ out = map (fun flux => Py.sum [20; 22] / INR (length [20; 22])
                              + gain * flux)
               [0; 1000].
Proof.
  apply (X20_face_temperatures 0 None 0.7 [1; 0.5] [20; 22] [0; 1000]).
  - discriminate.
  - discriminate.
  - lra.
  - repeat constructor; lra.
Defined.

(** X21.  A [_meanRadTemperature] that is only a header (its third item
    names a temperature, and no value follows) passes the check with no
    temperatures at all.  Every run on a period that is not empty then
    stops with an error: the selection of the hours, both hourly loops and
    the conversion of the mesh results all read a temperature that is not
    there. *)
Theorem X21_header_only_input_fails {Point Vector Mesh : Type}
  (floatOfString : string -> option R) (h0 h1 h3 h4 h5 h6 : PyList.PyVal)
  (dataType : string) (HOYS : list Z) :
  PyList.substringb "Temperature" dataType = true ->
  HOYS <> [] ->
  Checks.checkMeanRadTemperature floatOfString
    [h0; h1; PyList.PyStr dataType; h3; h4; h5; h6] = (true, [])
  /\ Prepare.selectRadTemp false [] HOYS = None
  /\ (forall (MeshRay : Mesh -> Point -> Vector -> R)
        (splineStand splineSit : Z -> Z -> R)
        (e : LowRes.Env Point Vector Mesh),
         LowRes.radTemp e = [] -> LowRes.HOYS e = HOYS ->
         LowRes.mainSimple MeshRay splineStand splineSit e false [] = None)
  /\ (forall e : HighRes.Env,
         HighRes.radTemp e = [] -> HighRes.HOYS e = HOYS ->
         HighRes.main e false [] = None)
  /\ (forall periodMethod bodyPosture_ cloA finalWinTransmiss radResults,
         Convert.meshResults true periodMethod bodyPosture_ cloA
           finalWinTransmiss [] radResults = None).
Proof.
  intros Hsub Hne. split.
  { unfold Checks.checkMeanRadTemperature. cbv zeta.
    cbn [length Nat.eqb negb nth_error PyList.contains]. rewrite Hsub.
    reflexivity. }
  destruct HOYS as [| hour HOYS]; [contradiction |]. clear Hne.
  split.
  { unfold Prepare.selectRadTemp. cbn [negb Py.mapM].
    replace (Py.index [] (hour - 1)) with (@None R); [reflexivity |].
    unfold Py.index. destruct (0 <=? hour - 1)%Z eqn:E.
    - now destruct (Z.to_nat (hour - 1)).
    - apply Z.leb_gt in E. simpl length.
      destruct (- Z.of_nat 0 <=? hour - 1)%Z eqn:E'; [| reflexivity].
      apply Z.leb_le in E'. lia. }
  split.
  { intros MeshRay splineStand splineSit e Hr Hh.
    unfold LowRes.mainSimple, LowRes.nonParallelMRTCalc.
    destruct (LowRes.skyViewFac MeshRay e) as [s |]; [| reflexivity].
    cbn [Py.bind]. rewrite Hh. cbn [Py.enumerate Py.enumerateFrom forEach fst snd].
    destruct (LowRes.MRTCalc MeshRay splineStand splineSit e s 0 hour)
      as [acts |] eqn:Ea; [| reflexivity].
    destruct (LowResFacts.MRTCalc_inv _ _ _ _ _ _ _ _ Ea)
      as (altitude & rt & _ & Hrt & _).
    rewrite Hr in Hrt. discriminate. }
  split.
  { intros e Hr Hh. unfold HighRes.main, HighRes.nonParallelRadCalc.
    rewrite Hh. cbn [Py.enumerate Py.enumerateFrom forEach fst snd].
    destruct (HighRes.radCalc e 0 hour) as [acts |] eqn:Ea; [| reflexivity].
    destruct (HighResFacts.radCalc_inv _ _ _ _ Ea)
      as [(_ & f & rt & _ & Hrt & _) | (_ & rt & Hrt & _)];
      rewrite Hr in Hrt; discriminate. }
  intros periodMethod bodyPosture_ cloA finalWinTransmiss radResults.
  unfold Convert.meshResults.
  destruct (Py.div (Py.sum finalWinTransmiss) (INR (length finalWinTransmiss)));
    [| reflexivity].
  cbn [Py.bind length INR]. unfold Py.div.
  destruct (Req_dec_T 0 0) as [_ | H]; [reflexivity | now elim H].
Qed.

Lemma X21_header_only_input_fails_witness :
  Checks.checkMeanRadTemperature (fun _ => None)
    [PyList.PyStr "key"; PyList.PyStr "Site"; PyList.PyStr "Temperature";
     PyList.PyStr "C"; PyList.PyStr "Hourly"; PyList.PyTuple 1 1 1;
     PyList.PyTuple 12 31 24] = (true, [])
  /\ Prepare.selectRadTemp false [] [12%Z] = None
  /\ (forall (MeshRay : (nat -> nat -> bool) -> nat -> nat -> R)
        (splineStand splineSit : Z -> Z -> R)
        (e : LowRes.Env nat nat (nat -> nat -> bool)),
         LowRes.radTemp e = [] -> LowRes.HOYS e = [12%Z] ->
         LowRes.mainSimple MeshRay splineStand splineSit e false [] = None)
  /\ (forall e : HighRes.Env,
         HighRes.radTemp e = [] -> HighRes.HOYS e = [12%Z] ->
         HighRes.main e false [] = None)
  /\ (forall periodMethod bodyPosture_ cloA finalWinTransmiss radResults,
         Convert.meshResults true periodMethod bodyPosture_ cloA
           finalWinTransmiss [] radResults = None).
Proof.
  apply (X21_header_only_input_fails (fun _ => None)
           (PyList.PyStr "key") (PyList.PyStr "Site") (PyList.PyStr "C")
           (PyList.PyStr "Hourly") (PyList.PyTuple 1 1 1)
           (PyList.PyTuple 12 31 24) "Temperature" [12%Z]).
  - reflexivity.
  - discriminate.
Defined.

(** ** The posture and the method *)

(** X22.  With a sky matrix connected, the posture check accepts exactly
    no posture and the postures 0 to 5, and sets method 1 exactly for the
    postures 3 to 5.  The script then calls [main], and the body area that
    [main] divides by is always bound. *)
Theorem X22_posture_selects_method (bodyPosture_ : option Z) (method : Z) :
  (Checks.checkBodyPosture 0 bodyPosture_ = (true, method)
   <-> (bodyPosture_ = None /\ method = 0%Z)
       \/ exists z, bodyPosture_ = Some z
                    /\ ((0 <= z <= 2)%Z /\ method = 0%Z
                        \/ (3 <= z <= 5)%Z /\ method = 1%Z))
  /\ (Checks.checkBodyPosture 0 bodyPosture_ = (true, method) ->
      Checks.entryOf method = Checks.CallMain
      /\ forall e : HighRes.Env,
          HighRes.method e = method ->
          exists area, HighRes.totalPersonArea e = Some area).
Proof.
  assert (Hm : Checks.checkBodyPosture 0 bodyPosture_ = (true, method)
               <-> (bodyPosture_ = None /\ method = 0%Z)
                   \/ exists z, bodyPosture_ = Some z
                                /\ ((0 <= z <= 2)%Z /\ method = 0%Z
                                    \/ (3 <= z <= 5)%Z /\ method = 1%Z)).
  { unfold Checks.checkBodyPosture, postureIs, postureIsNone.
    change (0 =? 0)%Z with true. cbv iota. split.
    - intros H. destruct bodyPosture_ as [z |].
      + right. exists z. split; [reflexivity |].
        destruct (Z.eqb_spec z 0); [injection H as <-; left; lia |].
        destruct (Z.eqb_spec z 1); [injection H as <-; left; lia |].
        destruct (Z.eqb_spec z 2); [injection H as <-; left; lia |].
        destruct (Z.eqb_spec z 3); [injection H as <-; right; lia |].
        destruct (Z.eqb_spec z 4); [injection H as <-; right; lia |].
        destruct (Z.eqb_spec z 5); [injection H as <-; right; lia |].
        discriminate.
      + left. simpl in H. injection H as <-. now split.
    - intros [[-> ->] | (z & -> & Hz)]; [reflexivity |].
      destruct (Z.eqb_spec z 0); [destruct Hz as [[_ ->] | [Hz _]];
                                  [reflexivity | lia] |].
      destruct (Z.eqb_spec z 1); [destruct Hz as [[_ ->] | [Hz _]];
                                  [reflexivity | lia] |].
      destruct (Z.eqb_spec z 2); [destruct Hz as [[_ ->] | [Hz _]];
                                  [reflexivity | lia] |].
      destruct (Z.eqb_spec z 3); [destruct Hz as [[Hz _] | [_ ->]];
                                  [lia | reflexivity] |].
      destruct (Z.eqb_spec z 4); [destruct Hz as [[Hz _] | [_ ->]];
                                  [lia | reflexivity] |].
      destruct (Z.eqb_spec z 5); [destruct Hz as [[Hz _] | [_ ->]];
                                  [lia | reflexivity] |].
      destruct Hz as [[Hz _] | [Hz _]]; lia. }
  split; [exact Hm |].
  intros H. apply Hm in H.
  assert (Hmethod : method = 0%Z \/ method = 1%Z).
  { destruct H as [[_ ->] | (z & _ & [[_ ->] | [_ ->]])]; auto. }
  split; [destruct Hmethod as [-> | ->]; reflexivity |].
  intros e He. unfold HighRes.totalPersonArea. rewrite He.
  destruct Hmethod as [-> | ->]; simpl; eauto.
Qed.
